(** * cleanroom: the execution engine, embedded and verified

    A shallow embedding of the parts of [cleanroom] that hold the build
    state and finish a build:

    - [cleanroom/command.py]       the [Command] base class,
    - [cleanroom/runcontext.py]    [RunContext] and its pickler pair,
    - [cleanroom/commands/sed.py], [cleanroom/commands/_teardown.py],
    - [cleanroom/generator/commands/set_timezone.py] and
      [cleanroom/generator/commands/ssh_allow_login.py].

    Python objects that are mutated through several references (the
    [hooks], [substitutions] and [flags] dictionaries, which
    [_install_base_context] copies by reference) live in an explicit
    store; a run context holds their addresses.  Exceptions are results
    that keep the state reached when they were raised. *)

From Stdlib Require Import Strings.Ascii.
From stdpp Require Import base option list gmap strings.

Open Scope string_scope.
Open Scope Z_scope.

(** ** Python values, exceptions and results *)

Module Py.

(** The exceptions the modelled code can raise.  [External] is whatever
    code outside the model raises.  [LoopBudget] is not a Python
    exception: it marks a loop of the model that was given fewer
    iterations than it needs. *)
Inductive Exn : Type :=
| AssertionError
| AttributeError (what : string)
| TypeError (what : string)
| IndexError
| ValueError
| UnpicklingError (msg : string)
| ParseError (msg : string)
| GenerateError (msg : string)
| External (what : string)
| LoopBudget.

(** The outcome of a call: a value, or a raised exception. *)
Inductive Res (A : Type) : Type :=
| Done (a : A)
| Raised (e : Exn).
Arguments Done {A} a.
Arguments Raised {A} e.

(** [s[n:]] on a [str]: shorter strings give the empty string. *)
Fixpoint slice_from (n : nat) (s : string) : string :=
  match n, s with
  | O, _ => s
  | S n', String _ s' => slice_from n' s'
  | S _, EmptyString => EmptyString
  end.

(** The double quote character, for messages that quote a name. *)
Definition dq : string := String (Ascii.ascii_of_nat 34) EmptyString.

End Py.
Export Py.

(** ** [cleanroom/command.py] *)

Module Command.

(** A command instance.  [obj_id] is the identity of the Python object
    ([id(obj)]): two instances of one class differ in it.  [__module__]
    is the module the (sub)class was defined in. *)
Record Command : Type := mkCommand {
  obj_id : nat;
  __module__ : string;
  _syntax_string : string;
  _help_string : string
}.

(** [Command.name]: [self.__module__[19:]], minus [cleanroom.commands.] *)
Definition name (self : Command) : string := slice_from 19 (__module__ self).

Definition syntax (self : Command) : string := _syntax_string self.
Definition help (self : Command) : string := _help_string self.

End Command.
Export Command.

#[local] Unset Elimination Schemes.

(** Python objects as trees.  [PCmd] is an instance of (a subclass of)
    [Command]; [PInst] is an instance of any other class with its
    [__dict__]. *)
Inductive PyObj : Type :=
| PNone
| PBool (b : bool)
| PInt (z : Z)
| PStr (s : string)
| PTuple (items : list PyObj)
| PList (items : list PyObj)
| PDict (items : list (string * PyObj))
| PInst (cls : string) (attrs : list (string * PyObj))
| PCmd (c : Command).

#[local] Set Elimination Schemes.

(** Induction over object trees, with the hypothesis on every child. *)
Definition PyObj_ind (P : PyObj -> Prop)
    (HNone : P PNone) (HBool : forall b, P (PBool b))
    (HInt : forall z, P (PInt z)) (HStr : forall s, P (PStr s))
    (HTuple : forall items, Forall P items -> P (PTuple items))
    (HList : forall items, Forall P items -> P (PList items))
    (HDict : forall items, Forall (fun kv => P (snd kv)) items -> P (PDict items))
    (HInst : forall cls attrs, Forall (fun kv => P (snd kv)) attrs ->
                               P (PInst cls attrs))
    (HCmd : forall c, P (PCmd c)) : forall o, P o :=
  fix go (o : PyObj) : P o :=
    let all :=
      fix all (l : list PyObj) : Forall P l :=
        match l with
        | [] => List.Forall_nil P
        | x :: l' => List.Forall_cons P x l' (go x) (all l')
        end in
    let allv :=
      fix allv (l : list (string * PyObj)) : Forall (fun kv => P (snd kv)) l :=
        match l with
        | [] => List.Forall_nil _
        | kv :: l' => List.Forall_cons _ kv l' (go (snd kv)) (allv l')
        end in
    match o with
    | PNone => HNone
    | PBool b => HBool b
    | PInt z => HInt z
    | PStr s => HStr s
    | PTuple items => HTuple items (all items)
    | PList items => HList items (all items)
    | PDict items => HDict items (allv items)
    | PInst cls attrs => HInst cls attrs (allv attrs)
    | PCmd c => HCmd c
    end.

(** [len(x) != 0] for the argument tuple and the keyword dictionary. *)
Definition nonempty {A} (l : list A) : bool := negb (Nat.eqb (length l) 0).

Module CommandBase.

(** [Command.validate_arguments]: the base class asserts. *)
Definition validate_arguments {RC : Type} (self : Command) (run_context : RC)
    (args : list PyObj) (kwargs : list (string * PyObj)) : Res PyObj :=
  Raised AssertionError.

(** [Command._validate_no_arguments].  The two [ex.ParseError(...)]
    expressions build an exception object and drop it: there is no
    [raise] in front of them.  [built_errors] is what they evaluate
    to. *)
Definition built_errors (self : Command) (args : list PyObj)
    (kwargs : list (string * PyObj)) : list Exn :=
  (if nonempty args
   then [ParseError (name self +:+ " does not take arguments.")] else [])
  ++ (if nonempty kwargs
      then [ParseError (name self +:+ " does not take keyword arguments.")]
      else []).

Definition _validate_no_arguments {RC : Type} (self : Command)
    (run_context : RC) (args : list PyObj) (kwargs : list (string * PyObj))
    : Res PyObj :=
  let _ := built_errors self args kwargs in
  Done PNone.

(** [Command.__call__]: the base class asserts. *)
Definition __call__ {RC : Type} (self : Command) (run_context : RC)
    (args : list PyObj) (kwargs : list (string * PyObj)) : Res PyObj :=
  Raised AssertionError.

End CommandBase.

(** ** The command registry

    [cleanroom/parser.py] is not among the modelled sources: its
    [Parser.command] is taken as a parameter.  It returns the registry's
    instance for a name, or raises. *)
Class Parser : Type := {
  command : PyObj -> Res Command
}.

(** ** Persistence: [_RunContextPickler] and [_RunContextUnpickler] *)

Module Persist.

#[local] Unset Elimination Schemes.

(** What a pickler writes.  [KCmdByValue] is a [Command] instance
    written by value (its class and its [__dict__]); [KPersId] is a
    persistent id, the value [persistent_id] returned. *)
Inductive Pickled : Type :=
| KNone
| KBool (b : bool)
| KInt (z : Z)
| KStr (s : string)
| KTuple (items : list Pickled)
| KList (items : list Pickled)
| KDict (items : list (string * Pickled))
| KInst (cls : string) (attrs : list (string * Pickled))
| KCmdByValue (module_ syntax_ help_ : string)
| KPersId (pid : PyObj).

#[local] Set Elimination Schemes.

Definition Pickled_ind (P : Pickled -> Prop)
    (HNone : P KNone) (HBool : forall b, P (KBool b))
    (HInt : forall z, P (KInt z)) (HStr : forall s, P (KStr s))
    (HTuple : forall items, Forall P items -> P (KTuple items))
    (HList : forall items, Forall P items -> P (KList items))
    (HDict : forall items, Forall (fun kv => P (snd kv)) items -> P (KDict items))
    (HInst : forall cls attrs, Forall (fun kv => P (snd kv)) attrs ->
                               P (KInst cls attrs))
    (HByValue : forall m s h, P (KCmdByValue m s h))
    (HPers : forall pid, P (KPersId pid)) : forall k, P k :=
  fix go (k : Pickled) : P k :=
    let all :=
      fix all (l : list Pickled) : Forall P l :=
        match l with
        | [] => List.Forall_nil P
        | x :: l' => List.Forall_cons P x l' (go x) (all l')
        end in
    let allv :=
      fix allv (l : list (string * Pickled)) : Forall (fun kv => P (snd kv)) l :=
        match l with
        | [] => List.Forall_nil _
        | kv :: l' => List.Forall_cons _ kv l' (go (snd kv)) (allv l')
        end in
    match k with
    | KNone => HNone
    | KBool b => HBool b
    | KInt z => HInt z
    | KStr s => HStr s
    | KTuple items => HTuple items (all items)
    | KList items => HList items (all items)
    | KDict items => HDict items (allv items)
    | KInst cls attrs => HInst cls attrs (allv attrs)
    | KCmdByValue m s h => HByValue m s h
    | KPersId pid => HPers pid
    end.

(** [pickle.Pickler.dump]: [save] asks [persistent_id] about every
    object first and writes the id when there is one; otherwise it
    writes the object by structure and saves its children. *)
Section Dump.
Variable persistent_id : PyObj -> option PyObj.

Fixpoint dump (obj : PyObj) : Pickled :=
  match persistent_id obj with
  | Some pid => KPersId pid
  | None =>
      match obj with
      | PNone => KNone
      | PBool b => KBool b
      | PInt z => KInt z
      | PStr s => KStr s
      | PTuple items => KTuple (map dump items)
      | PList items => KList (map dump items)
      | PDict items => KDict (map (fun kv => (fst kv, dump (snd kv))) items)
      | PInst cls attrs =>
          KInst cls (map (fun kv => (fst kv, dump (snd kv))) attrs)
      | PCmd c => KCmdByValue (__module__ c) (_syntax_string c) (_help_string c)
      end
  end.
End Dump.

(** [pickle.Pickler.persistent_id] of the base class. *)
Definition default_persistent_id (obj : PyObj) : option PyObj := None.

(** [_RunContextPickler.persistent_id] *)
Definition persistent_id (obj : PyObj) : option PyObj :=
  match obj with
  | PCmd c => Some (PTuple [PStr "Command"; PStr (name c)])
  | _ => None
  end.

(** Loading the items of a container one after the other; the first
    exception ends it. *)
Section LoadItems.
Context {K V : Type} (load_item : K -> nat -> Res V * nat).

Fixpoint load_all (l : list K) (next : nat) : Res (list V) * nat :=
  match l with
  | [] => (Done [], next)
  | x :: l' =>
      match load_item x next with
      | (Done o, n1) =>
          match load_all l' n1 with
          | (Done os, n2) => (Done (o :: os), n2)
          | (Raised e, n2) => (Raised e, n2)
          end
      | (Raised e, n1) => (Raised e, n1)
      end
  end.

Fixpoint load_vals (l : list (string * K)) (next : nat)
    : Res (list (string * V)) * nat :=
  match l with
  | [] => (Done [], next)
  | kv :: l' =>
      match load_item (snd kv) next with
      | (Done o, n1) =>
          match load_vals l' n1 with
          | (Done os, n2) => (Done ((fst kv, o) :: os), n2)
          | (Raised e, n2) => (Raised e, n2)
          end
      | (Raised e, n1) => (Raised e, n1)
      end
  end.
End LoadItems.

(** [pickle.Unpickler.load].  [next] is the identity the next object
    built from a by-value record gets. *)
Section Load.
Variable persistent_load : PyObj -> Res PyObj.

Fixpoint load (k : Pickled) (next : nat) {struct k} : Res PyObj * nat :=
  match k with
  | KNone => (Done PNone, next)
  | KBool b => (Done (PBool b), next)
  | KInt z => (Done (PInt z), next)
  | KStr s => (Done (PStr s), next)
  | KTuple items =>
      match load_all load items next with
      | (Done os, n) => (Done (PTuple os), n)
      | (Raised e, n) => (Raised e, n)
      end
  | KList items =>
      match load_all load items next with
      | (Done os, n) => (Done (PList os), n)
      | (Raised e, n) => (Raised e, n)
      end
  | KDict items =>
      match load_vals load items next with
      | (Done os, n) => (Done (PDict os), n)
      | (Raised e, n) => (Raised e, n)
      end
  | KInst cls attrs =>
      match load_vals load attrs next with
      | (Done os, n) => (Done (PInst cls os), n)
      | (Raised e, n) => (Raised e, n)
      end
  | KCmdByValue m s h => (Done (PCmd (mkCommand next m s h)), S next)
  | KPersId pid => (persistent_load pid, next)
  end.
End Load.

(** [tag, cmd = pid]: unpacking any iterable of two items. *)
Definition unpack2 (pid : PyObj) : Res (PyObj * PyObj) :=
  match pid with
  | PTuple [a; b] | PList [a; b] => Done (a, b)
  | PStr (String a (String b EmptyString)) =>
      Done (PStr (String a EmptyString), PStr (String b EmptyString))
  | PDict [(a, _); (b, _)] => Done (PStr a, PStr b)
  | PTuple _ | PList _ | PStr _ | PDict _ => Raised ValueError
  | PNone | PBool _ | PInt _ | PInst _ _ | PCmd _ =>
      Raised (TypeError "cannot unpack non-iterable object")
  end.

(** [tag == 'Command'] *)
Definition is_Command_tag (tag : PyObj) : bool :=
  match tag with
  | PStr s => String.eqb s "Command"
  | _ => false
  end.

(** [_RunContextUnpickler.persistent_load] *)
Definition persistent_load `{Parser} (pid : PyObj) : Res PyObj :=
  match unpack2 pid with
  | Raised e => Raised e
  | Done (tag, cmd) =>
      if is_Command_tag tag
      then match command cmd with
           | Done c => Done (PCmd c)
           | Raised e => Raised e
           end
      else Raised (UnpicklingError "Unsupported persistent object.")
  end.

(** The [Command] instances of an object graph, in the order [save]
    meets them. *)
Fixpoint commands (obj : PyObj) : list Command :=
  match obj with
  | PTuple items | PList items => flat_map commands items
  | PDict items | PInst _ items => flat_map (fun kv => commands (snd kv)) items
  | PCmd c => [c]
  | _ => []
  end.

(** The persistent ids of a pickle, in stream order. *)
Fixpoint tokens (k : Pickled) : list PyObj :=
  match k with
  | KTuple items | KList items => flat_map tokens items
  | KDict items | KInst _ items => flat_map (fun kv => tokens (snd kv)) items
  | KPersId pid => [pid]
  | _ => []
  end.

(** The by-value [Command] records of a pickle. *)
Fixpoint by_value (k : Pickled) : list (string * string * string) :=
  match k with
  | KTuple items | KList items => flat_map by_value items
  | KDict items | KInst _ items => flat_map (fun kv => by_value (snd kv)) items
  | KCmdByValue m s h => [(m, s, h)]
  | _ => []
  end.

(** The token the context pickler writes for a command. *)
Definition token_of (c : Command) : PyObj :=
  PTuple [PStr "Command"; PStr (name c)].

(** A command is the registry's own instance for its name. *)
Definition registered `{Parser} (c : Command) : Prop :=
  command (PStr (name c)) = Done c.

End Persist.

(** ** [cleanroom/runcontext.py]: the data *)

(** The generator object a run context delegates to.  Its class
    ([cleanroom/context.py]) is not among the modelled sources; these are
    the methods the modelled code calls on it.  Its printer only writes
    to the console and is left out. *)
Module Ctx.
Record Context : Type := mkContext {
  systems_directory : string;
  storage_directory : string -> string;
  current_system_directory : string;
  fs_directory : option string -> string;
  meta_directory : option string -> string;
  system_definition_directory : string -> string;
  pickle_jar : option string -> string;
  work_repository_directory : string;
  binary_OSTREE : string
}.
End Ctx.
Export Ctx.

(** Addresses of the dictionaries in the store. *)
Abbreviation loc := nat (only parsing).

(** A hook entry is whatever [Parser.create_execute_object] builds: an
    object that may hold [Command] instances. *)
Abbreviation ExecObject := PyObj (only parsing).

Module RC.

#[local] Unset Elimination Schemes.

(** The attributes of a [RunContext] instance.  [hooks],
    [substitutions] and [flags] are addresses: assignment copies the
    reference.  [local_substitutions] and [hooks_that_already_ran] are
    created by the constructor and never assigned from another object,
    so they are held by value.  [file_name], [line_number] and
    [line_offset] are instance attributes that exist only once
    [set_command] has assigned them ([None] here means: not in the
    instance's [__dict__]). *)
Inductive RunContext : Type := mkRunContext {
  ctx : option Context;
  system : string;
  base_system : option string;
  timestamp : string;
  base_context : option RunContext;
  hooks : loc;
  hooks_that_already_ran : list string;
  substitutions : loc;
  local_substitutions : gmap string string;
  flags : loc;
  _command : option string;
  _line_number : Z;
  _line_offset : Z;
  file_name : option string;
  line_number : option Z;
  line_offset : option Z
}.

#[local] Set Elimination Schemes.

(** Attribute assignment [self.f = v]. *)
Definition upd_ctx (v : option Context) (self : RunContext) : RunContext :=
  {| ctx := v;
     system := system self;
     base_system := base_system self;
     timestamp := timestamp self;
     base_context := base_context self;
     hooks := hooks self;
     hooks_that_already_ran := hooks_that_already_ran self;
     substitutions := substitutions self;
     local_substitutions := local_substitutions self;
     flags := flags self;
     _command := _command self;
     _line_number := _line_number self;
     _line_offset := _line_offset self;
     file_name := file_name self;
     line_number := line_number self;
     line_offset := line_offset self |}.
Definition upd_timestamp (v : string) (self : RunContext) : RunContext :=
  {| ctx := ctx self;
     system := system self;
     base_system := base_system self;
     timestamp := v;
     base_context := base_context self;
     hooks := hooks self;
     hooks_that_already_ran := hooks_that_already_ran self;
     substitutions := substitutions self;
     local_substitutions := local_substitutions self;
     flags := flags self;
     _command := _command self;
     _line_number := _line_number self;
     _line_offset := _line_offset self;
     file_name := file_name self;
     line_number := line_number self;
     line_offset := line_offset self |}.
Definition upd_base_context (v : option RunContext) (self : RunContext) : RunContext :=
  {| ctx := ctx self;
     system := system self;
     base_system := base_system self;
     timestamp := timestamp self;
     base_context := v;
     hooks := hooks self;
     hooks_that_already_ran := hooks_that_already_ran self;
     substitutions := substitutions self;
     local_substitutions := local_substitutions self;
     flags := flags self;
     _command := _command self;
     _line_number := _line_number self;
     _line_offset := _line_offset self;
     file_name := file_name self;
     line_number := line_number self;
     line_offset := line_offset self |}.
Definition upd_hooks (v : loc) (self : RunContext) : RunContext :=
  {| ctx := ctx self;
     system := system self;
     base_system := base_system self;
     timestamp := timestamp self;
     base_context := base_context self;
     hooks := v;
     hooks_that_already_ran := hooks_that_already_ran self;
     substitutions := substitutions self;
     local_substitutions := local_substitutions self;
     flags := flags self;
     _command := _command self;
     _line_number := _line_number self;
     _line_offset := _line_offset self;
     file_name := file_name self;
     line_number := line_number self;
     line_offset := line_offset self |}.
Definition upd_hooks_that_already_ran (v : list string) (self : RunContext) : RunContext :=
  {| ctx := ctx self;
     system := system self;
     base_system := base_system self;
     timestamp := timestamp self;
     base_context := base_context self;
     hooks := hooks self;
     hooks_that_already_ran := v;
     substitutions := substitutions self;
     local_substitutions := local_substitutions self;
     flags := flags self;
     _command := _command self;
     _line_number := _line_number self;
     _line_offset := _line_offset self;
     file_name := file_name self;
     line_number := line_number self;
     line_offset := line_offset self |}.
Definition upd_substitutions (v : loc) (self : RunContext) : RunContext :=
  {| ctx := ctx self;
     system := system self;
     base_system := base_system self;
     timestamp := timestamp self;
     base_context := base_context self;
     hooks := hooks self;
     hooks_that_already_ran := hooks_that_already_ran self;
     substitutions := v;
     local_substitutions := local_substitutions self;
     flags := flags self;
     _command := _command self;
     _line_number := _line_number self;
     _line_offset := _line_offset self;
     file_name := file_name self;
     line_number := line_number self;
     line_offset := line_offset self |}.
Definition upd_local_substitutions (v : gmap string string) (self : RunContext) : RunContext :=
  {| ctx := ctx self;
     system := system self;
     base_system := base_system self;
     timestamp := timestamp self;
     base_context := base_context self;
     hooks := hooks self;
     hooks_that_already_ran := hooks_that_already_ran self;
     substitutions := substitutions self;
     local_substitutions := v;
     flags := flags self;
     _command := _command self;
     _line_number := _line_number self;
     _line_offset := _line_offset self;
     file_name := file_name self;
     line_number := line_number self;
     line_offset := line_offset self |}.
Definition upd_flags (v : loc) (self : RunContext) : RunContext :=
  {| ctx := ctx self;
     system := system self;
     base_system := base_system self;
     timestamp := timestamp self;
     base_context := base_context self;
     hooks := hooks self;
     hooks_that_already_ran := hooks_that_already_ran self;
     substitutions := substitutions self;
     local_substitutions := local_substitutions self;
     flags := v;
     _command := _command self;
     _line_number := _line_number self;
     _line_offset := _line_offset self;
     file_name := file_name self;
     line_number := line_number self;
     line_offset := line_offset self |}.
Definition upd__command (v : option string) (self : RunContext) : RunContext :=
  {| ctx := ctx self;
     system := system self;
     base_system := base_system self;
     timestamp := timestamp self;
     base_context := base_context self;
     hooks := hooks self;
     hooks_that_already_ran := hooks_that_already_ran self;
     substitutions := substitutions self;
     local_substitutions := local_substitutions self;
     flags := flags self;
     _command := v;
     _line_number := _line_number self;
     _line_offset := _line_offset self;
     file_name := file_name self;
     line_number := line_number self;
     line_offset := line_offset self |}.
Definition upd__line_number (v : Z) (self : RunContext) : RunContext :=
  {| ctx := ctx self;
     system := system self;
     base_system := base_system self;
     timestamp := timestamp self;
     base_context := base_context self;
     hooks := hooks self;
     hooks_that_already_ran := hooks_that_already_ran self;
     substitutions := substitutions self;
     local_substitutions := local_substitutions self;
     flags := flags self;
     _command := _command self;
     _line_number := v;
     _line_offset := _line_offset self;
     file_name := file_name self;
     line_number := line_number self;
     line_offset := line_offset self |}.
Definition upd__line_offset (v : Z) (self : RunContext) : RunContext :=
  {| ctx := ctx self;
     system := system self;
     base_system := base_system self;
     timestamp := timestamp self;
     base_context := base_context self;
     hooks := hooks self;
     hooks_that_already_ran := hooks_that_already_ran self;
     substitutions := substitutions self;
     local_substitutions := local_substitutions self;
     flags := flags self;
     _command := _command self;
     _line_number := _line_number self;
     _line_offset := v;
     file_name := file_name self;
     line_number := line_number self;
     line_offset := line_offset self |}.
Definition upd_file_name (v : option string) (self : RunContext) : RunContext :=
  {| ctx := ctx self;
     system := system self;
     base_system := base_system self;
     timestamp := timestamp self;
     base_context := base_context self;
     hooks := hooks self;
     hooks_that_already_ran := hooks_that_already_ran self;
     substitutions := substitutions self;
     local_substitutions := local_substitutions self;
     flags := flags self;
     _command := _command self;
     _line_number := _line_number self;
     _line_offset := _line_offset self;
     file_name := v;
     line_number := line_number self;
     line_offset := line_offset self |}.
Definition upd_line_number (v : option Z) (self : RunContext) : RunContext :=
  {| ctx := ctx self;
     system := system self;
     base_system := base_system self;
     timestamp := timestamp self;
     base_context := base_context self;
     hooks := hooks self;
     hooks_that_already_ran := hooks_that_already_ran self;
     substitutions := substitutions self;
     local_substitutions := local_substitutions self;
     flags := flags self;
     _command := _command self;
     _line_number := _line_number self;
     _line_offset := _line_offset self;
     file_name := file_name self;
     line_number := v;
     line_offset := line_offset self |}.
Definition upd_line_offset (v : option Z) (self : RunContext) : RunContext :=
  {| ctx := ctx self;
     system := system self;
     base_system := base_system self;
     timestamp := timestamp self;
     base_context := base_context self;
     hooks := hooks self;
     hooks_that_already_ran := hooks_that_already_ran self;
     substitutions := substitutions self;
     local_substitutions := local_substitutions self;
     flags := flags self;
     _command := _command self;
     _line_number := _line_number self;
     _line_offset := _line_offset self;
     file_name := file_name self;
     line_number := line_number self;
     line_offset := v |}.

End RC.
Export RC.

(** ** The store, the state and the outside world *)

Module Mem.

(** The dictionaries that are reachable through more than one
    reference.  [next] is the first unused address. *)
Record Store : Type := mkStore {
  hook_tables : gmap loc (gmap string (list ExecObject));
  str_tables : gmap loc (gmap string string);
  flag_tables : gmap loc (gmap string PyObj);
  next : loc
}.

Definition empty_store : Store := mkStore ∅ ∅ ∅ 0%nat.

(** The dictionary at an address. *)
Definition hook_table (m : Store) (l : loc) : gmap string (list ExecObject) :=
  default ∅ (hook_tables m !! l).
Definition str_table (m : Store) (l : loc) : gmap string string :=
  default ∅ (str_tables m !! l).
Definition flag_table (m : Store) (l : loc) : gmap string PyObj :=
  default ∅ (flag_tables m !! l).

(** [d.get(hook, [])] on the hooks dictionary at [l]. *)
Definition hook_entries (m : Store) (l : loc) (hook : string) : list ExecObject :=
  default [] (hook_table m l !! hook).

(** [{}]: a new, empty dictionary of each kind. *)
Definition new_hook_table (m : Store) : loc * Store :=
  (next m, mkStore (<[next m := ∅]> (hook_tables m)) (str_tables m)
                   (flag_tables m) (S (next m))).
Definition new_str_table (m : Store) : loc * Store :=
  (next m, mkStore (hook_tables m) (<[next m := ∅]> (str_tables m))
                   (flag_tables m) (S (next m))).
Definition new_flag_table (m : Store) : loc * Store :=
  (next m, mkStore (hook_tables m) (str_tables m)
                   (<[next m := ∅]> (flag_tables m)) (S (next m))).

(** [d[key] = value] on the string dictionary at [l]. *)
Definition str_table_set (l : loc) (key value : string) (m : Store) : Store :=
  mkStore (hook_tables m) (<[l := <[key := value]> (str_table m l)]> (str_tables m))
          (flag_tables m) (next m).

(** [d.setdefault(hook, [])] on the hooks dictionary at [l]. *)
Definition hook_table_setdefault (l : loc) (hook : string) (m : Store) : Store :=
  mkStore (<[l := <[hook := hook_entries m l hook]> (hook_table m l)]> (hook_tables m))
          (str_tables m) (flag_tables m) (next m).

(** [d.setdefault(hook, []).append(x)] on the hooks dictionary at [l]. *)
Definition hook_table_append (l : loc) (hook : string) (x : ExecObject)
    (m : Store) : Store :=
  mkStore (<[l := <[hook := (hook_entries m l hook ++ [x])%list]> (hook_table m l)]>
             (hook_tables m))
          (str_tables m) (flag_tables m) (next m).

End Mem.
Export Mem.

(** What the modelled code does to the outside, in the order it does it:
    a hook entry is executed, a pickle is written, a process is run.
    [EvRun] holds the positional and keyword arguments given to
    [run.run] (without [trace_output], the printer's method). *)
Inductive Event : Type :=
| EvExecute (hook : string) (entry : ExecObject)
| EvDump (jar : string) (artifact : Persist.Pickled)
| EvRun (argv : list PyObj) (kwargs : gmap string PyObj).

(** The run context at hand ([self], or the [run_context] argument of a
    command), the store and the world outside the interpreter. *)
Record Machine (World : Type) : Type := mkMachine {
  self_ : RunContext;
  store : Store;
  world : World
}.
Arguments mkMachine {World}.
Arguments self_ {World}.
Arguments store {World}.
Arguments world {World}.

Record State (World : Type) : Type := mkState {
  machine : Machine World;
  trace : list Event
}.
Arguments mkState {World}.
Arguments machine {World}.
Arguments trace {World}.

(** Code of the repository and of the standard library that the modelled
    functions call and that is not among the modelled sources. *)
Class Externals (World : Type) : Type := {
  (** [cmd.execute(run_context)] of a hook entry: it gets the run
      context and may do anything to it and to the world. *)
  exec_object_execute : ExecObject -> Machine World -> Res unit * Machine World;
  (** [os.chdir] and [os.path.isdir] *)
  os_chdir : string -> World -> Res unit * World;
  os_path_isdir : string -> World -> bool;
  (** [cleanroom.helper.generic.run.run], given its positional and keyword
      arguments *)
  run_run : list PyObj -> gmap string PyObj -> World -> Res PyObj * World;
  (** [open(pickle_jar, 'wb')] and the pickler's writes into it *)
  write_jar : string -> Persist.Pickled -> World -> Res unit * World;
  (** [cleanroom.helper.generic.file.file_name(run_context, path)] *)
  file_file_name : RunContext -> PyObj -> Res PyObj
}.

(** ** The state-and-exception monad of the modelled methods *)

Module Monad.
Section M.
Context {World : Type}.

Definition M (A : Type) : Type := State World -> Res A * State World.

Definition ret {A} (a : A) : M A := fun st => (Done a, st).
Definition raise {A} (e : Exn) : M A := fun st => (Raised e, st).
Definition bind {A B} (m : M A) (k : A -> M B) : M B :=
  fun st =>
    match m st with
    | (Done a, st') => k a st'
    | (Raised e, st') => (Raised e, st')
    end.

(** Changes to one part of the state. *)
Definition map_self (f : RunContext -> RunContext) (st : State World) : State World :=
  mkState (mkMachine (f (self_ (machine st))) (store (machine st))
             (world (machine st)))
          (trace st).
Definition map_store (f : Store -> Store) (st : State World) : State World :=
  mkState (mkMachine (self_ (machine st)) (f (store (machine st)))
             (world (machine st)))
          (trace st).
Definition put_world (w : World) (st : State World) : State World :=
  mkState (mkMachine (self_ (machine st)) (store (machine st)) w) (trace st).
Definition put_machine (m : Machine World) (st : State World) : State World :=
  mkState m (trace st).
Definition record (ev : Event) (st : State World) : State World :=
  mkState (machine st) (trace st ++ [ev])%list.

Definition get_self : M RunContext := fun st => (Done (self_ (machine st)), st).
Definition get_store : M Store := fun st => (Done (store (machine st)), st).
Definition get_world : M World := fun st => (Done (world (machine st)), st).

Definition modify_self (f : RunContext -> RunContext) : M unit :=
  fun st => (Done tt, map_self f st).
Definition modify_store (f : Store -> Store) : M unit :=
  fun st => (Done tt, map_store f st).

(** An allocation in the store. *)
Definition alloc (f : Store -> loc * Store) : M loc :=
  fun st =>
    (Done (fst (f (store (machine st)))),
     map_store (fun m => snd (f m)) st).

(** A call that only touches the world. *)
Definition in_world {A} (f : World -> Res A * World) : M A :=
  fun st =>
    (fst (f (world (machine st))), put_world (snd (f (world (machine st)))) st).

(** A call that may touch the run context, the store and the world. *)
Definition in_machine {A} (f : Machine World -> Res A * Machine World) : M A :=
  fun st => (fst (f (machine st)), put_machine (snd (f (machine st))) st).

(** A pure call that may raise. *)
Definition of_res {A} (r : Res A) : M A := fun st => (r, st).

Definition emit (ev : Event) : M unit := fun st => (Done tt, record ev st).

(** A call keeps a property of the state, however it ends. *)
Definition preserves (P : State World -> Prop) {A} (m : M A) : Prop :=
  forall st, P st -> P (snd (m st)).

End M.
End Monad.
Export Monad.

Declare Scope py_scope.
Delimit Scope py_scope with py.
Notation "x <- m ;; k" := (bind m (fun x => k))
  (at level 100, m at next level, right associativity) : py_scope.
Notation "m ;; k" := (bind m (fun _ => k))
  (at level 100, right associativity) : py_scope.
Open Scope py_scope.

(** ** [cleanroom/runcontext.py]: the methods of [RunContext] *)

Module RunCtx.
Section Methods.
Context {World : Type} `{!Externals World}.

Local Abbreviation M := (@M World).

(** [self.ctx.<method>]: attribute access on [None] raises. *)
Definition the_ctx : M Context :=
  self <- get_self ;;
  match ctx self with
  | Some c => ret c
  | None => raise (AttributeError "'NoneType' object has no attribute")
  end.

(** [self.ctx.printer.<level>(...)]: console output, not recorded. *)
Definition printer : M unit := the_ctx ;; ret tt.

(** [RunContext.storage_directory] *)
Definition storage_directory (system_ : option string) : M string :=
  self <- get_self ;;
  c <- the_ctx ;;
  ret (Ctx.storage_directory c (default (system self) system_)).

(** [RunContext.current_system_directory] *)
Definition current_system_directory : M string :=
  c <- the_ctx ;; ret (Ctx.current_system_directory c).

(** [RunContext.fs_directory] *)
Definition fs_directory (system_ : option string) : M string :=
  c <- the_ctx ;; ret (Ctx.fs_directory c system_).

(** [RunContext.meta_directory] *)
Definition meta_directory (system_ : option string) : M string :=
  c <- the_ctx ;; ret (Ctx.meta_directory c system_).

(** [RunContext.system_definition_directory] *)
Definition system_definition_directory : M string :=
  self <- get_self ;;
  c <- the_ctx ;;
  ret (Ctx.system_definition_directory c (system self)).

(** [RunContext.set_substitution] *)
Definition set_substitution (key value : string) (local_ : bool) : M unit :=
  self <- get_self ;;
  if local_
  then modify_self (upd_local_substitutions
                      (<[key := value]> (local_substitutions self)))
  else modify_store (str_table_set (substitutions self) key value).

(** [RunContext.substitution]: the local table first. *)
Definition substitution (key : string) : M (option string) :=
  self <- get_self ;;
  m <- get_store ;;
  ret (match local_substitutions self !! key with
       | Some v => Some v
       | None => str_table m (substitutions self) !! key
       end).

(** [RunContext.has_substitution] *)
Definition has_substitution (key : string) : M bool :=
  self <- get_self ;;
  m <- get_store ;;
  ret (bool_decide (is_Some (local_substitutions self !! key))
       || bool_decide (is_Some (str_table m (substitutions self) !! key))).

(** [RunContext._setup_substitutions] *)
Definition _setup_substitutions : M unit :=
  self <- get_self ;;
  set_substitution "TIMESTAMP" (timestamp self) false ;;
  self <- get_self ;;
  set_substitution "SYSTEM" (system self) true ;;
  root <- fs_directory None ;;
  set_substitution "ROOT" root true ;;
  set_substitution "BASE_SYSTEM" "" true.

(** [RunContext.reset_command] *)
Definition reset_command : M unit :=
  modify_self (upd__command None) ;;
  modify_self (upd__line_number (-1)) ;;
  modify_self (upd__line_offset (-1)).

(** [RunContext.__init__].  [self_] becomes the new object. *)
Definition __init__ (ctx_ : option Context) (system_ timestamp_ : string) : M unit :=
  h <- alloc new_hook_table ;;
  s <- alloc new_str_table ;;
  f <- alloc new_flag_table ;;
  modify_self (fun _ =>
    {| ctx := ctx_; system := system_; base_system := None;
       timestamp := timestamp_; base_context := None;
       hooks := h; hooks_that_already_ran := [];
       substitutions := s; local_substitutions := ∅; flags := f;
       _command := None; _line_number := 0; _line_offset := 0;
       file_name := None; line_number := None; line_offset := None |}) ;;
  reset_command ;;
  modify_self (upd__command None) ;;
  _setup_substitutions ;;
  self <- get_self ;;
  match ctx self with Some _ => ret tt | None => raise AssertionError end ;;
  if String.eqb (system self) "" then raise AssertionError else ret tt.

(** [os.path.isabs] *)
Definition isabs (path : string) : bool :=
  match path with
  | String c _ => Ascii.eqb c "/"%char
  | EmptyString => false
  end.

(** The method [RunContext.file_name] as the class defines it. *)
Definition file_name_method (path : PyObj) : M PyObj :=
  match path with
  | PStr p =>
      if negb (isabs p) then ret path
      else self <- get_self ;; of_res (file_file_name self path)
  | _ => raise (TypeError "expected str, bytes or os.PathLike object")
  end.

(** The call [run_context.file_name(path)]: attribute lookup finds the
    instance attribute before the method of the class, and calling a
    [str] raises. *)
Definition call_file_name (path : PyObj) : M PyObj :=
  self <- get_self ;;
  match file_name self with
  | Some _ => raise (TypeError "'str' object is not callable")
  | None => file_name_method path
  end.

(** [RunContext._install_base_context] *)
Definition _install_base_context (base_context_ : RunContext) : M unit :=
  modify_self (upd_base_context (Some base_context_)) ;;
  modify_self (upd_timestamp (timestamp base_context_)) ;;
  modify_self (upd_hooks (hooks base_context_)) ;;
  modify_self (upd_substitutions (substitutions base_context_)) ;;
  modify_self (upd_flags (flags base_context_)) ;;
  _setup_substitutions.

(** [RunContext.set_command] *)
Definition set_command (command_name file_name_ : string)
    (line_number_ line_offset_ : Z) : M unit :=
  self <- get_self ;;
  match _command self with
  | Some _ => raise AssertionError
  | None =>
      modify_self (upd__command (Some command_name)) ;;
      modify_self (upd_file_name (Some file_name_)) ;;
      modify_self (upd_line_number (Some line_number_)) ;;
      modify_self (upd_line_offset (Some line_offset_))
  end.

(** [RunContext._add_hook] *)
Definition _add_hook (hook : string) (exec_object : ExecObject) : M unit :=
  printer ;;
  self <- get_self ;;
  modify_store (hook_table_append (hooks self) hook exec_object) ;;
  printer.

(** The body of [for cmd in command_list] in [run_hooks].  The list
    iterator reads the list at the next index on every round, so entries
    appended while the loop runs are met too; [d] is the dictionary the
    list was taken from and [i] the iterator's index. *)
Fixpoint run_entries (budget : nat) (d : loc) (hook : string) (i : nat) : M unit :=
  match budget with
  | O => raise LoopBudget
  | S budget' =>
      m <- get_store ;;
      match hook_entries m d hook !! i with
      | None => ret tt
      | Some cmd =>
          c <- the_ctx ;;
          in_world (os_chdir (systems_directory c)) ;;
          emit (EvExecute hook cmd) ;;
          in_machine (exec_object_execute cmd) ;;
          run_entries budget' d hook (S i)
      end
  end.

(** [RunContext.run_hooks] *)
Definition run_hooks (budget : nat) (hook : string) : M unit :=
  self <- get_self ;;
  if bool_decide (hook ∈ hooks_that_already_ran self)
  then printer
  else
    let d := hooks self in
    modify_store (hook_table_setdefault d hook) ;;
    m <- get_store ;;
    let command_list := hook_entries m d hook in
    printer ;;
    if negb (nonempty command_list) then ret tt
    else
      printer ;;
      run_entries budget d hook 0 ;;
      self <- get_self ;;
      modify_self (upd_hooks_that_already_ran
                     (hooks_that_already_ran self ++ [hook])%list).

(** The state after [self.hooks_that_already_ran.append(hook)]. *)
Definition marked (hook : string) (st : State World) : State World :=
  map_self (fun self => upd_hooks_that_already_ran
                          (hooks_that_already_ran self ++ [hook])%list self) st.

(** What the theorems about [run_hooks] ask of the hook entries: an
    entry that returns has left every list of hook entries as it was, or
    longer at its end (it may have called [add_hook]). *)
Definition entries_only_appended : Prop :=
  forall (entry : ExecObject) (m m' : Machine World),
    exec_object_execute entry m = (Done tt, m') ->
    forall (d : loc) (hook : string),
      hook_entries (store m) d hook `prefix_of` hook_entries (store m') d hook.

(** Hook entries and [os.chdir] that always return, and entries that
    leave the lists of hook entries and the generator object alone:
    under these the loop of [run_hooks] ends within the length of the
    list. *)
Definition entries_return_quietly : Prop :=
  (forall (directory : string) (w : World),
      fst (os_chdir directory w) = Done tt)
  /\ (forall (entry : ExecObject) (m : Machine World),
        fst (exec_object_execute entry m) = Done tt
        /\ ctx (self_ (snd (exec_object_execute entry m))) = ctx (self_ m)
        /\ forall (d : loc) (hook : string),
             hook_entries (store (snd (exec_object_execute entry m))) d hook
             = hook_entries (store m) d hook).

(** [RunContext.run].  The call at its end gives [trace_output] by
    name and the caller's keywords after it: once [self.ctx.printer.trace]
    is evaluated, a [trace_output] among the caller's keywords is a
    second value for that keyword, and the call raises a [TypeError]
    before [run.run] is entered. *)
Definition run (args : list PyObj) (outside : bool)
    (kwargs : gmap string PyObj) : M PyObj :=
  match kwargs !! "chroot" with
  | Some _ => raise AssertionError
  | None =>
      kwargs' <- (if negb outside
                  then root <- fs_directory None ;;
                       ret (<["chroot" := PStr root]> kwargs)
                  else ret kwargs) ;;
      the_ctx ;;
      match kwargs' !! "trace_output" with
      | Some _ =>
          raise (TypeError
                   "run() got multiple values for keyword argument 'trace_output'")
      | None =>
          emit (EvRun args kwargs') ;;
          in_world (run_run args kwargs')
      end
  end.

(** [self.__dict__] as an object tree, as the pickler walks it.  A live
    generator object is shown as an instance without attributes. *)
Definition str_dict_object (d : gmap string string) : PyObj :=
  PDict (map (fun kv => (fst kv, PStr (snd kv))) (map_to_list d)).
Definition hooks_object (d : gmap string (list ExecObject)) : PyObj :=
  PDict (map (fun kv => (fst kv, PList (snd kv))) (map_to_list d)).
Definition option_object {A} (f : A -> PyObj) (o : option A) : PyObj :=
  match o with Some a => f a | None => PNone end.
Definition optional_attr {A} (key : string) (f : A -> PyObj) (o : option A)
    : list (string * PyObj) :=
  match o with Some a => [(key, f a)] | None => [] end.

Fixpoint as_object (m : Store) (self : RunContext) : PyObj :=
  match self with
  | mkRunContext c sys bsys ts base h ran subs lsubs fl cmd ln lo fn lnum loff =>
      PInst "RunContext"
        ([("ctx", option_object (fun _ => PInst "Context" []) c);
          ("system", PStr sys);
          ("base_system", option_object PStr bsys);
          ("timestamp", PStr ts);
          ("base_context",
           match base with Some b => as_object m b | None => PNone end);
          ("hooks", hooks_object (hook_table m h));
          ("hooks_that_already_ran", PList (map PStr ran));
          ("substitutions", str_dict_object (str_table m subs));
          ("local_substitutions", str_dict_object lsubs);
          ("flags", PDict (map_to_list (flag_table m fl)));
          ("_command", option_object PStr cmd);
          ("_line_number", PInt ln);
          ("_line_offset", PInt lo)]
         ++ optional_attr "file_name" PStr fn
         ++ optional_attr "line_number" PInt lnum
         ++ optional_attr "line_offset" PInt loff)%list
  end.

(** [RunContext.pickle] *)
Definition pickle : M unit :=
  self <- get_self ;;
  c <- the_ctx ;;
  let pickle_jar := Ctx.pickle_jar c None in
  let hooks_that_ran := hooks_that_already_ran self in
  modify_self (upd_ctx None) ;;
  modify_self (upd_hooks_that_already_ran []) ;;
  self <- get_self ;;
  m <- get_store ;;
  let artifact := Persist.dump Persist.persistent_id (as_object m self) in
  emit (EvDump pickle_jar artifact) ;;
  in_world (write_jar pickle_jar artifact) ;;
  modify_self (upd_ctx (Some c)) ;;
  modify_self (upd_hooks_that_already_ran hooks_that_ran).

(** What [pickle] writes: the context without its generator object and
    with no hook marked as run. *)
Definition pickled_artifact (st : State World) : Persist.Pickled :=
  Persist.dump Persist.persistent_id
    (as_object (store (machine st))
       (upd_hooks_that_already_ran [] (upd_ctx None (self_ (machine st))))).

(** Calls of the methods above, as a caller may make them one after
    the other on one run context, going on after an exception. *)
Inductive Call : Type :=
| CallResetCommand
| CallSetCommand (command_name file_name_ : string) (line_number_ line_offset_ : Z)
| CallSetSubstitution (key value : string) (local_ : bool)
| CallInstallBaseContext (base_context_ : RunContext)
| CallAddHook (hook : string) (exec_object : ExecObject)
| CallRunHooks (budget : nat) (hook : string)
| CallRun (args : list PyObj) (outside : bool) (kwargs : gmap string PyObj)
| CallPickle.

Definition call (c : Call) : M unit :=
  match c with
  | CallResetCommand => reset_command
  | CallSetCommand n f l o => set_command n f l o
  | CallSetSubstitution k v l => set_substitution k v l
  | CallInstallBaseContext b => _install_base_context b
  | CallAddHook h e => _add_hook h e
  | CallRunHooks b h => run_hooks b h
  | CallRun a o k => run a o k ;; ret tt
  | CallPickle => pickle
  end.

Fixpoint calls (cs : list Call) (st : State World) : State World :=
  match cs with
  | [] => st
  | c :: cs' => calls cs' (snd (call c st))
  end.

(** The instance attribute [file_name] is set. *)
Definition shadowed (st : State World) : Prop :=
  is_Some (file_name (self_ (machine st))).

(** What the theorem about [file_name] asks of the hook entries: they do
    not delete the instance attribute [file_name] of the run context. *)
Definition entries_keep_file_name : Prop :=
  forall (entry : ExecObject) (m : Machine World),
    is_Some (file_name (self_ m)) ->
    is_Some (file_name (self_ (snd (exec_object_execute entry m)))).

End Methods.
End RunCtx.

(** [args[i]] on the argument tuple. *)
Definition index {A} (args : list A) (i : nat) : Res A :=
  match args !! i with
  | Some a => Done a
  | None => Raised IndexError
  end.

(** ** [cleanroom/commands/sed.py] *)

Module Sed.
Section Sed.
Context {World : Type} `{!Externals World}.

(** [SedCommand.validate_arguments] *)
Definition validate_arguments (args : list PyObj)
    (kwargs : gmap string PyObj) : Res PyObj :=
  if negb (Nat.eqb (length args) 2)
  then Raised (ParseError "sed needs a pattern and a file.")
  else Done PNone.

(** [SedCommand.__call__] *)
Definition __call__ (args : list PyObj) (kwargs : gmap string PyObj)
    : @M World unit :=
  pattern <- of_res (index args 0) ;;
  path <- of_res (index args 1) ;;
  run_context <- get_self ;;
  f <- of_res (file_file_name run_context path) ;;
  RunCtx.run [PStr "/usr/bin/sed"; PStr "-i"; PStr "-e"; pattern; f] true ∅ ;;
  ret tt.

End Sed.
End Sed.

(** ** [cleanroom/commands/_teardown.py] *)

Module Teardown.

(** [run_context.checkout_directory()] and
    [run_context.system_directory()]: the class [RunContext] defines no
    method of either name and no method of it gives an instance such
    an attribute, so the attribute lookup raises. *)
Definition no_attribute (name : string) : Exn :=
  AttributeError ("'RunContext' object has no attribute '" +:+ name +:+ "'").
Definition checkout_directory (run_context : RunContext) : Res string :=
  Raised (no_attribute "checkout_directory").
Definition system_directory (run_context : RunContext) : Res string :=
  Raised (no_attribute "system_directory").

Section Teardown.
Context {World : Type} `{!Externals World}.

(** [_TeardownCommand._unmount_system_directory] *)
Definition _unmount_system_directory : @M World unit :=
  run_context <- get_self ;;
  checkout <- of_res (checkout_directory run_context) ;;
  w <- get_world ;;
  if os_path_isdir checkout w
  then
    directory <- of_res (system_directory run_context) ;;
    RunCtx.run [PStr "/usr/bin/umount"; PStr directory] false ∅ ;;
    ret tt
  else ret tt.

(** [_TeardownCommand._store_to_ostree] *)
Definition _store_to_ostree : @M World unit :=
  RunCtx.printer ;;
  c <- RunCtx.the_ctx ;;
  let ostree := binary_OSTREE c in
  run_context <- get_self ;;
  directory <- of_res (system_directory run_context) ;;
  checkout <- of_res (checkout_directory run_context) ;;
  w <- get_world ;;
  to_commit <- (if os_path_isdir checkout w
                then of_res (checkout_directory run_context)
                else ret directory) ;;
  c <- RunCtx.the_ctx ;;
  RunCtx.run
    [PStr ostree;
     PStr ("--repo=" +:+ work_repository_directory c);
     PStr "commit";
     PStr "--branch"; PStr (system run_context);
     PStr "--subject"; PStr (timestamp run_context);
     PStr ("--add-metadata-string=" +:+ dq +:+ "timestamp="
           +:+ timestamp run_context +:+ dq)]
    true {["work_directory" := PStr to_commit]} ;;
  ret tt.

(** [_TeardownCommand.__call__] *)
Definition __call__ (budget : nat) : @M World unit :=
  RunCtx.run_hooks budget "_teardown" ;;
  RunCtx.run_hooks budget "testing" ;;
  RunCtx.pickle ;;
  _unmount_system_directory ;;
  _store_to_ostree.

(** The statements of [__call__] that come before
    [_unmount_system_directory], on their own. *)
Definition hooks_and_pickle (budget : nat) : @M World unit :=
  RunCtx.run_hooks budget "_teardown" ;;
  RunCtx.run_hooks budget "testing" ;;
  RunCtx.pickle.

End Teardown.
End Teardown.

(** ** [cleanroom/generator/commands/set_timezone.py] *)

Module SetTimezone.

(** A call [system_context.execute(location, command, ...)]. *)
Record Call (Location : Type) : Type := mkCall {
  call_location : Location;
  call_command : string;
  call_args : list PyObj;
  call_kwargs : gmap string PyObj
}.
Arguments mkCall {Location}.

(** The system context and the calls made on it so far. *)
Record SysState (Location SystemContext : Type) : Type := mkSysState {
  system_context : SystemContext;
  calls : list (Call Location)
}.
Arguments mkSysState {Location SystemContext}.
Arguments system_context {Location SystemContext}.
Arguments calls {Location SystemContext}.

(** The generator's helpers, which are not among the modelled sources:
    [location.next_line()], [exists(system_context, path,
    base_directory=...)] and [system_context.execute]. *)
Class Generator (Location SystemContext : Type) : Type := {
  next_line : Location -> Location;
  exists_ : SystemContext -> string -> string -> bool;
  execute : Call Location -> SystemContext -> Res unit * SystemContext
}.

Section SetTimezone.
Context {Location SystemContext : Type} `{!Generator Location SystemContext}.

(** [system_context.execute(...)], recorded. *)
Definition do_execute (c : Call Location)
    (st : SysState Location SystemContext) : Res unit * SysState Location SystemContext :=
  let (r, sc) := execute c (system_context st) in
  (r, mkSysState sc (calls st ++ [c])%list).

(** The message of the [GenerateError]. *)
Definition not_found_message (timezone : string) : string :=
  "Timezone " +:+ dq +:+ timezone +:+ dq
  +:+ " not found when trying to set timezone.".

(** [SetTimezoneCommand.__call__] *)
Definition __call__ (location : Location) (args : list PyObj)
    (kwargs : gmap string PyObj) (st : SysState Location SystemContext)
    : Res unit * SysState Location SystemContext :=
  let etc := "/etc" in
  let localtime := "localtime" in
  let etc_localtime := etc +:+ "/" +:+ localtime in
  match index args 0 with
  | Raised e => (Raised e, st)
  | Done (PStr timezone) =>
      let full_timezone := "../usr/share/zoneinfo/" +:+ timezone in
      if negb (exists_ (system_context st) full_timezone etc)
      then (Raised (GenerateError (not_found_message timezone)), st)
      else
        match do_execute (mkCall location "remove" [PStr etc_localtime] ∅) st with
        | (Raised e, st') => (Raised e, st')
        | (Done _, st') =>
            do_execute (mkCall (next_line location) "symlink"
                          [PStr full_timezone; PStr localtime]
                          {["base_directory" := PStr "/etc"]}) st'
        end
  | Done _ => (Raised (TypeError "can only concatenate str to str"), st)
  end.

End SetTimezone.
End SetTimezone.

(** ** A small concrete build, to run the model on

    Two systems, [base] and [derived], in a work directory [/work]; the
    world is the list of directories that exist; hook entries and
    processes succeed and change nothing. *)

Module Ex.

Definition World : Type := list string.

(** The generator object of a build of [system_]. *)
Definition context_of (system_ : string) : Context :=
  {| systems_directory := "/work/systems";
     Ctx.storage_directory := fun s => "/work/storage/" +:+ s;
     Ctx.current_system_directory := "/work/current/" +:+ system_;
     Ctx.fs_directory := fun s => "/work/current/" +:+ default system_ s +:+ "/fs";
     Ctx.meta_directory := fun s => "/work/current/" +:+ default system_ s +:+ "/meta";
     Ctx.system_definition_directory := fun s => "/work/systems/" +:+ s;
     pickle_jar := fun s => "/work/storage/" +:+ default system_ s +:+ "/pickle_jar.bin";
     work_repository_directory := "/work/repo";
     binary_OSTREE := "/usr/bin/ostree" |}.

#[export] Instance externals : Externals World :=
  {| exec_object_execute := fun _ m => (Done tt, m);
     os_chdir := fun _ w => (Done tt, w);
     os_path_isdir := fun d w => bool_decide (d ∈ w);
     run_run := fun _ _ w => (Done PNone, w);
     write_jar := fun _ _ w => (Done tt, w);
     file_file_name := fun rc path =>
       match ctx rc, path with
       | Some c, PStr p => Done (PStr (Ctx.fs_directory c None +:+ p))
       | _, _ => Raised (External "file_name")
       end |}.

Definition sed_command : Command :=
  mkCommand 7 "cleanroom.commands.sed" "sed <PATTERN> <FILE>" "Run sed on a file.".

#[export] Instance parser : Parser :=
  {| command := fun o =>
       match o with
       | PStr "sed" => Done sed_command
       | _ => Raised (External "unknown command")
       end |}.

(** Nothing built yet: a placeholder object, an empty store. *)
Definition blank : RunContext :=
  mkRunContext None "" None "" None 0 [] 0 ∅ 0 None 0 0 None None None.

Definition initial (w : World) : State World :=
  mkState (mkMachine blank empty_store w) [].

(** [RunContext(ctx, system='derived', timestamp='20180101-000000')] *)
Definition fresh (w : World) : State World :=
  snd (RunCtx.__init__ (Some (context_of "derived")) "derived" "20180101-000000"
         (initial w)).

(** Two hook entries. *)
Definition h1 : ExecObject :=
  PInst "ExecObject" [("command", PCmd sed_command);
                      ("args", PTuple [PStr "s/a/b/"; PStr "/etc/hosts"])].
Definition h2 : ExecObject :=
  PInst "ExecObject" [("command", PStr "remove"); ("args", PTuple [PStr "/tmp/x"])].

(** A fresh context with [h1] and [h2] under the hook [testing]. *)
Definition with_testing_hooks (w : World) : State World :=
  snd (RunCtx._add_hook "testing" h2
         (snd (RunCtx._add_hook "testing" h1 (fresh w)))).

(** The context of [base] as another process left it: built with
    timestamp [20171231-235959], one [_teardown] hook, and without its
    generator object, as [pickle] writes it.  It lives in the store of
    the state it is returned with. *)
Definition base_built (w : World) : State World :=
  snd (RunCtx._add_hook "_teardown" h1
         (snd (RunCtx.__init__ (Some (context_of "base")) "base" "20171231-235959"
                 (initial w)))).
Definition base_loaded (w : World) : RunContext :=
  upd_ctx None (self_ (machine (base_built w))).

(** A fresh context for [derived] in the store that holds the loaded
    base context. *)
Definition derived_fresh (w : World) : State World :=
  snd (RunCtx.__init__ (Some (context_of "derived")) "derived" "20180101-000000"
         (base_built w)).

(** ... and with the base context installed. *)
Definition derived_installed (w : World) : State World :=
  snd (RunCtx._install_base_context (base_loaded w) (derived_fresh w)).

(** The generator side, for [set_timezone]: locations are line numbers,
    the system context is the list of zoneinfo paths that exist. *)
#[export] Instance generator : SetTimezone.Generator nat (list string) :=
  {| SetTimezone.next_line := S;
     SetTimezone.exists_ := fun sc path base => bool_decide (path ∈ sc);
     SetTimezone.execute := fun _ sc => (Done tt, sc) |}.

(** The states the theorems are run on. *)

(** A staged [derived] with a checkout directory and two [testing]
    hooks, and what [_teardown] leaves of it. *)
Definition teardown_start : State World :=
  with_testing_hooks ["/work/checkout/derived"].
Definition teardown_end : State World :=
  snd (Teardown.__call__ 5 teardown_start).

(** Two calls of [run_hooks('testing')]. *)
Definition hooks_start : State World := with_testing_hooks [].
Definition hooks_once : State World :=
  snd (RunCtx.run_hooks 5 "testing" hooks_start).
Definition hooks_twice : State World :=
  snd (RunCtx.run_hooks 5 "testing" hooks_once).

(** The same build with a [remove] that fails: executing the entry
    [h2] raises.  Two calls of [run_hooks('testing')] there. *)
Definition remove_fails : Externals World :=
  {| exec_object_execute := fun entry m =>
       match entry with
       | PInst _ (("command", PStr "remove") :: _) =>
           (Raised (GenerateError "remove failed"), m)
       | _ => (Done tt, m)
       end;
     os_chdir := fun _ w => (Done tt, w);
     os_path_isdir := fun d w => bool_decide (d ∈ w);
     run_run := fun _ _ w => (Done PNone, w);
     write_jar := fun _ _ w => (Done tt, w);
     file_file_name := fun _ _ => Raised (External "file_name") |}.
Definition failed_once : State World :=
  snd (@RunCtx.run_hooks World remove_fails 5 "testing" hooks_start).
Definition failed_twice : State World :=
  snd (@RunCtx.run_hooks World remove_fails 5 "testing" failed_once).

(** [set_command('sed', file_name='base.def', line_number=3,
    line_offset=0)] on a fresh context, and some calls after it. *)
Definition command_set : State World :=
  snd (RunCtx.set_command "sed" "base.def" 3 0 (fresh [])).
Definition later_calls : list RunCtx.Call :=
  [RunCtx.CallResetCommand;
   RunCtx.CallSetSubstitution "EXTRA" "v" false;
   RunCtx.CallAddHook "testing" h1;
   RunCtx.CallRunHooks 5 "testing";
   RunCtx.CallSetCommand "remove" "base.def" 4 0;
   RunCtx.CallPickle].

End Ex.

(** ** [cleanroom/runcontext.py]: the methods that call out

    [substitute], [add_hook], [unpickle_base_context] and [execute] call
    code that is not among the modelled sources; that code is taken as
    parameters. *)

(** [string.Template(text).substitute] on a mapping *)
Class StringTemplate : Type := {
  template_substitute : string -> gmap string string -> Res string
}.

(** [Parser.create_execute_object(file_name, line_number, line_offset,
    command, *args, message=message, **kwargs)] *)
Class ExecObjects : Type := {
  create_execute_object :
    PyObj -> PyObj -> PyObj -> PyObj -> list PyObj -> PyObj
    -> gmap string PyObj -> Res ExecObject
}.

(** [open(pickle_jar, 'rb')], read by the unpickler, and the building of
    the [RunContext] instance from the loaded object tree: its
    dictionaries become new objects of the store. *)
Class Jars (World : Type) : Type := {
  read_jar : string -> World -> Res Persist.Pickled * World;
  instantiate : PyObj -> Store -> Res RunContext * Store
}.

(** The methods [validate_arguments] and [__call__] of the class of a
    command instance, given the run context as the state. *)
Class Dispatch (World : Type) : Type := {
  validate_arguments_of :
    Command -> list PyObj -> gmap string PyObj
    -> State World -> Res PyObj * State World;
  call_of :
    Command -> list PyObj -> gmap string PyObj
    -> State World -> Res PyObj * State World
}.

Module RunCtxCalls.
Section Methods.
Context {World : Type} `{!Externals World} `{!Parser}.
Context `{!StringTemplate} `{!ExecObjects} `{!Jars World} `{!Dispatch World}.

Local Abbreviation M := (@M World).

(** [{**self.substitutions, **self.local_substitutions}]: the local
    table is unpacked last and wins. *)
Definition all_substitutions (self : RunContext) (m : Store) : gmap string string :=
  local_substitutions self ∪ str_table m (substitutions self).

(** [RunContext.substitute] *)
Definition substitute (text : string) : M string :=
  self <- get_self ;;
  m <- get_store ;;
  of_res (template_substitute text (all_substitutions self m)).

(** The expression [self.file_name]: the instance attribute when
    [set_command] has assigned it, the bound method of the class
    otherwise. *)
Definition file_name_attribute (self : RunContext) : PyObj :=
  match file_name self with
  | Some s => PStr s
  | None => PInst "method" [("__name__", PStr "file_name")]
  end.

(** The expressions [self.line_number] and [self.line_offset]: the
    class defines no such attribute. *)
Definition instance_attribute (attr : string) (o : option Z) : M PyObj :=
  match o with
  | Some z => ret (PInt z)
  | None => raise (AttributeError
                     ("'RunContext' object has no attribute '" +:+ attr +:+ "'"))
  end.

(** [RunContext.add_hook] *)
Definition add_hook (hook : string) (command_ : PyObj) (args : list PyObj)
    (message : PyObj) (kwargs : gmap string PyObj) : M unit :=
  self <- get_self ;;
  let f := file_name_attribute self in
  l <- instance_attribute "line_number" (line_number self) ;;
  o <- instance_attribute "line_offset" (line_offset self) ;;
  exec_object <- of_res (create_execute_object f l o command_ args message kwargs) ;;
  RunCtx._add_hook hook exec_object.

(** A call that only touches the store. *)
Definition in_store {A} (f : Store -> Res A * Store) : M A :=
  fun st =>
    (fst (f (store (machine st))), map_store (fun m => snd (f m)) st).

(** [RunContext.unpickle_base_context].  The identities of objects the
    unpickler builds by value start at the first unused address. *)
Definition unpickle_base_context (system_ : string) : M unit :=
  c <- RunCtx.the_ctx ;;
  let pickle_jar := Ctx.pickle_jar c (Some system_) in
  RunCtx.printer ;;
  jar <- in_world (read_jar pickle_jar) ;;
  m <- get_store ;;
  obj <- of_res (fst (Persist.load Persist.persistent_load jar (next m))) ;;
  base_context_ <- in_store (instantiate obj) ;;
  RunCtx._install_base_context base_context_.

(** [RunContext.execute] *)
Definition execute (command_ : PyObj) (args : list PyObj)
    (kwargs : gmap string PyObj) : M unit :=
  cmd <- of_res (command command_) ;;
  dependency <- validate_arguments_of cmd args kwargs ;;
  match dependency with
  | PNone => ret tt
  | _ => raise AssertionError
  end ;;
  call_of cmd args kwargs ;;
  ret tt.

(** [_add_hook] for each of a list of entries, one after the other. *)
Fixpoint add_hooks (hook : string) (entries : list ExecObject) : M unit :=
  match entries with
  | [] => ret tt
  | e :: entries' => RunCtx._add_hook hook e ;; add_hooks hook entries'
  end.

(** What the theorem about the marking of hooks asks of the hook
    entries: they leave [hooks_that_already_ran] as it is. *)
Definition entries_keep_marks : Prop :=
  forall (entry : ExecObject) (m : Machine World),
    hooks_that_already_ran (self_ (snd (exec_object_execute entry m)))
    = hooks_that_already_ran (self_ m).

(** The state seen through another run context: the same store and
    world, with [rc] as [self]. *)
Definition seen_from (rc : RunContext) (st : State World) : State World :=
  map_self (fun _ => rc) st.

End Methods.
End RunCtxCalls.

Definition is_dump (ev : Event) : bool :=
  match ev with EvDump _ _ => true | _ => false end.

(** [pickle.load] maps every command of the saved graph to the instance
    the registry holds at loading time. *)
Module Resolve.
Section Resolve.
Variable f : Command -> Command.

Fixpoint resolve (obj : PyObj) : PyObj :=
  match obj with
  | PTuple items => PTuple (map resolve items)
  | PList items => PList (map resolve items)
  | PDict items => PDict (map (fun kv => (fst kv, resolve (snd kv))) items)
  | PInst cls attrs => PInst cls (map (fun kv => (fst kv, resolve (snd kv))) attrs)
  | PCmd c => PCmd (f c)
  | _ => obj
  end.
End Resolve.
End Resolve.

(** ** [cleanroom/generator/commands/ssh_allow_login.py] *)

Module SshAllowLogin.

(** What [user_data] returns for a known user. *)
Record UserData : Type := mkUserData {
  uid : Z;
  gid : Z;
  home : string
}.

(** What the command does to the system, in the order it does it. *)
Inductive Effect (Location : Type) : Type :=
| Executed (c : SetTimezone.Call Location)
| Chowned (uid_ gid_ : Z) (file : string)
| Chmodded (mode : Z) (file : string).
Arguments Executed {Location}.
Arguments Chowned {Location}.
Arguments Chmodded {Location}.

Record SysState (Location SystemContext : Type) : Type := mkSysState {
  system_context : SystemContext;
  effects : list (Effect Location)
}.
Arguments mkSysState {Location SystemContext}.
Arguments system_context {Location SystemContext}.
Arguments effects {Location SystemContext}.

(** The generator's helpers, which are not among the modelled sources:
    [location.next_line()], [exists], [isdir], [user_data],
    [read_file(..., outside=True).decode('utf-8')],
    [system_context.execute], [chown] and [chmod]; and [str()] of an
    argument that is not a string, for the messages. *)
Class Helpers (Location SystemContext : Type) : Type := {
  next_line : Location -> Location;
  exists_ : SystemContext -> string -> bool;
  isdir : SystemContext -> string -> bool;
  user_data : SystemContext -> PyObj -> Res (option UserData);
  read_file : SystemContext -> PyObj -> Res string;
  execute : SetTimezone.Call Location -> SystemContext -> Res unit * SystemContext;
  chown : Z -> Z -> string -> SystemContext -> Res unit * SystemContext;
  chmod : Z -> string -> SystemContext -> Res unit * SystemContext;
  str_ : PyObj -> string
}.

(** The newline character. *)
Definition nl : string := String (Ascii.ascii_of_nat 10) EmptyString.

(** [os.path.join(a, b)] *)
Definition starts_with_sep (s : string) : bool :=
  match s with
  | String c _ => Ascii.eqb c "/"%char
  | EmptyString => false
  end.
Fixpoint ends_with_sep (s : string) : bool :=
  match s with
  | EmptyString => false
  | String c EmptyString => Ascii.eqb c "/"%char
  | String _ s' => ends_with_sep s'
  end.
Definition path_join (a b : string) : string :=
  if starts_with_sep b then b
  else if String.eqb a "" || ends_with_sep a then a +:+ b
  else a +:+ "/" +:+ b.

(** [bool(x)] *)
Definition truthy (o : PyObj) : bool :=
  match o with
  | PNone => false
  | PBool b => b
  | PInt z => negb (Z.eqb z 0)
  | PStr s => negb (String.eqb s "")
  | PTuple items | PList items => nonempty items
  | PDict items => nonempty items
  | PInst _ _ | PCmd _ => true
  end.

Section SshAllowLogin.
Context {Location SystemContext : Type} `{!Helpers Location SystemContext}.

Local Abbreviation Sys A :=
  (SysState Location SystemContext -> Res A * SysState Location SystemContext).

Definition pure {A} (a : A) : Sys A := fun st => (Done a, st).
Definition fail {A} (e : Exn) : Sys A := fun st => (Raised e, st).
Definition and_then {A B} (m : Sys A) (k : A -> Sys B) : Sys B :=
  fun st =>
    match m st with
    | (Done a, st') => k a st'
    | (Raised e, st') => (Raised e, st')
    end.

(** A helper that reads the system. *)
Definition ask {A} (f : SystemContext -> Res A) : Sys A :=
  fun st => (f (system_context st), st).

(** A helper that changes the system, recorded. *)
Definition effect (ev : Effect Location)
    (f : SystemContext -> Res unit * SystemContext) : Sys unit :=
  fun st =>
    (fst (f (system_context st)),
     mkSysState (snd (f (system_context st))) (effects st ++ [ev])%list).

(** [self.name()]: the name given to the constructor. *)
Definition command_name : string := "ssh_allow_login".

(** [str.format] of an argument. *)
Definition formatted (o : PyObj) : string :=
  match o with
  | PStr s => s
  | _ => str_ o
  end.

(** The messages of the two [GenerateError]s. *)
Definition no_user_message (user : PyObj) : string :=
  dq +:+ command_name +:+ dq +:+ " could not find user "
  +:+ dq +:+ formatted user +:+ dq +:+ ".".
Definition not_a_directory_message (dir : string) : string :=
  dq +:+ command_name +:+ dq +:+ " needs directory " +:+ dq +:+ dir +:+ dq
  +:+ ", but that exists and is not a directory.".

(** The call [system_context.execute(location.next_line(), 'mkdir',
    dir, **kwargs)]. *)
Definition mkdir_call (location : Location) (dir : string)
    (kwargs : gmap string PyObj) : SetTimezone.Call Location :=
  SetTimezone.mkCall (next_line location) "mkdir" [PStr dir] kwargs.

(** [SshAllowLoginCommand._check_or_create_directory] *)
Definition _check_or_create_directory (location : Location) (dir : string)
    (kwargs : gmap string PyObj) : Sys unit :=
  and_then (ask (fun sc => Done (exists_ sc dir))) (fun there =>
  if negb there
  then effect (Executed (mkdir_call location dir kwargs))
              (execute (mkdir_call location dir kwargs))
  else
    and_then (ask (fun sc => Done (isdir sc dir))) (fun is_directory =>
    if negb is_directory
    then fail (GenerateError (not_a_directory_message dir))
    else pure tt)).

(** The keyword arguments of the two [mkdir]s. *)
Definition directory_kwargs (mode : Z) (data : UserData) : gmap string PyObj :=
  {["mode" := PInt mode; "user" := PInt (uid data); "group" := PInt (gid data)]}.

(** The line for [authorized_keys]: [options + ' ' + key + '\n'] when
    [options] is true, [key + '\n'] otherwise. *)
Definition key_line (kwargs : gmap string PyObj) (key : string) : Res string :=
  let options := default (PStr "") (kwargs !! "options") in
  if truthy options
  then match options with
       | PStr o => Done (o +:+ " " +:+ key +:+ nl)
       | _ => Raised (TypeError "unsupported operand type(s) for +")
       end
  else Done (key +:+ nl).

(** The call [system_context.execute(location.next_line(), 'append',
    authorized_file, line, force=True)]. *)
Definition append_call (location : Location) (authorized_file line : string)
    : SetTimezone.Call Location :=
  SetTimezone.mkCall (next_line location) "append"
    [PStr authorized_file; PStr line] {["force" := PBool true]}.

(** [SshAllowLoginCommand.__call__] *)
Definition __call__ (location : Location) (args : list PyObj)
    (kwargs : gmap string PyObj) : Sys unit :=
  and_then (ask (fun _ => index args 0)) (fun user =>
  and_then (ask (fun _ => index args 1)) (fun keyfile =>
  and_then (ask (fun sc => user_data sc user)) (fun found =>
  match found with
  | None => fail (GenerateError (no_user_message user))
  | Some data =>
      and_then (_check_or_create_directory location (home data)
                  (directory_kwargs 488 data)) (fun _ =>
      let ssh_directory := path_join (home data) ".ssh" in
      and_then (_check_or_create_directory location ssh_directory
                  (directory_kwargs 448 data)) (fun _ =>
      and_then (ask (fun sc => read_file sc keyfile)) (fun key =>
      let authorized_file := path_join ssh_directory "authorized_keys" in
      and_then (ask (fun _ => key_line kwargs key)) (fun line =>
      and_then (effect (Executed (append_call location authorized_file line))
                  (execute (append_call location authorized_file line))) (fun _ =>
      and_then (effect (Chowned (uid data) (gid data) authorized_file)
                  (chown (uid data) (gid data) authorized_file)) (fun _ =>
      effect (Chmodded 384 authorized_file) (chmod 384 authorized_file)))))))
  end))).

(** The three effects of a run that finds its directories in place. *)
Definition key_effects (location : Location) (data : UserData) (line : string)
    : list (Effect Location) :=
  let authorized_file :=
    path_join (path_join (home data) ".ssh") "authorized_keys" in
  [Executed (append_call location authorized_file line);
   Chowned (uid data) (gid data) authorized_file;
   Chmodded 384 authorized_file].

(** Effects are only ever added. *)
Definition grows {A} (m : SysState Location SystemContext
                         -> Res A * SysState Location SystemContext) : Prop :=
  forall st, effects st `prefix_of` effects (snd (m st)).

(** A system on which a run finds the user, both directories and the
    key file, and on which the [append] and the [chown] succeed. *)
Definition ready (location : Location) (user keyfile : PyObj)
    (kwargs : gmap string PyObj) (data : UserData) (line : string)
    (sc : SystemContext) : Prop :=
  let ssh_directory := path_join (home data) ".ssh" in
  let authorized_file := path_join ssh_directory "authorized_keys" in
  user_data sc user = Done (Some data)
  /\ exists_ sc (home data) = true /\ isdir sc (home data) = true
  /\ exists_ sc ssh_directory = true /\ isdir sc ssh_directory = true
  /\ (exists key, read_file sc keyfile = Done key
                  /\ key_line kwargs key = Done line)
  /\ fst (execute (append_call location authorized_file line) sc) = Done tt
  /\ fst (chown (uid data) (gid data) authorized_file
            (snd (execute (append_call location authorized_file line) sc)))
     = Done tt.

End SshAllowLogin.
End SshAllowLogin.

(** ** The concrete build, continued

    Stand-ins for the code the methods above call out to, to run the
    model on: a template is a bare key; an execute object is a record
    of what it was built from; the only jar is the one of [base]; the
    registry dispatches [sed]; the system of [ssh_allow_login] is the
    list of its paths, each a directory or not. *)

Module ExMore.
Import Ex.

(** The externals of [Ex], with a jar that cannot be written. *)
Definition full_disk : Externals Ex.World :=
  {| exec_object_execute := fun _ m => (Done tt, m);
     os_chdir := fun _ w => (Done tt, w);
     os_path_isdir := fun d w => bool_decide (d ∈ w);
     run_run := fun _ _ w => (Done PNone, w);
     write_jar := fun _ _ w => (Raised (External "OSError"), w);
     file_file_name := fun _ _ => Raised (External "file_name") |}.

#[export] Instance template : StringTemplate :=
  {| template_substitute := fun text mapping =>
       match mapping !! text with
       | Some value => Done value
       | None => Raised (External "KeyError")
       end |}.

#[export] Instance exec_objects : ExecObjects :=
  {| create_execute_object := fun f l o command_ args message kwargs =>
       Done (PInst "ExecObject"
               [("location", PTuple [f; l; o]);
                ("command", command_);
                ("args", PTuple args);
                ("message", message)]) |}.

#[export] Instance jars : Jars Ex.World :=
  {| read_jar := fun jar w =>
       if String.eqb jar "/work/storage/base/pickle_jar.bin"
       then (Done (RunCtx.pickled_artifact (Ex.base_built w)), w)
       else (Raised (External "FileNotFoundError"), w);
     instantiate := fun obj m =>
       match obj with
       | PInst "RunContext" _ =>
           (Done (upd_flags (S (S (next m)))
                    (upd_substitutions (S (next m))
                       (upd_hooks (next m) (Ex.base_loaded [])))),
            snd (new_flag_table (snd (new_str_table (snd (new_hook_table m))))))
       | _ => (Raised (External "not a RunContext"), m)
       end |}.

#[export] Instance dispatch : Dispatch Ex.World :=
  {| validate_arguments_of := fun cmd args kwargs st =>
       (if String.eqb (name cmd) "sed"
        then Sed.validate_arguments args kwargs
        else Raised AssertionError, st);
     call_of := fun cmd args kwargs st =>
       if String.eqb (name cmd) "sed"
       then match Sed.__call__ args kwargs st with
            | (Done _, st') => (Done PNone, st')
            | (Raised e, st') => (Raised e, st')
            end
       else (Raised AssertionError, st) |}.

(** A command of the same module as [Ex.sed_command], another object. *)
Definition saved_sed_command : Command :=
  mkCommand 3 "cleanroom.commands.sed" "sed <PATTERN> <FILE>" "Run sed on a file.".

(** The entry [add_hook] builds at [base.def], line 3, for [sed]. *)
Definition hooked_sed : ExecObject :=
  PInst "ExecObject"
    [("location", PTuple [PStr "base.def"; PInt 3; PInt 0]);
     ("command", PStr "sed");
     ("args", PTuple [PStr "s/a/b/"; PStr "/etc/hosts"]);
     ("message", PStr "<unknown hook>")].

(** The system of [ssh_allow_login]: paths, each a directory or not.
    The one user is [alice]; the one key file is [id_rsa.pub]. *)
Definition System : Type := list (string * bool).

Definition alice : SshAllowLogin.UserData :=
  SshAllowLogin.mkUserData 1000 1000 "/home/alice".

Definition alice_key : string := "ssh-rsa AAAA alice@host".

#[export] Instance helpers : SshAllowLogin.Helpers nat System :=
  {| SshAllowLogin.next_line := S;
     SshAllowLogin.exists_ := fun sc path => bool_decide (path ∈ map fst sc);
     SshAllowLogin.isdir := fun sc path => bool_decide ((path, true) ∈ sc);
     SshAllowLogin.user_data := fun sc user =>
       match user with
       | PStr "alice" => Done (Some alice)
       | _ => Done None
       end;
     SshAllowLogin.read_file := fun sc keyfile =>
       match keyfile with
       | PStr "id_rsa.pub" => Done alice_key
       | _ => Raised (External "FileNotFoundError")
       end;
     SshAllowLogin.execute := fun c sc =>
       match SetTimezone.call_command _ c, SetTimezone.call_args _ c with
       | "mkdir", [PStr dir] => (Done tt, (sc ++ [(dir, true)])%list)
       | "append", PStr file :: _ =>
           (Done tt,
            if bool_decide (file ∈ map fst sc) then sc
            else (sc ++ [(file, false)])%list)
       | _, _ => (Done tt, sc)
       end;
     SshAllowLogin.chown := fun _ _ _ sc => (Done tt, sc);
     SshAllowLogin.chmod := fun _ _ sc => (Done tt, sc);
     SshAllowLogin.str_ := fun _ => "<object>" |}.

(** Systems to run [ssh_allow_login] on: the directories of [alice] in
    place; a file where [.ssh] should be; nothing yet. *)
Definition prepared : SshAllowLogin.SysState nat System :=
  SshAllowLogin.mkSysState [("/home/alice", true); ("/home/alice/.ssh", true)] [].
Definition blocked : SshAllowLogin.SysState nat System :=
  SshAllowLogin.mkSysState [("/home/alice", true); ("/home/alice/.ssh", false)] [].
Definition bare : SshAllowLogin.SysState nat System :=
  SshAllowLogin.mkSysState [] [].

(** The line [alice]'s key gives without options. *)
Definition alice_line : string := alice_key +:+ SshAllowLogin.nl.

End ExMore.

(** * Theorems *)

(** [name] strips the 19 characters of [cleanroom.commands.] *)
Example name_sed :
  name (mkCommand 0 "cleanroom.commands.sed" "sed <PATTERN> <FILE>" "Run sed on a file.")
  = "sed".
Proof. reflexivity. Qed.

(** ** Facts about persistence *)

Module PersistFacts.
Import Persist.

Lemma dump_tokens (obj : PyObj) :
  tokens (dump persistent_id obj) = map token_of (commands obj).
Proof.
  induction obj as [| | | |items IH|items IH|items IH|cls items IH|c]
    using PyObj_ind; simpl; try done.
  all: induction IH as [|x l Hx _ IHl]; simpl; [done|];
    by rewrite map_app, <- Hx, <- IHl.
Qed.

Lemma dump_by_value (obj : PyObj) : by_value (dump persistent_id obj) = [].
Proof.
  induction obj as [| | | |items IH|items IH|items IH|cls items IH|c]
    using PyObj_ind; simpl; try done.
  all: induction IH as [|x l Hx _ IHl]; simpl; [done|];
    by rewrite Hx, IHl.
Qed.

Lemma persistent_load_token `{Parser} (c : Command) :
  persistent_load (token_of c) =
  match command (PStr (name c)) with
  | Done c' => Done (PCmd c')
  | Raised e => Raised e
  end.
Proof. reflexivity. Qed.

Lemma load_all_map {K V} (f : K -> nat -> Res V * nat) (g : V -> K)
    (l : list V) :
  Forall (fun x => forall n, f (g x) n = (Done x, n)) l ->
  forall n, load_all f (map g l) n = (Done l, n).
Proof.
  induction 1 as [|x l Hx _ IH]; intros n; simpl; [done|].
  by rewrite Hx, IH.
Qed.

Lemma load_vals_map {K V} (f : K -> nat -> Res V * nat) (g : V -> K)
    (l : list (string * V)) :
  Forall (fun kv => forall n, f (g (snd kv)) n = (Done (snd kv), n)) l ->
  forall n,
    load_vals f (map (fun kv => (fst kv, g (snd kv))) l) n = (Done l, n).
Proof.
  induction 1 as [|[key x] l Hx _ IH]; intros n; simpl in *; [done|].
  by rewrite Hx, IH.
Qed.

Lemma load_all_Done {K V} (f : K -> nat -> Res V * nat) (Q : K -> Prop)
    (l : list K) :
  Forall (fun x => forall n o n', f x n = (Done o, n') -> Q x) l ->
  forall n os n', load_all f l n = (Done os, n') -> Forall Q l.
Proof.
  induction 1 as [|x l Hx _ IH]; intros n os n'; simpl; [by constructor|].
  destruct (f x n) as [[o|e] n1] eqn:Hf; [|discriminate].
  destruct (load_all f l n1) as [[os1|e] n2] eqn:Hl; [|discriminate].
  intros _. constructor; eauto.
Qed.

Lemma load_vals_Done {K V} (f : K -> nat -> Res V * nat) (Q : K -> Prop)
    (l : list (string * K)) :
  Forall (fun kv => forall n o n', f (snd kv) n = (Done o, n') -> Q (snd kv)) l ->
  forall n os n', load_vals f l n = (Done os, n') ->
                  Forall (fun kv => Q (snd kv)) l.
Proof.
  induction 1 as [|x l Hx _ IH]; intros n os n'; simpl; [by constructor|].
  destruct (f (snd x) n) as [[o|e] n1] eqn:Hf; [|discriminate].
  destruct (load_vals f l n1) as [[os1|e] n2] eqn:Hl; [|discriminate].
  intros _. constructor; eauto.
Qed.

Lemma Forall_flat_map_all {X Y} (R : Y -> Prop) (f : X -> list Y) (l : list X) :
  Forall (fun x => Forall R (f x)) l -> Forall R (flat_map f l).
Proof.
  induction 1 as [|x l Hx _ IH]; simpl; [by constructor|].
  by apply Forall_app.
Qed.

Lemma Forall_flat_map_inv {X Y} (R : Y -> Prop) (f : X -> list Y) (l : list X) :
  Forall R (flat_map f l) -> Forall (fun x => Forall R (f x)) l.
Proof.
  induction l as [|x l IH]; simpl; [by constructor|].
  intros [? ?]%Forall_app. constructor; auto.
Qed.

(** Loading what the context pickler wrote gives the object back, with
    every command the registry's own instance. *)
Lemma load_dump `{Parser} (obj : PyObj) :
  Forall registered (commands obj) ->
  forall next,
    load persistent_load (dump persistent_id obj) next = (Done obj, next).
Proof.
  induction obj as [| | | |items IH|items IH|items IH|cls items IH|c]
    using PyObj_ind; intros Hreg next; simpl in *; try done.
  5: { apply Forall_cons_1 in Hreg as [Hc _].
       change (PTuple [PStr "Command"; PStr (name c)]) with (token_of c).
       rewrite persistent_load_token. unfold registered in Hc. by rewrite Hc. }
  all: apply Forall_flat_map_inv in Hreg.
  1,2: rewrite (load_all_map _ (dump persistent_id)); [done|].
  3,4: rewrite (load_vals_map _ (dump persistent_id)); [done|].
  all: eapply Forall_impl; [apply Forall_and; split; [exact IH|exact Hreg]|];
    intros x [Hx Hr] n; by apply Hx.
Qed.

Lemma persistent_load_bad_tag `{Parser} (pid tag cmd : PyObj) :
  unpack2 pid = Done (tag, cmd) ->
  is_Command_tag tag = false ->
  persistent_load pid = Raised (UnpicklingError "Unsupported persistent object.").
Proof. intros Hu Ht. unfold persistent_load. by rewrite Hu, Ht. Qed.

(** A pickle that loads has had every one of its tokens resolved. *)
Lemma load_Done_tokens (pl : PyObj -> Res PyObj) (k : Pickled) :
  forall next obj next',
    load pl k next = (Done obj, next') ->
    Forall (fun pid => exists o, pl pid = Done o) (tokens k).
Proof.
  induction k as [| | | |items IH|items IH|items IH|cls items IH|m s h|pid]
    using Pickled_ind; intros next obj next' Hload; simpl in *;
    try by constructor.
  5: { constructor; [|constructor]. destruct (pl pid) eqn:Hp; [eauto|].
       by injection Hload. }
  1,2: destruct (load_all _ _ _) as [[os|e] n] eqn:Hl; [|discriminate];
    apply Forall_flat_map_all; by eapply load_all_Done.
  1,2: destruct (load_vals _ _ _) as [[os|e] n] eqn:Hl; [|discriminate];
    apply Forall_flat_map_all;
    by eapply (load_vals_Done _
                 (fun x => Forall (fun pid => exists o, pl pid = Done o) (tokens x))
                 _ IH).
Qed.

(** C5.  What the context pickler writes holds no command by value:
    every [Command] instance of the object graph is written as the
    token [('Command', name)], in the order met.  Loading such a token
    gives what the registry returns for the name, the registry's own
    instance; so when the commands of the graph are the registry's
    instances, loading the pickle gives the graph back with the very
    same commands.  A token that unpacks into a tag other than
    ['Command'] raises an [UnpicklingError], and no pickle that holds
    such a token loads. *)
Theorem commands_pickled_by_reference `{Parser} (obj : PyObj) (next : nat) :
  Forall registered (commands obj) ->
  by_value (dump persistent_id obj) = []
  /\ tokens (dump persistent_id obj) = map token_of (commands obj)
  /\ (forall c : Command,
        load persistent_load (KPersId (token_of c)) next
        = (match command (PStr (name c)) with
           | Done c' => Done (PCmd c')
           | Raised e => Raised e
           end, next))
  /\ (forall c : Command,
        c ∈ commands obj ->
        load persistent_load (KPersId (token_of c)) next = (Done (PCmd c), next))
  /\ load persistent_load (dump persistent_id obj) next = (Done obj, next)
  /\ (forall pid tag cmd : PyObj,
        unpack2 pid = Done (tag, cmd) ->
        is_Command_tag tag = false ->
        load persistent_load (KPersId pid) next
        = (Raised (UnpicklingError "Unsupported persistent object."), next)
        /\ (forall (k : Pickled) (n : nat),
              pid ∈ tokens k ->
              exists e n', load persistent_load k n = (Raised e, n'))).
Proof.
  intros Hreg. split_and!.
  - apply dump_by_value.
  - apply dump_tokens.
  - intros c. cbn [load]. by rewrite persistent_load_token.
  - intros c Hc. cbn [load]. rewrite persistent_load_token.
    rewrite Forall_forall in Hreg. by rewrite (Hreg c Hc).
  - by apply load_dump.
  - intros pid tag cmd Hu Ht.
    pose proof (persistent_load_bad_tag pid tag cmd Hu Ht) as Hbad.
    split; [cbn [load]; by rewrite Hbad|].
    intros k n Hin.
    destruct (load persistent_load k n) as [[o|e] n'] eqn:Hl; [|eauto].
    apply load_Done_tokens in Hl. rewrite Forall_forall in Hl.
    destruct (Hl pid Hin) as [o' Ho']. congruence.
Qed.

End PersistFacts.

(** ** Facts about [Command] *)

Module CommandFacts.
Import CommandBase.

(** C7, on the code.  [_validate_no_arguments] returns [None] also when
    it is given a positional or a keyword argument: it builds the
    [ParseError] that says so and does not raise it. *)
Theorem validate_no_arguments_never_raises {RC : Type} (self : Command)
    (run_context : RC) (a : PyObj) (args : list PyObj)
    (kv : string * PyObj) (kwargs : list (string * PyObj)) :
  _validate_no_arguments self run_context [] [] = Done PNone
  /\ _validate_no_arguments self run_context (a :: args) kwargs = Done PNone
  /\ _validate_no_arguments self run_context args (kv :: kwargs) = Done PNone
  /\ ParseError (name self +:+ " does not take arguments.")
       ∈ built_errors self (a :: args) kwargs
  /\ ParseError (name self +:+ " does not take keyword arguments.")
       ∈ built_errors self args (kv :: kwargs).
Proof.
  split_and!; try reflexivity; unfold built_errors;
    cbn [nonempty length Nat.eqb negb]; apply elem_of_app.
  - left. apply list_elem_of_here.
  - right. apply list_elem_of_here.
Qed.

(** The sibling that does raise: [SedCommand.validate_arguments]. *)
Lemma sed_validate_arguments_raises (args : list PyObj)
    (kwargs : gmap string PyObj) :
  length args <> 2%nat ->
  Sed.validate_arguments args kwargs
  = Raised (ParseError "sed needs a pattern and a file.").
Proof.
  intros Hn. unfold Sed.validate_arguments.
  destruct (Nat.eqb_spec (length args) 2); [done|reflexivity].
Qed.

End CommandFacts.

(** ** Facts about [set_timezone] *)

Module SetTimezoneFacts.
Import SetTimezone.
Section Facts.
Context {Location SystemContext : Type} `{!Generator Location SystemContext}.

(** C8.  When the zoneinfo path of the timezone does not exist,
    [set_timezone] raises the [GenerateError] whose message quotes the
    timezone, and the state is the one it was called in: no call of
    [system_context.execute] was made, neither [remove] nor [symlink]. *)
Theorem set_timezone_unknown_zone (location : Location) (timezone : string)
    (rest : list PyObj) (kwargs : gmap string PyObj)
    (st : SysState Location SystemContext) :
  exists_ (system_context st) ("../usr/share/zoneinfo/" +:+ timezone) "/etc"
    = false ->
  __call__ location (PStr timezone :: rest) kwargs st
  = (Raised (GenerateError (not_found_message timezone)), st)
  /\ calls (snd (__call__ location (PStr timezone :: rest) kwargs st)) = calls st
  /\ not_found_message timezone
     = "Timezone " +:+ dq +:+ timezone +:+ dq
       +:+ " not found when trying to set timezone.".
Proof.
  intros Hex.
  assert (Hcall : __call__ location (PStr timezone :: rest) kwargs st
                  = (Raised (GenerateError (not_found_message timezone)), st)).
  { unfold __call__. cbn [index lookup list_lookup]. cbv zeta.
    by rewrite Hex. }
  rewrite Hcall. done.
Qed.

End Facts.
End SetTimezoneFacts.

(** ** Running the monad step by step *)

Module MonadFacts.
Import RunCtx.
Section Steps.
Context {World : Type} `{!Externals World}.
Context {A B : Type}.
Implicit Types (st : State World).

Lemma bind_Done (m : @M World A) (k : A -> @M World B) st a st1 :
  m st = (Done a, st1) -> bind m k st = k a st1.
Proof. intros H. unfold bind. by rewrite H. Qed.

Lemma bind_Raised (m : @M World A) (k : A -> @M World B) st e st1 :
  m st = (Raised e, st1) -> bind m k st = (Raised e, st1).
Proof. intros H. unfold bind. by rewrite H. Qed.

Lemma bind_Done_inv (m : @M World A) (k : A -> @M World B) st b st' :
  bind m k st = (Done b, st') ->
  exists a st1, m st = (Done a, st1) /\ k a st1 = (Done b, st').
Proof.
  unfold bind. destruct (m st) as [[a|e] st1]; [eauto|discriminate].
Qed.

Lemma bind_ret (a : A) (k : A -> @M World B) st : bind (ret a) k st = k a st.
Proof. reflexivity. Qed.

Lemma bind_raise (e : Exn) (k : A -> @M World B) st :
  bind (raise e) k st = (Raised e, st).
Proof. reflexivity. Qed.

Lemma bind_of_res (r : Res A) (k : A -> @M World B) st :
  bind (of_res r) k st
  = match r with Done a => k a st | Raised e => (Raised e, st) end.
Proof. by destruct r. Qed.

Lemma bind_in_world (f : World -> Res A * World) (k : A -> @M World B) st :
  bind (in_world f) k st
  = match fst (f (world (machine st))) with
    | Done a => k a (put_world (snd (f (world (machine st)))) st)
    | Raised e => (Raised e, put_world (snd (f (world (machine st)))) st)
    end.
Proof. reflexivity. Qed.

Lemma bind_in_machine (f : Machine World -> Res A * Machine World)
    (k : A -> @M World B) st :
  bind (in_machine f) k st
  = match fst (f (machine st)) with
    | Done a => k a (put_machine (snd (f (machine st))) st)
    | Raised e => (Raised e, put_machine (snd (f (machine st))) st)
    end.
Proof. reflexivity. Qed.

End Steps.

Section Steps1.
Context {World : Type} `{!Externals World}.
Context {B : Type}.
Implicit Types (st : State World).

Lemma bind_get_self (k : RunContext -> @M World B) st :
  bind get_self k st = k (self_ (machine st)) st.
Proof. reflexivity. Qed.

Lemma bind_get_store (k : Store -> @M World B) st :
  bind get_store k st = k (store (machine st)) st.
Proof. reflexivity. Qed.


Lemma bind_modify_self (f : RunContext -> RunContext) (k : unit -> @M World B) st :
  bind (modify_self f) k st = k tt (map_self f st).
Proof. reflexivity. Qed.

Lemma bind_modify_store (f : Store -> Store) (k : unit -> @M World B) st :
  bind (modify_store f) k st = k tt (map_store f st).
Proof. reflexivity. Qed.

Lemma bind_emit (ev : Event) (k : unit -> @M World B) st :
  bind (emit ev) k st = k tt (record ev st).
Proof. reflexivity. Qed.

Lemma bind_the_ctx (k : Context -> @M World B) st :
  bind the_ctx k st
  = match ctx (self_ (machine st)) with
    | Some c => k c st
    | None => (Raised (AttributeError "'NoneType' object has no attribute"), st)
    end.
Proof.
  unfold the_ctx, bind at 2, get_self, bind.
  by destruct (ctx (self_ (machine st))).
Qed.

Lemma bind_printer (k : unit -> @M World B) st :
  bind printer k st
  = match ctx (self_ (machine st)) with
    | Some _ => k tt st
    | None => (Raised (AttributeError "'NoneType' object has no attribute"), st)
    end.
Proof.
  unfold printer, the_ctx, bind at 2, bind at 2, get_self, bind.
  by destruct (ctx (self_ (machine st))).
Qed.

End Steps1.

Section Calls.
Context {World : Type} `{!Externals World}.
Implicit Types (st : State World).

Lemma the_ctx_apply st :
  the_ctx st
  = match ctx (self_ (machine st)) with
    | Some c => (Done c, st)
    | None => (Raised (AttributeError "'NoneType' object has no attribute"), st)
    end.
Proof.
  unfold the_ctx, get_self, bind. by destruct (ctx (self_ (machine st))).
Qed.

Lemma printer_apply st :
  printer st
  = match ctx (self_ (machine st)) with
    | Some c => (Done tt, st)
    | None => (Raised (AttributeError "'NoneType' object has no attribute"), st)
    end.
Proof.
  unfold printer. unfold bind. rewrite the_ctx_apply.
  by destruct (ctx (self_ (machine st))).
Qed.

Lemma printer_state st : snd (printer st) = st.
Proof. rewrite printer_apply. by destruct (ctx (self_ (machine st))). Qed.

End Calls.
End MonadFacts.

(** ** Facts about [RunContext] *)

Module RunCtxFacts.
Import RunCtx MonadFacts.

(** Reducing the projections of the state and of the run context. *)
Ltac proj :=
  cbn [machine trace self_ store world fst snd
       map_self map_store put_world put_machine record marked
       hook_tables str_tables flag_tables next
       ctx system base_system timestamp base_context hooks
       hooks_that_already_ran substitutions local_substitutions flags
       _command _line_number _line_offset file_name line_number line_offset
       upd_ctx upd_timestamp upd_base_context upd_hooks
       upd_hooks_that_already_ran upd_substitutions upd_local_substitutions
       upd_flags upd__command upd__line_number upd__line_offset
       upd_file_name upd_line_number upd_line_offset] in *.

Section Facts.
Context {World : Type} `{!Externals World}.
Implicit Types (st : State World).
Local Abbreviation shadowed := (@RunCtx.shadowed World).

(** *** The dictionaries *)

Lemma str_table_set_lookup (l : loc) (key value : string) (m : Store) :
  str_table (str_table_set l key value m) l !! key = Some value.
Proof.
  unfold str_table, str_table_set. proj.
  rewrite lookup_insert_eq. cbn [from_option id]. apply lookup_insert_eq.
Qed.

Lemma hook_entries_str_table_set (l : loc) (key value : string) (m : Store)
    (d : loc) (hook : string) :
  hook_entries (str_table_set l key value m) d hook = hook_entries m d hook.
Proof. reflexivity. Qed.

Lemma hook_entries_append_same (l : loc) (hook : string) (x : ExecObject)
    (m : Store) :
  hook_entries (hook_table_append l hook x m) l hook
  = (hook_entries m l hook ++ [x])%list.
Proof.
  unfold hook_entries at 1, hook_table at 1, hook_table_append. proj.
  rewrite lookup_insert_eq. cbn [from_option id]. by rewrite lookup_insert_eq.
Qed.

(** [setdefault] changes no list: it only makes the key present. *)
Lemma hook_entries_setdefault (l : loc) (hook : string) (m : Store)
    (d : loc) (h : string) :
  hook_entries (hook_table_setdefault l hook m) d h = hook_entries m d h.
Proof.
  unfold hook_entries at 1, hook_table at 1, hook_table_setdefault. proj.
  destruct (decide (l = d)) as [->|Hd].
  - rewrite lookup_insert_eq. cbn [from_option id].
    destruct (decide (hook = h)) as [->|Hh].
    + by rewrite lookup_insert_eq.
    + by rewrite lookup_insert_ne.
  - by rewrite lookup_insert_ne.
Qed.

Lemma hook_table_setdefault_lookup (l : loc) (hook : string) (m : Store) :
  hook_table (hook_table_setdefault l hook m) l !! hook
  = Some (hook_entries m l hook).
Proof.
  unfold hook_table at 1, hook_table_setdefault. proj.
  rewrite lookup_insert_eq. cbn [from_option id]. by rewrite lookup_insert_eq.
Qed.

(** *** Lookups *)

Lemma substitution_local (key value : string) (st : State World) :
  local_substitutions (self_ (machine st)) !! key = Some value ->
  fst (substitution key st) = Done (Some value).
Proof.
  intros H. destruct st as [[self m w] tr]. unfold substitution.
  cbv [bind get_self get_store ret]. proj. by rewrite H.
Qed.

Lemma substitution_global (key : string) (st : State World) :
  local_substitutions (self_ (machine st)) !! key = None ->
  fst (substitution key st)
  = Done (str_table (store (machine st))
            (substitutions (self_ (machine st))) !! key).
Proof.
  intros H. destruct st as [[self m w] tr]. unfold substitution.
  cbv [bind get_self get_store ret]. proj. by rewrite H.
Qed.

Lemma fs_directory_Some (c : Context) (system_ : option string)
    (st : State World) :
  ctx (self_ (machine st)) = Some c ->
  fs_directory system_ st = (Done (Ctx.fs_directory c system_), st).
Proof.
  intros H. destruct st as [[self m w] tr]. destruct self. proj. subst.
  reflexivity.
Qed.

(** *** [_install_base_context] *)

Lemma install_result (base : RunContext) (st : State World) (c : Context) :
  ctx (self_ (machine st)) = Some c ->
  _install_base_context base st =
  (Done tt,
   mkState
     (mkMachine
        (upd_local_substitutions
           (<["BASE_SYSTEM" := ""]>
              (<["ROOT" := Ctx.fs_directory c None]>
                 (<["SYSTEM" := system (self_ (machine st))]>
                    (local_substitutions (self_ (machine st))))))
           (upd_flags (flags base)
              (upd_substitutions (substitutions base)
                 (upd_hooks (hooks base)
                    (upd_timestamp (timestamp base)
                       (upd_base_context (Some base) (self_ (machine st))))))))
        (str_table_set (substitutions base) "TIMESTAMP" (timestamp base)
           (store (machine st)))
        (world (machine st)))
     (trace st)).
Proof.
  intros Hc. destruct st as [[self m w] tr]. destruct self. proj. subst.
  reflexivity.
Qed.

Lemma install_None (base : RunContext) (st : State World) :
  ctx (self_ (machine st)) = None ->
  fst (_install_base_context base st)
  = Raised (AttributeError "'NoneType' object has no attribute").
Proof.
  destruct st as [[self m w] tr]. destruct self. proj. intros ->. reflexivity.
Qed.

Lemma install_Done_inv (base : RunContext) (st st' : State World) :
  _install_base_context base st = (Done tt, st') ->
  exists c, ctx (self_ (machine st)) = Some c.
Proof.
  intros H. destruct (ctx (self_ (machine st))) as [c|] eqn:Hc; [eauto|].
  apply (f_equal fst) in H. rewrite (install_None _ _ Hc) in H. discriminate.
Qed.

(** C2.  Installing a base context into a live context succeeds; the
    context then holds the base's timestamp and the very dictionaries of
    the base (the same addresses) as its hooks, substitutions and flags,
    so every hook entry of the base is a hook entry of the context; the
    shared table maps TIMESTAMP to the base's timestamp, which is what
    the lookup gives unless the context has a local TIMESTAMP of its
    own; SYSTEM is the context's own system and ROOT the filesystem root
    its own generator object gives, whatever the base holds. *)
Theorem install_base_context_inherits (base : RunContext) (st : State World)
    (c : Context) :
  ctx (self_ (machine st)) = Some c ->
  exists st',
    _install_base_context base st = (Done tt, st')
    /\ (let self := self_ (machine st) in
        let self' := self_ (machine st') in
        let m' := store (machine st') in
        base_context self' = Some base
        /\ timestamp self' = timestamp base
        /\ hooks self' = hooks base
        /\ substitutions self' = substitutions base
        /\ flags self' = flags base
        /\ (forall hook,
              hook_entries m' (hooks self') hook
              = hook_entries (store (machine st)) (hooks base) hook)
        /\ flag_table m' (flags self') = flag_table (store (machine st)) (flags base)
        /\ str_table m' (substitutions base) !! "TIMESTAMP" = Some (timestamp base)
        /\ (local_substitutions self !! "TIMESTAMP" = None ->
            fst (substitution "TIMESTAMP" st') = Done (Some (timestamp base)))
        /\ system self' = system self
        /\ fst (substitution "SYSTEM" st') = Done (Some (system self))
        /\ fst (fs_directory None st') = Done (Ctx.fs_directory c None)
        /\ fst (substitution "ROOT" st') = Done (Some (Ctx.fs_directory c None))).
Proof.
  intros Hc. eexists. split; [apply (install_result base st c Hc)|].
  cbv zeta. proj.
  split_and!; try reflexivity.
  - apply str_table_set_lookup.
  - intros Hno. rewrite substitution_global; proj.
    + by rewrite str_table_set_lookup.
    + by rewrite !lookup_insert_ne.
  - apply substitution_local. proj.
    rewrite !lookup_insert_ne by done. apply lookup_insert_eq.
  - rewrite (fs_directory_Some c); [done|]. by proj.
  - apply substitution_local. proj.
    rewrite lookup_insert_ne by done. apply lookup_insert_eq.
Qed.

(** *** [_add_hook] *)

Lemma add_hook_result (hook : string) (entry : ExecObject) (st : State World)
    (c : Context) :
  ctx (self_ (machine st)) = Some c ->
  _add_hook hook entry st =
  (Done tt,
   mkState
     (mkMachine (self_ (machine st))
        (hook_table_append (hooks (self_ (machine st))) hook entry
           (store (machine st)))
        (world (machine st)))
     (trace st)).
Proof.
  intros Hc. destruct st as [[self m w] tr]. destruct self. proj. subst.
  reflexivity.
Qed.

Lemma add_hook_None (hook : string) (entry : ExecObject) (st : State World) :
  ctx (self_ (machine st)) = None ->
  fst (_add_hook hook entry st)
  = Raised (AttributeError "'NoneType' object has no attribute").
Proof.
  destruct st as [[self m w] tr]. destruct self. proj. intros ->. reflexivity.
Qed.

Lemma add_hook_Done_inv (hook : string) (entry : ExecObject)
    (st st' : State World) :
  _add_hook hook entry st = (Done tt, st') ->
  exists c, ctx (self_ (machine st)) = Some c.
Proof.
  intros H. destruct (ctx (self_ (machine st))) as [c|] eqn:Hc; [eauto|].
  apply (f_equal fst) in H. rewrite (add_hook_None _ _ _ Hc) in H. discriminate.
Qed.

(** After [_install_base_context] the hooks dictionary is one object
    with two owners: what [_add_hook] appends through the context is
    read through the base context. *)
Lemma install_shares_hooks (base : RunContext) (st st' st'' : State World)
    (hook : string) (entry : ExecObject) :
  _install_base_context base st = (Done tt, st') ->
  _add_hook hook entry st' = (Done tt, st'') ->
  hook_entries (store (machine st'')) (hooks base) hook
  = (hook_entries (store (machine st')) (hooks base) hook ++ [entry])%list.
Proof.
  intros Hi Ha.
  destruct (add_hook_Done_inv _ _ _ _ Ha) as [c' Hc'].
  rewrite (add_hook_result _ _ _ c' Hc') in Ha. injection Ha as <-.
  destruct (install_Done_inv _ _ _ Hi) as [c Hc].
  rewrite (install_result _ _ c Hc) in Hi. injection Hi as <-.
  proj. apply hook_entries_append_same.
Qed.

(** *** [__init__] *)

Lemma init_result (c : Context) (system_ timestamp_ : string) (st : State World) :
  system_ <> "" ->
  __init__ (Some c) system_ timestamp_ st =
  (Done tt,
   mkState
     (mkMachine
        {| ctx := Some c; system := system_; base_system := None;
           timestamp := timestamp_; base_context := None;
           hooks := next (store (machine st));
           hooks_that_already_ran := [];
           substitutions := S (next (store (machine st)));
           local_substitutions :=
             <["BASE_SYSTEM" := ""]>
               (<["ROOT" := Ctx.fs_directory c None]>
                  (<["SYSTEM" := system_]> ∅));
           flags := S (S (next (store (machine st))));
           _command := None; _line_number := -1; _line_offset := -1;
           file_name := None; line_number := None; line_offset := None |}
        (str_table_set (S (next (store (machine st)))) "TIMESTAMP" timestamp_
           (snd (new_flag_table
                   (snd (new_str_table
                           (snd (new_hook_table (store (machine st)))))))))
        (world (machine st)))
     (trace st)).
Proof.
  intros Hne. destruct system_ as [|a s]; [done|].
  destruct st as [[self m w] tr]. reflexivity.
Qed.

Lemma init_raises_None (system_ timestamp_ : string) (st : State World) :
  fst (__init__ None system_ timestamp_ st)
  = Raised (AttributeError "'NoneType' object has no attribute").
Proof. destruct st as [[self m w] tr]. reflexivity. Qed.

Lemma init_raises_empty (c : Context) (timestamp_ : string) (st : State World) :
  fst (__init__ (Some c) "" timestamp_ st) = Raised AssertionError.
Proof. destruct st as [[self m w] tr]. reflexivity. Qed.

(** The constructor succeeds only with a generator object and a
    non-empty system name. *)
Lemma init_Done_inv (c : option Context) (system_ timestamp_ : string)
    (st st' : State World) :
  __init__ c system_ timestamp_ st = (Done tt, st') ->
  exists c', c = Some c' /\ system_ <> "".
Proof.
  intros H. apply (f_equal fst) in H. cbn [fst] in H.
  destruct c as [c|]; [|by rewrite init_raises_None in H].
  exists c. split; [done|]. intros ->.
  by rewrite init_raises_empty in H.
Qed.

(** C6, as the code has it.  BASE_SYSTEM is the empty string on a fresh
    context, which has no base, and it is the empty string again after a
    base context is installed: [_setup_substitutions] writes [''] both
    times, and [base_system] stays [None]. *)
Theorem BASE_SYSTEM_is_always_empty (c : option Context)
    (system_ timestamp_ : string) (base : RunContext)
    (st0 st1 st2 : State World) :
  __init__ c system_ timestamp_ st0 = (Done tt, st1) ->
  _install_base_context base st1 = (Done tt, st2) ->
  fst (substitution "BASE_SYSTEM" st1) = Done (Some "")
  /\ base_context (self_ (machine st1)) = None
  /\ fst (substitution "BASE_SYSTEM" st2) = Done (Some "")
  /\ base_context (self_ (machine st2)) = Some base
  /\ base_system (self_ (machine st2)) = None.
Proof.
  intros Hinit Hinst.
  destruct (init_Done_inv _ _ _ _ _ Hinit) as (c' & -> & Hne).
  rewrite (init_result c' _ timestamp_ st0 Hne) in Hinit.
  injection Hinit as <-.
  rewrite (install_result base _ c') in Hinst by reflexivity.
  injection Hinst as <-.
  split_and!.
  - apply substitution_local. proj. apply lookup_insert_eq.
  - reflexivity.
  - apply substitution_local. proj. apply lookup_insert_eq.
  - reflexivity.
  - reflexivity.
Qed.

(** *** [run_hooks] *)

Lemma run_entries_O d hook i st : run_entries 0 d hook i st = (Raised LoopBudget, st).
Proof. reflexivity. Qed.

Lemma run_entries_S budget d hook i st :
  run_entries (S budget) d hook i st =
  match hook_entries (store (machine st)) d hook !! i with
  | None => (Done tt, st)
  | Some cmd =>
      match ctx (self_ (machine st)) with
      | None => (Raised (AttributeError "'NoneType' object has no attribute"), st)
      | Some c =>
          let st1 := put_world (snd (os_chdir (systems_directory c) (world (machine st)))) st in
          match fst (os_chdir (systems_directory c) (world (machine st))) with
          | Raised e => (Raised e, st1)
          | Done _ =>
              let st2 := record (EvExecute hook cmd) st1 in
              let st3 := put_machine (snd (exec_object_execute cmd (machine st2))) st2 in
              match fst (exec_object_execute cmd (machine st2)) with
              | Raised e => (Raised e, st3)
              | Done _ => run_entries budget d hook (S i) st3
              end
          end
      end
  end.
Proof.
  cbn [run_entries]. rewrite bind_get_store.
  destruct (hook_entries (store (machine st)) d hook !! i) as [cmd|]; [|reflexivity].
  rewrite bind_the_ctx. destruct (ctx (self_ (machine st))) as [c|]; [|reflexivity].
  rewrite bind_in_world. cbv zeta.
  destruct (fst (os_chdir (systems_directory c) (world (machine st)))); [|reflexivity].
  rewrite bind_emit, bind_in_machine. reflexivity.
Qed.

Lemma run_hooks_unfold budget hook st :
  run_hooks budget hook st =
  if bool_decide (hook ∈ hooks_that_already_ran (self_ (machine st)))
  then printer st
  else
    let d := hooks (self_ (machine st)) in
    let st_a := map_store (hook_table_setdefault d hook) st in
    match ctx (self_ (machine st)) with
    | None => (Raised (AttributeError "'NoneType' object has no attribute"), st_a)
    | Some _ =>
        if negb (nonempty (hook_entries (store (machine st_a)) d hook))
        then (Done tt, st_a)
        else
          match run_entries budget d hook 0 st_a with
          | (Done _, st_b) => (Done tt, marked hook st_b)
          | (Raised e, st_b) => (Raised e, st_b)
          end
    end.
Proof.
  unfold run_hooks. rewrite bind_get_self.
  destruct (bool_decide (hook ∈ hooks_that_already_ran (self_ (machine st))));
    [reflexivity|].
  cbv zeta. rewrite bind_modify_store, bind_get_store, bind_printer.
  change (ctx (self_ (machine (map_store
            (hook_table_setdefault (hooks (self_ (machine st))) hook) st))))
    with (ctx (self_ (machine st))).
  destruct (ctx (self_ (machine st))) as [c|] eqn:Hc; [|reflexivity].
  destruct (negb (nonempty _)); [reflexivity|].
  rewrite bind_printer.
  change (ctx (self_ (machine (map_store
            (hook_table_setdefault (hooks (self_ (machine st))) hook) st))))
    with (ctx (self_ (machine st))).
  rewrite Hc. unfold bind at 1.
  destruct (run_entries _ _ _ _ _) as [[[]|e] st_b]; reflexivity.
Qed.

Lemma pair_eta {X Y} (p : X * Y) : p = (fst p, snd p).
Proof. by destruct p. Qed.

Lemma run_entries_events budget d hook : forall i st r st1,
  run_entries budget d hook i st = (r, st1) ->
  exists l, trace st1 = (trace st ++ map (EvExecute hook) l)%list.
Proof.
  induction budget as [|budget IH]; intros i st r st1.
  - rewrite run_entries_O. intros [= <- <-]. exists []. by rewrite app_nil_r.
  - rewrite run_entries_S.
    destruct (hook_entries _ _ _ !! i) as [cmd|];
      [|intros [= <- <-]; exists []; by rewrite app_nil_r].
    destruct (ctx _) as [c|];
      [|intros [= <- <-]; exists []; by rewrite app_nil_r].
    cbv zeta. destruct (fst (os_chdir _ _));
      [|intros [= <- <-]; exists []; by rewrite app_nil_r].
    destruct (fst (exec_object_execute _ _)).
    + intros H. apply IH in H as [l Hl]. exists (cmd :: l).
      rewrite Hl. proj. by rewrite <- app_assoc.
    + intros [= <- <-]. exists [cmd]. reflexivity.
Qed.

Lemma run_entries_trace (Happ : entries_only_appended) budget d hook :
  forall i st st1,
  run_entries budget d hook i st = (Done tt, st1) ->
  trace st1 = (trace st ++ map (EvExecute hook)
                 (drop i (hook_entries (store (machine st1)) d hook)))%list
  /\ hook_entries (store (machine st)) d hook
     `prefix_of` hook_entries (store (machine st1)) d hook.
Proof.
  induction budget as [|budget IH]; intros i st st1.
  - rewrite run_entries_O. discriminate.
  - rewrite run_entries_S.
    destruct (hook_entries _ _ _ !! i) as [cmd|] eqn:Hi.
    2: { intros [= <-]. split; [|done].
         rewrite drop_ge; [by rewrite app_nil_r|]. by apply lookup_ge_None. }
    destruct (ctx _) as [c|]; [|discriminate].
    cbv zeta. destruct (fst (os_chdir _ _)); [|discriminate].
    destruct (fst (exec_object_execute _ _)) as [[]|] eqn:Hx; [|discriminate].
    intros H. apply IH in H as [Htr Hpre]. proj.
    match type of Hx with
    | fst (exec_object_execute ?e ?m) = _ =>
        assert (Hm := Happ e m _ (eq_trans (pair_eta _) (f_equal (fun r => (r, _)) Hx)) d hook)
    end.
    proj.
    assert (Hall : hook_entries (store (machine st)) d hook
                   `prefix_of` hook_entries (store (machine st1)) d hook)
      by (etrans; eassumption).
    split; [|done].
    rewrite Htr. proj. rewrite <- app_assoc. f_equal.
    rewrite (drop_S _ cmd i); [done|].
    by eapply prefix_lookup_Some.
Qed.

Lemma nonempty_false {X} (l : list X) : nonempty l = false -> l = [].
Proof. by destruct l. Qed.

Lemma printer_inv st (r : Res unit) st' :
  printer st = (r, st') ->
  st' = st /\ (is_Some (ctx (self_ (machine st))) -> r = Done tt).
Proof.
  rewrite printer_apply. destruct (ctx _); intros [= <- <-]; split; try done.
  all: by intros [? ?].
Qed.

(** A hook that already ran: the call changes nothing. *)
Lemma run_hooks_already_ran budget hook st :
  hook ∈ hooks_that_already_ran (self_ (machine st)) ->
  run_hooks budget hook st = printer st.
Proof.
  intros H. rewrite run_hooks_unfold. by rewrite bool_decide_eq_true_2.
Qed.

(** A hook without entries. *)
Lemma run_hooks_no_entries budget hook st :
  hook ∉ hooks_that_already_ran (self_ (machine st)) ->
  hook_entries (store (machine st)) (hooks (self_ (machine st))) hook = [] ->
  run_hooks budget hook st =
  (fst (printer st),
   map_store (hook_table_setdefault (hooks (self_ (machine st))) hook) st).
Proof.
  intros Hran Hnil. rewrite run_hooks_unfold, printer_apply.
  rewrite bool_decide_eq_false_2 by done. cbv zeta.
  destruct (ctx _); [|reflexivity].
  proj. by rewrite hook_entries_setdefault, Hnil.
Qed.

Lemma run_hooks_events budget hook st r st1 :
  run_hooks budget hook st = (r, st1) ->
  exists l, trace st1 = (trace st ++ map (EvExecute hook) l)%list.
Proof.
  rewrite run_hooks_unfold. case_bool_decide as Hran.
  - intros Hp. exists []. rewrite app_nil_r.
    apply (f_equal snd) in Hp. rewrite printer_state in Hp. by subst.
  - cbv zeta. destruct (ctx _);
      [|intros [= <- <-]; exists []; by rewrite app_nil_r].
    destruct (negb _);
      [intros [= <- <-]; exists []; by rewrite app_nil_r|].
    destruct (run_entries _ _ _ _ _) as [[[]|e] st_b] eqn:Hloop;
      intros [= <- <-]; apply run_entries_events in Hloop as [l Hl];
      exists l; proj; by rewrite Hl.
Qed.

(** C3, as the code has it.  The hook is marked as run after the loop
    over its entries, so only a call that returns marks it.  When the
    hook entries leave the registered lists alone (or only append to
    them), and a first [run_hooks] returns, then it has executed every
    entry registered under the hook exactly once, in registration order
    (none if the hook had already run), and a second [run_hooks] on the
    state it left executes nothing, whatever it returns; it returns
    normally when the context still has its generator object. *)
Theorem run_hooks_twice_runs_once (budget1 budget2 : nat) (hook : string)
    (st st1 st2 : State World) (r2 : Res unit) :
  entries_only_appended ->
  run_hooks budget1 hook st = (Done tt, st1) ->
  run_hooks budget2 hook st1 = (r2, st2) ->
  let registered :=
    hook_entries (store (machine st1)) (hooks (self_ (machine st))) hook in
  hook_entries (store (machine st)) (hooks (self_ (machine st))) hook
    `prefix_of` registered
  /\ trace st1
     = (trace st ++ map (EvExecute hook)
          (if bool_decide (hook ∈ hooks_that_already_ran (self_ (machine st)))
           then [] else registered))%list
  /\ trace st2 = trace st1
  /\ (is_Some (ctx (self_ (machine st1))) -> r2 = Done tt).
Proof.
  intros Happ H1 H2. cbv zeta. rewrite run_hooks_unfold in H1.
  case_bool_decide as Hran.
  - assert (st1 = st) as ->.
    { apply (f_equal snd) in H1. by rewrite printer_state in H1. }
    rewrite run_hooks_already_ran in H2 by done.
    apply printer_inv in H2 as [-> Hr2].
    split_and!; [done|by rewrite app_nil_r|done|done].
  - cbv zeta in H1. destruct (ctx (self_ (machine st))) as [c|] eqn:Hc;
      [|discriminate].
    destruct (negb (nonempty _)) eqn:Hne.
    + injection H1 as <-. apply negb_true_iff, nonempty_false in Hne.
      proj. rewrite hook_entries_setdefault in Hne |- *.
      rewrite run_hooks_no_entries in H2; proj;
        [|done|by rewrite hook_entries_setdefault].
      injection H2 as <- <-. rewrite Hne.
      split_and!; [done|by rewrite app_nil_r|done|].
      intros _. by rewrite printer_apply; proj; rewrite Hc.
    + destruct (run_entries _ _ _ _ _) as [[[]|e] st_b] eqn:Hloop;
        [|discriminate].
      injection H1 as <-.
      apply (run_entries_trace Happ) in Hloop as [Htr Hpre].
      proj. rewrite hook_entries_setdefault in Hpre. rewrite drop_0 in Htr.
      rewrite run_hooks_already_ran in H2
        by (proj; apply elem_of_app; right; by apply list_elem_of_singleton).
      apply printer_inv in H2 as [-> Hr2].
      split_and!; done.
Qed.

(** C4, as the code has it.  On a live context, running a hook that has
    not run and has no entries returns normally, executes nothing and
    does not mark the hook: [hooks_that_already_ran] is unchanged; the
    only change is that the hooks dictionary now has the hook as a key,
    with the empty list. *)
Theorem run_hooks_without_entries (budget : nat) (hook : string)
    (st : State World) (c : Context) :
  ctx (self_ (machine st)) = Some c ->
  hook ∉ hooks_that_already_ran (self_ (machine st)) ->
  hook_entries (store (machine st)) (hooks (self_ (machine st))) hook = [] ->
  exists st',
    run_hooks budget hook st = (Done tt, st')
    /\ trace st' = trace st
    /\ self_ (machine st') = self_ (machine st)
    /\ world (machine st') = world (machine st)
    /\ hooks_that_already_ran (self_ (machine st'))
       = hooks_that_already_ran (self_ (machine st))
    /\ (hook ∉ hooks_that_already_ran (self_ (machine st')))
    /\ (hook_table (store (machine st')) (hooks (self_ (machine st))))
         !! hook = Some [].
Proof.
  intros Hc Hran Hnil. eexists. split.
  - rewrite run_hooks_no_entries by done. by rewrite printer_apply, Hc.
  - proj. split_and!; try done.
    by rewrite hook_table_setdefault_lookup, Hnil.
Qed.

(** With enough rounds the loop returns. *)
Lemma run_entries_returns (Hquiet : entries_return_quietly) d hook c :
  forall n i st,
    ctx (self_ (machine st)) = Some c ->
    (length (hook_entries (store (machine st)) d hook) <= i + n)%nat ->
    exists st1, run_entries (S n) d hook i st = (Done tt, st1).
Proof.
  destruct Hquiet as [Hchdir Hexec].
  induction n as [|n IH]; intros i st Hc Hlen; rewrite run_entries_S.
  - rewrite (proj2 (lookup_ge_None _ _)) by lia. eauto.
  - destruct (hook_entries _ _ _ !! i) as [cmd|] eqn:Hi; [|eauto].
    rewrite Hc. cbv zeta. rewrite Hchdir.
    match goal with
    | |- context [exec_object_execute cmd ?m] =>
        destruct (Hexec cmd m) as (Hr & Hctx & Hsame)
    end.
    rewrite Hr. apply IH.
    + proj. by rewrite Hctx.
    + proj. rewrite Hsame. proj. lia.
Qed.

(** [run_hooks] returns when the budget of the loop is above the number
    of registered entries. *)
Lemma run_hooks_returns (Hquiet : entries_return_quietly) budget hook st c :
  ctx (self_ (machine st)) = Some c ->
  (length (hook_entries (store (machine st)) (hooks (self_ (machine st))) hook)
   < budget)%nat ->
  exists st1, run_hooks budget hook st = (Done tt, st1).
Proof.
  intros Hc Hlen. rewrite run_hooks_unfold.
  case_bool_decide.
  - rewrite printer_apply, Hc. eauto.
  - cbv zeta. rewrite Hc. destruct (negb (nonempty _)); [eauto|].
    destruct budget as [|n]; [lia|].
    destruct (run_entries_returns Hquiet (hooks (self_ (machine st))) hook c n 0
                (map_store (hook_table_setdefault (hooks (self_ (machine st))) hook) st))
      as [st1 ->]; [done| |eauto].
    proj. rewrite hook_entries_setdefault. lia.
Qed.
(** *** Invariants of the state, and [file_name] *)

Section Preserves.
Variable P : State World -> Prop.

Lemma preserves_bind {A B} (m : @M World A) (k : A -> @M World B) :
  preserves P m -> (forall a, preserves P (k a)) -> preserves P (bind m k).
Proof.
  intros Hm Hk st HP. unfold bind. specialize (Hm st HP).
  destruct (m st) as [[a|e] st1]; [by apply Hk|done].
Qed.

Lemma preserves_ret {A} (a : A) : preserves P (ret a).
Proof. by intros st. Qed.
Lemma preserves_raise {A} (e : Exn) : preserves P (@raise World A e).
Proof. by intros st. Qed.
Lemma preserves_of_res {A} (r : Res A) : preserves P (of_res r).
Proof. by intros st. Qed.
Lemma preserves_get_self : preserves P get_self.
Proof. by intros st. Qed.
Lemma preserves_get_store : preserves P get_store.
Proof. by intros st. Qed.
Lemma preserves_get_world : preserves P get_world.
Proof. by intros st. Qed.
Lemma preserves_the_ctx : preserves P the_ctx.
Proof. intros st HP. rewrite the_ctx_apply. by destruct (ctx _). Qed.
Lemma preserves_printer : preserves P printer.
Proof. intros st HP. by rewrite printer_state. Qed.
End Preserves.

Lemma preserves_modify_store f : preserves shadowed (modify_store f).
Proof. by intros st. Qed.
Lemma preserves_emit ev : preserves shadowed (emit ev).
Proof. by intros st. Qed.
Lemma preserves_in_world {A} (f : World -> Res A * World) :
  preserves shadowed (in_world f).
Proof. by intros st. Qed.
Lemma preserves_modify_self f :
  (forall self, is_Some (file_name self) -> is_Some (file_name (f self))) ->
  preserves shadowed (modify_self f).
Proof. intros Hf st. apply Hf. Qed.
Lemma preserves_in_machine (Hkeep : entries_keep_file_name) entry :
  preserves shadowed (in_machine (exec_object_execute entry)).
Proof. intros st. apply Hkeep. Qed.

Ltac preserve :=
  repeat first
    [ apply preserves_ret | apply preserves_raise | apply preserves_of_res
    | apply preserves_get_self | apply preserves_get_store
    | apply preserves_get_world | apply preserves_the_ctx
    | apply preserves_printer | apply preserves_modify_store
    | apply preserves_emit | apply preserves_in_world
    | apply preserves_modify_self; intros ? ?; by (done || eauto)
    | apply preserves_bind; [|intros ?]
    | match goal with |- preserves _ (if ?b then _ else _) => destruct b end
    | match goal with |- preserves _ (match ?o with Some _ => _ | None => _ end) =>
        destruct o end ].

Lemma preserves_set_substitution k v l : preserves shadowed (set_substitution k v l).
Proof. unfold set_substitution. preserve. Qed.

Lemma preserves_fs_directory s : preserves shadowed (fs_directory s).
Proof. unfold fs_directory. preserve. Qed.

Lemma preserves_setup : preserves shadowed _setup_substitutions.
Proof.
  unfold _setup_substitutions.
  repeat first [apply preserves_set_substitution | apply preserves_fs_directory
               | apply preserves_get_self | apply preserves_bind; [|intros ?]].
Qed.

Lemma preserves_reset_command : preserves shadowed reset_command.
Proof. unfold reset_command. preserve. Qed.

Lemma preserves_set_command n f l o : preserves shadowed (set_command n f l o).
Proof. unfold set_command. preserve. Qed.

Lemma preserves_install b : preserves shadowed (_install_base_context b).
Proof.
  unfold _install_base_context.
  repeat first [apply preserves_setup
               | apply preserves_modify_self; intros ? ?; done
               | apply preserves_bind; [|intros ?]].
Qed.

Lemma preserves_add_hook h e : preserves shadowed (_add_hook h e).
Proof. unfold _add_hook. preserve. Qed.

Lemma preserves_run a o k : preserves shadowed (run a o k).
Proof.
  unfold run. destruct (k !! "chroot"); [apply preserves_raise|].
  repeat first [apply preserves_fs_directory | progress preserve].
Qed.

Lemma preserves_pickle : preserves shadowed pickle.
Proof. unfold pickle. preserve. Qed.

Lemma preserves_run_entries (Hkeep : entries_keep_file_name) budget d hook :
  forall i, preserves shadowed (run_entries budget d hook i).
Proof.
  induction budget as [|budget IH]; intros i; cbn [run_entries].
  - apply preserves_raise.
  - apply preserves_bind; [apply preserves_get_store|intros m].
    destruct (_ !! i); [|apply preserves_ret].
    repeat first [apply IH | apply preserves_in_machine; assumption
                 | progress preserve].
Qed.

Lemma preserves_run_hooks (Hkeep : entries_keep_file_name) budget hook :
  preserves shadowed (run_hooks budget hook).
Proof.
  unfold run_hooks.
  repeat first [apply preserves_run_entries; assumption | progress preserve].
Qed.

Lemma preserves_call (Hkeep : entries_keep_file_name) c :
  preserves shadowed (call c).
Proof.
  destruct c; cbn [call].
  - apply preserves_reset_command.
  - apply preserves_set_command.
  - apply preserves_set_substitution.
  - apply preserves_install.
  - apply preserves_add_hook.
  - by apply preserves_run_hooks.
  - apply preserves_bind; [apply preserves_run|intros; apply preserves_ret].
  - apply preserves_pickle.
Qed.

Lemma calls_shadowed (Hkeep : entries_keep_file_name) cs :
  forall st, shadowed st -> shadowed (calls cs st).
Proof.
  induction cs as [|c cs IH]; intros st Hs; cbn [calls]; [done|].
  apply IH. by apply preserves_call.
Qed.

Lemma set_command_Done n f l o st st1 :
  set_command n f l o st = (Done tt, st1) ->
  file_name (self_ (machine st1)) = Some f.
Proof.
  unfold set_command. rewrite bind_get_self.
  destruct (_command (self_ (machine st))); [discriminate|].
  rewrite !bind_modify_self. intros [= <-]. reflexivity.
Qed.

Lemma call_file_name_shadowed path st :
  shadowed st ->
  call_file_name path st = (Raised (TypeError "'str' object is not callable"), st).
Proof.
  intros [s Hs]. unfold call_file_name. rewrite bind_get_self. by rewrite Hs.
Qed.

Lemma call_file_name_unset path st :
  file_name (self_ (machine st)) = None ->
  call_file_name path st = file_name_method path st.
Proof.
  intros Hs. unfold call_file_name. rewrite bind_get_self. by rewrite Hs.
Qed.

(** A fresh context has no instance attribute [file_name]. *)
Lemma init_file_name_unset c system_ timestamp_ st st1 :
  __init__ c system_ timestamp_ st = (Done tt, st1) ->
  file_name (self_ (machine st1)) = None.
Proof.
  intros Hinit.
  destruct (init_Done_inv _ _ _ _ _ Hinit) as (c' & -> & Hne).
  rewrite (init_result c' _ timestamp_ st Hne) in Hinit.
  by injection Hinit as <-.
Qed.

(** C10.  Once [set_command] has returned, the instance attribute
    [file_name] holds the string it was given, and after any further
    calls of the context's methods (whose hook entries do not delete
    the attribute) the attribute is still set, so the call
    [file_name(path)] raises a TypeError and leaves the state as it is.
    While the attribute is unset, as on a fresh context, the call is the
    method of the class. *)
Theorem file_name_shadowed_after_set_command
    (command_name file_name_ : string) (line_number_ line_offset_ : Z)
    (st st1 : State World) (cs : list Call) (path : PyObj) :
  entries_keep_file_name ->
  set_command command_name file_name_ line_number_ line_offset_ st
    = (Done tt, st1) ->
  file_name (self_ (machine st1)) = Some file_name_
  /\ is_Some (file_name (self_ (machine (calls cs st1))))
  /\ call_file_name path (calls cs st1)
     = (Raised (TypeError "'str' object is not callable"), calls cs st1)
  /\ (file_name (self_ (machine st)) = None ->
      call_file_name path st = file_name_method path st).
Proof.
  intros Hkeep Hset. apply set_command_Done in Hset.
  assert (Hs : shadowed (calls cs st1)).
  { apply calls_shadowed; [done|]. unfold shadowed. by rewrite Hset. }
  split_and!; [done|done|by apply call_file_name_shadowed|].
  apply call_file_name_unset.
Qed.

(** *** [run] *)

Lemma run_apply args outside kwargs st c :
  kwargs !! "chroot" = None ->
  kwargs !! "trace_output" = None ->
  ctx (self_ (machine st)) = Some c ->
  run args outside kwargs st =
  let kwargs' := if negb outside
                 then <["chroot" := PStr (Ctx.fs_directory c None)]> kwargs
                 else kwargs in
  let st1 := record (EvRun args kwargs') st in
  (fst (run_run args kwargs' (world (machine st))),
   put_world (snd (run_run args kwargs' (world (machine st)))) st1).
Proof.
  intros Hk Ht Hc. unfold run. rewrite Hk. destruct outside; cbn [negb]; cbv zeta.
  - rewrite bind_ret, bind_the_ctx, Hc, Ht, bind_emit. reflexivity.
  - rewrite (bind_Done _ _ st
               (<["chroot" := PStr (Ctx.fs_directory c None)]> kwargs) st).
    + rewrite bind_the_ctx, Hc, lookup_insert_ne, Ht, bind_emit by done.
      reflexivity.
    + unfold bind. by rewrite (fs_directory_Some c).
Qed.

(** A [trace_output] among the caller's keywords. *)
Lemma run_second_trace_output args outside kwargs st c (v : PyObj) :
  kwargs !! "chroot" = None ->
  kwargs !! "trace_output" = Some v ->
  ctx (self_ (machine st)) = Some c ->
  run args outside kwargs st
  = (Raised (TypeError
               "run() got multiple values for keyword argument 'trace_output'"),
     st).
Proof.
  intros Hk Ht Hc. unfold run. rewrite Hk. destruct outside; cbn [negb]; cbv zeta.
  - rewrite bind_ret, bind_the_ctx, Hc, Ht. reflexivity.
  - rewrite (bind_Done _ _ st
               (<["chroot" := PStr (Ctx.fs_directory c None)]> kwargs) st).
    + rewrite bind_the_ctx, Hc, lookup_insert_ne, Ht by done. reflexivity.
    + unfold bind. by rewrite (fs_directory_Some c).
Qed.

Lemma run_None args outside kwargs st :
  ctx (self_ (machine st)) = None ->
  exists e, run args outside kwargs st = (Raised e, st).
Proof.
  intros Hc. unfold run. destruct (kwargs !! "chroot"); [by eexists|].
  destruct outside; cbn [negb].
  - rewrite bind_ret, bind_the_ctx, Hc. by eexists.
  - unfold bind at 1. unfold bind at 1. unfold fs_directory.
    rewrite bind_the_ctx, Hc. by eexists.
Qed.

Lemma run_Done args outside kwargs st (r : PyObj) st1 :
  kwargs !! "chroot" = None ->
  run args outside kwargs st = (Done r, st1) ->
  exists c,
    ctx (self_ (machine st)) = Some c
    /\ trace st1
       = (trace st ++ [EvRun args
            (if negb outside
             then <["chroot" := PStr (Ctx.fs_directory c None)]> kwargs
             else kwargs)])%list
    /\ self_ (machine st1) = self_ (machine st)
    /\ store (machine st1) = store (machine st).
Proof.
  intros Hk. destruct (ctx (self_ (machine st))) as [c|] eqn:Hc.
  - destruct (kwargs !! "trace_output") as [v|] eqn:Ht.
    + rewrite (run_second_trace_output _ _ _ _ c v Hk Ht Hc). discriminate.
    + rewrite (run_apply _ _ _ _ c Hk Ht Hc). cbv zeta. intros [= _ <-].
      by exists c.
  - destruct (run_None args outside kwargs st Hc) as [e ->]. discriminate.
Qed.

(** *** [pickle] *)

Lemma upd_restore (self : RunContext) (c : Context) :
  ctx self = Some c ->
  upd_hooks_that_already_ran (hooks_that_already_ran self)
    (upd_ctx (Some c) (upd_hooks_that_already_ran [] (upd_ctx None self)))
  = self.
Proof. destruct self. proj. by intros ->. Qed.

Lemma pickle_apply st c :
  ctx (self_ (machine st)) = Some c ->
  pickle st =
  let jar := pickle_jar c None in
  let st1 := record (EvDump jar (pickled_artifact st))
               (map_self (fun self => upd_hooks_that_already_ran [] (upd_ctx None self)) st) in
  let result := write_jar jar (pickled_artifact st) (world (machine st)) in
  match fst result with
  | Done _ => (Done tt, put_world (snd result) (record (EvDump jar (pickled_artifact st)) st))
  | Raised e => (Raised e, put_world (snd result) st1)
  end.
Proof.
  intros Hc. unfold pickle. rewrite bind_get_self, bind_the_ctx, Hc. cbv zeta.
  rewrite !bind_modify_self, bind_get_self, bind_get_store, bind_emit, bind_in_world.
  unfold pickled_artifact. proj.
  destruct (fst (write_jar _ _ _)); [|reflexivity].
  rewrite bind_modify_self. unfold modify_self. proj.
  unfold put_world, record, map_self. proj.
  by rewrite (upd_restore _ c Hc).
Qed.


End Facts.
End RunCtxFacts.

(** ** Facts about [sed] *)

Module SedFacts.
Import RunCtx MonadFacts RunCtxFacts.
Section Facts.
Context {World : Type} `{!Externals World}.
Implicit Types (st : State World).

(** C9, as the code has it.  On a live context, [sed] with a pattern
    and a file maps the file to its outside path with the helper
    [file_name] and makes one call of [run.run], with
    [/usr/bin/sed -i -e pattern outside-path] and no keyword argument:
    no [chroot], so the process runs on the host filesystem
    ([outside=True]), on the file inside the staged root. *)
Theorem sed_runs_outside_the_root (pattern path : PyObj) (rest : list PyObj)
    (kwargs : gmap string PyObj) (st : State World) (c : Context) (f : PyObj) :
  ctx (self_ (machine st)) = Some c ->
  file_file_name (self_ (machine st)) path = Done f ->
  let argv := [PStr "/usr/bin/sed"; PStr "-i"; PStr "-e"; pattern; f] in
  let result := run_run argv ∅ (world (machine st)) in
  Sed.__call__ (pattern :: path :: rest) kwargs st
  = (match fst result with Done _ => Done tt | Raised e => Raised e end,
     put_world (snd result) (record (EvRun argv ∅) st))
  /\ trace (snd (Sed.__call__ (pattern :: path :: rest) kwargs st))
     = (trace st ++ [EvRun argv ∅])%list
  /\ (∅ : gmap string PyObj) !! "chroot" = None.
Proof.
  intros Hc Hf. cbv zeta.
  assert (Hcall : Sed.__call__ (pattern :: path :: rest) kwargs st
    = (match fst (run_run [PStr "/usr/bin/sed"; PStr "-i"; PStr "-e"; pattern; f]
                    ∅ (world (machine st)))
       with Done _ => Done tt | Raised e => Raised e end,
       put_world (snd (run_run [PStr "/usr/bin/sed"; PStr "-i"; PStr "-e"; pattern; f]
                         ∅ (world (machine st))))
         (record (EvRun [PStr "/usr/bin/sed"; PStr "-i"; PStr "-e"; pattern; f] ∅) st))).
  { unfold Sed.__call__.
    rewrite bind_of_res. cbn [index lookup list_lookup].
    rewrite bind_of_res. cbn [index lookup list_lookup].
    rewrite bind_get_self, bind_of_res, Hf. unfold bind.
    rewrite (run_apply _ _ _ _ c) by done. cbv zeta. cbn [negb].
    by destruct (fst (run_run _ _ _)). }
  rewrite Hcall. split_and!; done.
Qed.

End Facts.
End SedFacts.

(** ** Facts about [_teardown] *)

Module TeardownFacts.
Import RunCtx MonadFacts RunCtxFacts.
Section Facts.
Context {World : Type} `{!Externals World}.
Implicit Types (st : State World).

(** Both helpers of [__call__] stop at their first look at the run
    context's directories. *)
Lemma unmount_raises st :
  Teardown._unmount_system_directory st
  = (Raised (Teardown.no_attribute "checkout_directory"), st).
Proof. reflexivity. Qed.

Lemma store_raises st (c : Context) :
  ctx (self_ (machine st)) = Some c ->
  Teardown._store_to_ostree st
  = (Raised (Teardown.no_attribute "system_directory"), st).
Proof.
  intros Hc. unfold Teardown._store_to_ostree.
  rewrite bind_printer, Hc, bind_the_ctx, Hc. reflexivity.
Qed.

(** What [pickle] leaves in the trace, however it ends. *)
Lemma pickle_events st (r : Res unit) st1 :
  pickle st = (r, st1) ->
  exists dumped,
    trace st1 = (trace st ++ dumped)%list
    /\ (dumped = [] \/ exists jar artifact, dumped = [EvDump jar artifact]).
Proof.
  destruct (ctx (self_ (machine st))) as [c|] eqn:Hc.
  - rewrite (pickle_apply _ c Hc). cbv zeta.
    destruct (fst (write_jar _ _ _)); intros [= <- <-];
      (eexists [_]; split; [reflexivity|right; by eexists _, _]).
  - unfold pickle. rewrite bind_get_self, bind_the_ctx, Hc.
    intros [= <- <-]. exists []. rewrite app_nil_r. split; [done|by left].
Qed.

Lemma hooks_and_pickle_events budget st (r : Res unit) st1 :
  Teardown.hooks_and_pickle budget st = (r, st1) ->
  exists (ran_teardown ran_testing : list ExecObject) (dumped : list Event),
    trace st1
    = (trace st ++ map (EvExecute "_teardown") ran_teardown
       ++ map (EvExecute "testing") ran_testing ++ dumped)%list
    /\ (dumped = [] \/ exists jar artifact, dumped = [EvDump jar artifact]).
Proof.
  unfold Teardown.hooks_and_pickle.
  destruct (run_hooks budget "_teardown" st) as [[[]|e] st_a] eqn:H1;
    destruct (run_hooks_events _ _ _ _ _ H1) as [l1 Hl1].
  2: { rewrite (bind_Raised _ _ _ _ _ H1). intros [= <- <-].
       exists l1, [], []. rewrite !app_nil_r. split; [done|by left]. }
  rewrite (bind_Done _ _ _ _ _ H1).
  destruct (run_hooks budget "testing" st_a) as [[[]|e] st_b] eqn:H2;
    destruct (run_hooks_events _ _ _ _ _ H2) as [l2 Hl2].
  2: { rewrite (bind_Raised _ _ _ _ _ H2). intros [= <- <-].
       exists l1, l2, []. rewrite !app_nil_r, Hl2, Hl1, <- app_assoc.
       split; [done|by left]. }
  rewrite (bind_Done _ _ _ _ _ H2). intros H3.
  apply pickle_events in H3 as (dumped & Htr & Hd).
  exists l1, l2, dumped. split; [|done].
  by rewrite Htr, Hl2, Hl1, <- !app_assoc.
Qed.

(** [__call__] is its first three statements and then the raise of
    [_unmount_system_directory]. *)
Lemma teardown_apply budget st :
  Teardown.__call__ budget st
  = (match fst (Teardown.hooks_and_pickle budget st) with
     | Done _ => Raised (Teardown.no_attribute "checkout_directory")
     | Raised e => Raised e
     end,
     snd (Teardown.hooks_and_pickle budget st)).
Proof.
  unfold Teardown.__call__, Teardown.hooks_and_pickle.
  destruct (run_hooks budget "_teardown" st) as [[[]|e] st_a] eqn:H1.
  2: by rewrite !(bind_Raised _ _ _ _ _ H1).
  rewrite !(bind_Done _ _ _ _ _ H1).
  destruct (run_hooks budget "testing" st_a) as [[[]|e] st_b] eqn:H2.
  2: by rewrite !(bind_Raised _ _ _ _ _ H2).
  rewrite !(bind_Done _ _ _ _ _ H2).
  destruct (pickle st_b) as [[[]|e] st_c] eqn:H3.
  2: by rewrite (bind_Raised _ _ _ _ _ H3).
  rewrite (bind_Done _ _ _ _ _ H3).
  by rewrite (bind_Raised _ _ _ _ _ (unmount_raises st_c)).
Qed.

(** C1, as the code has it.  [_teardown] runs the [_teardown] hooks,
    then the [testing] hooks, then pickles the context, in this order,
    and then it raises: [_unmount_system_directory] asks the run
    context for [checkout_directory], an attribute that [RunContext]
    does not have.  So [_teardown] never returns, and it runs neither
    the [umount] nor the commit: whatever the state it is called on,
    what it did outside is hook entries executed and at most one pickle
    written, and no process. *)
Theorem teardown_stops_after_pickle (budget : nat) (st : State World) :
  let steps := Teardown.hooks_and_pickle budget st in
  Teardown.__call__ budget st
  = (match fst steps with
     | Done _ => Raised (Teardown.no_attribute "checkout_directory")
     | Raised e => Raised e
     end,
     snd steps)
  /\ fst (Teardown.__call__ budget st) <> Done tt
  /\ exists (ran_teardown ran_testing : list ExecObject) (dumped : list Event),
       trace (snd (Teardown.__call__ budget st))
       = (trace st ++ map (EvExecute "_teardown") ran_teardown
          ++ map (EvExecute "testing") ran_testing ++ dumped)%list
       /\ (dumped = [] \/ exists jar artifact, dumped = [EvDump jar artifact]).
Proof.
  cbv zeta. rewrite teardown_apply. split_and!.
  - reflexivity.
  - cbn [fst]. by destruct (fst (Teardown.hooks_and_pickle budget st)).
  - cbn [snd]. apply (hooks_and_pickle_events budget st
                        (fst (Teardown.hooks_and_pickle budget st))).
    apply surjective_pairing.
Qed.

End Facts.
End TeardownFacts.

(** ** The theorems at work on the concrete build *)

Module Checks.
Import RunCtx Persist Ex.

Lemma appended_in_example : @entries_only_appended Ex.World Ex.externals.
Proof. intros entry m m' [= <-] d hook. reflexivity. Qed.

Lemma kept_in_example : @entries_keep_file_name Ex.World Ex.externals.
Proof. intros entry m Hs. exact Hs. Qed.

(** C1 at work: [_teardown] on a staged [derived] whose checkout
    directory exists.  The two [testing] entries are executed and the
    context is pickled; then the call raises, with no [umount] and no
    commit. *)
Example teardown_on_a_mounted_checkout :
  fst (Teardown.__call__ 5 Ex.teardown_start)
  = Raised (AttributeError
              "'RunContext' object has no attribute 'checkout_directory'")
  /\ exists artifact,
       trace Ex.teardown_end
       = [EvExecute "testing" Ex.h1; EvExecute "testing" Ex.h2;
          EvDump "/work/storage/derived/pickle_jar.bin" artifact].
Proof. split; [vm_compute; reflexivity|]. eexists. vm_compute. reflexivity. Qed.

(** C2 at work: the base context of [base] installed into the fresh
    context of [derived]. *)
Lemma install_base_context_inherits_witness :
  ctx (self_ (machine (Ex.derived_fresh []))) = Some (Ex.context_of "derived")
  /\ exists st',
    _install_base_context (Ex.base_loaded []) (Ex.derived_fresh [])
      = (Done tt, st')
    /\ (let self := self_ (machine (Ex.derived_fresh [])) in
        let self' := self_ (machine st') in
        let m' := store (machine st') in
        base_context self' = Some (Ex.base_loaded [])
        /\ timestamp self' = timestamp (Ex.base_loaded [])
        /\ hooks self' = hooks (Ex.base_loaded [])
        /\ substitutions self' = substitutions (Ex.base_loaded [])
        /\ flags self' = flags (Ex.base_loaded [])
        /\ (forall hook,
              hook_entries m' (hooks self') hook
              = hook_entries (store (machine (Ex.derived_fresh [])))
                  (hooks (Ex.base_loaded [])) hook)
        /\ flag_table m' (flags self')
           = flag_table (store (machine (Ex.derived_fresh [])))
               (flags (Ex.base_loaded []))
        /\ str_table m' (substitutions (Ex.base_loaded [])) !! "TIMESTAMP"
           = Some (timestamp (Ex.base_loaded []))
        /\ (local_substitutions self !! "TIMESTAMP" = None ->
            fst (substitution "TIMESTAMP" st')
            = Done (Some (timestamp (Ex.base_loaded []))))
        /\ system self' = system self
        /\ fst (substitution "SYSTEM" st') = Done (Some (system self))
        /\ fst (fs_directory None st')
           = Done (Ctx.fs_directory (Ex.context_of "derived") None)
        /\ fst (substitution "ROOT" st')
           = Done (Some (Ctx.fs_directory (Ex.context_of "derived") None))).
Proof.
  split; [vm_compute; reflexivity|].
  apply (RunCtxFacts.install_base_context_inherits (Ex.base_loaded [])
           (Ex.derived_fresh []) (Ex.context_of "derived")).
  vm_compute. reflexivity.
Defined.

(** The scenario of the specification, read off the installed state. *)
Example derived_after_install :
  hook_entries (store (machine (Ex.derived_installed [])))
    (hooks (self_ (machine (Ex.derived_installed [])))) "_teardown" = [Ex.h1]
  /\ fst (substitution "TIMESTAMP" (Ex.derived_installed []))
     = Done (Some "20171231-235959")
  /\ fst (substitution "SYSTEM" (Ex.derived_installed [])) = Done (Some "derived")
  /\ fst (substitution "ROOT" (Ex.derived_installed []))
     = Done (Some "/work/current/derived/fs")
  /\ local_substitutions (Ex.base_loaded []) !! "ROOT"
     = Some "/work/current/base/fs".
Proof. vm_compute. repeat split. Qed.

(** C3 as stated fails: with two entries under [testing] of which the
    second raises, the first [run_hooks] raises and marks no hook, and
    the second [run_hooks] executes both entries again: the first entry
    has been executed twice. *)
Lemma run_hooks_twice_runs_an_entry_twice :
  hook_entries (store (machine Ex.hooks_start))
    (hooks (self_ (machine Ex.hooks_start))) "testing" = [Ex.h1; Ex.h2]
  /\ @run_hooks Ex.World Ex.remove_fails 5 "testing" Ex.hooks_start
     = (Raised (GenerateError "remove failed"), Ex.failed_once)
  /\ hooks_that_already_ran (self_ (machine Ex.failed_once)) = []
  /\ @run_hooks Ex.World Ex.remove_fails 5 "testing" Ex.failed_once
     = (Raised (GenerateError "remove failed"), Ex.failed_twice)
  /\ trace Ex.failed_once
     = [EvExecute "testing" Ex.h1; EvExecute "testing" Ex.h2]
  /\ trace Ex.failed_twice
     = [EvExecute "testing" Ex.h1; EvExecute "testing" Ex.h2;
        EvExecute "testing" Ex.h1; EvExecute "testing" Ex.h2].
Proof. split_and!; vm_compute; reflexivity. Qed.

(** C3, amended, at work: two entries under [testing] that return,
    [run_hooks] twice. *)
Lemma run_hooks_twice_runs_once_witness :
  @entries_only_appended Ex.World Ex.externals
  /\ run_hooks 5 "testing" Ex.hooks_start = (Done tt, Ex.hooks_once)
  /\ run_hooks 5 "testing" Ex.hooks_once = (Done tt, Ex.hooks_twice)
  /\ (let registered :=
        hook_entries (store (machine Ex.hooks_once))
          (hooks (self_ (machine Ex.hooks_start))) "testing" in
      hook_entries (store (machine Ex.hooks_start))
        (hooks (self_ (machine Ex.hooks_start))) "testing"
        `prefix_of` registered
      /\ trace Ex.hooks_once
         = (trace Ex.hooks_start ++ map (EvExecute "testing")
              (if bool_decide
                    ("testing" ∈ hooks_that_already_ran
                                   (self_ (machine Ex.hooks_start)))
               then [] else registered))%list
      /\ trace Ex.hooks_twice = trace Ex.hooks_once
      /\ (is_Some (ctx (self_ (machine Ex.hooks_once))) -> Done tt = Done tt)).
Proof.
  split; [exact appended_in_example|].
  split; [vm_compute; reflexivity|].
  split; [vm_compute; reflexivity|].
  apply (RunCtxFacts.run_hooks_twice_runs_once 5 5 "testing"
           Ex.hooks_start Ex.hooks_once Ex.hooks_twice (Done tt)).
  - exact appended_in_example.
  - vm_compute. reflexivity.
  - vm_compute. reflexivity.
Defined.

(** The scenario of the specification: each entry once, in order. *)
Example testing_hooks_ran_once :
  trace Ex.hooks_start = []
  /\ trace Ex.hooks_once = [EvExecute "testing" Ex.h1; EvExecute "testing" Ex.h2]
  /\ trace Ex.hooks_twice = [EvExecute "testing" Ex.h1; EvExecute "testing" Ex.h2].
Proof. vm_compute. repeat split. Qed.

(** C4 as stated fails: on the fresh context the hook [testing] has no
    entries; [run_hooks] returns and the hook is not marked as run. *)
Lemma run_hooks_without_entries_not_marked :
  hook_entries (store (machine (Ex.fresh [])))
    (hooks (self_ (machine (Ex.fresh [])))) "testing" = []
  /\ fst (run_hooks 5 "testing" (Ex.fresh [])) = Done tt
  /\ trace (snd (run_hooks 5 "testing" (Ex.fresh []))) = []
  /\ hooks_that_already_ran
       (self_ (machine (snd (run_hooks 5 "testing" (Ex.fresh []))))) = []
  /\ ~ ("testing" ∈ hooks_that_already_ran
          (self_ (machine (snd (run_hooks 5 "testing" (Ex.fresh [])))))).
Proof.
  split_and!; try (vm_compute; reflexivity).
  apply (bool_decide_unpack _). vm_compute. exact I.
Qed.

(** C4, amended, at work. *)
Lemma run_hooks_without_entries_witness :
  ctx (self_ (machine (Ex.fresh []))) = Some (Ex.context_of "derived")
  /\ ~ ("testing" ∈ hooks_that_already_ran (self_ (machine (Ex.fresh []))))
  /\ hook_entries (store (machine (Ex.fresh [])))
       (hooks (self_ (machine (Ex.fresh [])))) "testing" = []
  /\ exists st',
    run_hooks 5 "testing" (Ex.fresh []) = (Done tt, st')
    /\ trace st' = trace (Ex.fresh [])
    /\ self_ (machine st') = self_ (machine (Ex.fresh []))
    /\ world (machine st') = world (machine (Ex.fresh []))
    /\ hooks_that_already_ran (self_ (machine st'))
       = hooks_that_already_ran (self_ (machine (Ex.fresh [])))
    /\ ("testing" ∉ hooks_that_already_ran (self_ (machine st')))
    /\ (hook_table (store (machine st')) (hooks (self_ (machine (Ex.fresh [])))))
         !! "testing" = Some [].
Proof.
  assert (Hran : ~ ("testing" ∈ hooks_that_already_ran
                                  (self_ (machine (Ex.fresh []))))).
  { apply (bool_decide_unpack _). vm_compute. exact I. }
  split; [vm_compute; reflexivity|].
  split; [exact Hran|].
  split; [vm_compute; reflexivity|].
  apply (RunCtxFacts.run_hooks_without_entries 5 "testing" (Ex.fresh [])
           (Ex.context_of "derived")).
  - vm_compute. reflexivity.
  - exact Hran.
  - vm_compute. reflexivity.
Defined.

(** C5 at work: the hook entry [h1], which holds the [sed] command. *)
Lemma commands_pickled_by_reference_witness :
  Forall registered (commands Ex.h1)
  /\ by_value (dump persistent_id Ex.h1) = []
  /\ tokens (dump persistent_id Ex.h1) = map token_of (commands Ex.h1)
  /\ (forall c : Command,
        load persistent_load (KPersId (token_of c)) 100
        = (match command (PStr (name c)) with
           | Done c' => Done (PCmd c')
           | Raised e => Raised e
           end, 100%nat))
  /\ (forall c : Command,
        c ∈ commands Ex.h1 ->
        load persistent_load (KPersId (token_of c)) 100
        = (Done (PCmd c), 100%nat))
  /\ load persistent_load (dump persistent_id Ex.h1) 100 = (Done Ex.h1, 100%nat)
  /\ (forall pid tag cmd : PyObj,
        unpack2 pid = Done (tag, cmd) ->
        is_Command_tag tag = false ->
        load persistent_load (KPersId pid) 100
        = (Raised (UnpicklingError "Unsupported persistent object."), 100%nat)
        /\ (forall (k : Pickled) (n : nat),
              pid ∈ tokens k ->
              exists e n', load persistent_load k n = (Raised e, n'))).
Proof.
  assert (Hreg : Forall registered (commands Ex.h1)).
  { vm_compute. repeat constructor. }
  split; [exact Hreg|].
  exact (PersistFacts.commands_pickled_by_reference Ex.h1 100 Hreg).
Defined.

(** The round trip of the specification: the command that comes back is
    the registry's instance, and a pickler without [persistent_id] would
    have had a second instance come back. *)
Example sed_comes_back_identical :
  load persistent_load (dump persistent_id (PCmd Ex.sed_command)) 100
  = (Done (PCmd Ex.sed_command), 100%nat)
  /\ load persistent_load (dump default_persistent_id (PCmd Ex.sed_command)) 100
     = (Done (PCmd (mkCommand 100 "cleanroom.commands.sed"
                      "sed <PATTERN> <FILE>" "Run sed on a file.")), 101%nat)
  /\ load persistent_load (KPersId (PTuple [PStr "Context"; PStr "sed"])) 100
     = (Raised (UnpicklingError "Unsupported persistent object."), 100%nat).
Proof. vm_compute. repeat split. Qed.

(** C6 as stated fails: with the base context installed, BASE_SYSTEM is
    still the empty string. *)
Lemma BASE_SYSTEM_empty_after_install :
  fst (_install_base_context (Ex.base_loaded []) (Ex.derived_fresh []))
    = Done tt
  /\ system (Ex.base_loaded []) = "base"
  /\ base_context (self_ (machine (Ex.derived_installed [])))
     = Some (Ex.base_loaded [])
  /\ fst (substitution "BASE_SYSTEM" (Ex.derived_installed [])) = Done (Some "").
Proof. vm_compute. repeat split. Qed.

(** C6, amended, at work. *)
Lemma BASE_SYSTEM_is_always_empty_witness :
  __init__ (Some (Ex.context_of "derived")) "derived" "20180101-000000"
    (Ex.base_built []) = (Done tt, Ex.derived_fresh [])
  /\ _install_base_context (Ex.base_loaded []) (Ex.derived_fresh [])
     = (Done tt, Ex.derived_installed [])
  /\ fst (substitution "BASE_SYSTEM" (Ex.derived_fresh [])) = Done (Some "")
  /\ base_context (self_ (machine (Ex.derived_fresh []))) = None
  /\ fst (substitution "BASE_SYSTEM" (Ex.derived_installed [])) = Done (Some "")
  /\ base_context (self_ (machine (Ex.derived_installed [])))
     = Some (Ex.base_loaded [])
  /\ base_system (self_ (machine (Ex.derived_installed []))) = None.
Proof.
  split; [vm_compute; reflexivity|].
  split; [vm_compute; reflexivity|].
  apply (RunCtxFacts.BASE_SYSTEM_is_always_empty
           (Some (Ex.context_of "derived")) "derived" "20180101-000000"
           (Ex.base_loaded []) (Ex.base_built []) (Ex.derived_fresh [])
           (Ex.derived_installed [])).
  - vm_compute. reflexivity.
  - vm_compute. reflexivity.
Defined.

(** C8 at work: [set_timezone('Invalid/Zone')]. *)
Lemma set_timezone_unknown_zone_witness :
  SetTimezone.exists_ ["../usr/share/zoneinfo/Europe/Berlin"]
    ("../usr/share/zoneinfo/" +:+ "Invalid/Zone") "/etc" = false
  /\ SetTimezone.__call__ 7%nat [PStr "Invalid/Zone"] ∅
       (SetTimezone.mkSysState ["../usr/share/zoneinfo/Europe/Berlin"] [])
     = (Raised (GenerateError (SetTimezone.not_found_message "Invalid/Zone")),
        SetTimezone.mkSysState ["../usr/share/zoneinfo/Europe/Berlin"] [])
  /\ SetTimezone.calls
       (snd (SetTimezone.__call__ 7%nat [PStr "Invalid/Zone"] ∅
               (SetTimezone.mkSysState ["../usr/share/zoneinfo/Europe/Berlin"] [])))
     = SetTimezone.calls
         (SetTimezone.mkSysState (Location := nat)
            ["../usr/share/zoneinfo/Europe/Berlin"] [])
  /\ SetTimezone.not_found_message "Invalid/Zone"
     = "Timezone " +:+ dq +:+ "Invalid/Zone" +:+ dq
       +:+ " not found when trying to set timezone.".
Proof.
  split; [vm_compute; reflexivity|].
  apply (SetTimezoneFacts.set_timezone_unknown_zone 7%nat "Invalid/Zone" [] ∅
           (SetTimezone.mkSysState ["../usr/share/zoneinfo/Europe/Berlin"] [])).
  vm_compute. reflexivity.
Defined.

(** ... and with a zone that exists, the two calls are made. *)
Example set_timezone_known_zone :
  SetTimezone.calls
    (snd (SetTimezone.__call__ 7%nat [PStr "Europe/Berlin"] ∅
            (SetTimezone.mkSysState ["../usr/share/zoneinfo/Europe/Berlin"] [])))
  = [SetTimezone.mkCall 7%nat "remove" [PStr "/etc/localtime"] ∅;
     SetTimezone.mkCall 8%nat "symlink"
       [PStr "../usr/share/zoneinfo/Europe/Berlin"; PStr "localtime"]
       {["base_directory" := PStr "/etc"]}].
Proof. vm_compute. reflexivity. Qed.

(** C9 as stated fails: the one process [sed] runs is given no [chroot];
    the staged root only shows in the path of the file. *)
Lemma sed_is_not_chrooted :
  fst (fs_directory None (Ex.fresh [])) = Done "/work/current/derived/fs"
  /\ trace (snd (Sed.__call__ [PStr "s/a/b/"; PStr "/etc/hosts"] ∅ (Ex.fresh [])))
     = [EvRun [PStr "/usr/bin/sed"; PStr "-i"; PStr "-e"; PStr "s/a/b/";
               PStr "/work/current/derived/fs/etc/hosts"] ∅]
  /\ (∅ : gmap string PyObj) !! "chroot" = None.
Proof. vm_compute. repeat split. Qed.

(** C9, amended, at work. *)
Lemma sed_runs_outside_the_root_witness :
  ctx (self_ (machine (Ex.fresh []))) = Some (Ex.context_of "derived")
  /\ file_file_name (self_ (machine (Ex.fresh []))) (PStr "/etc/hosts")
     = Done (PStr "/work/current/derived/fs/etc/hosts")
  /\ (let argv := [PStr "/usr/bin/sed"; PStr "-i"; PStr "-e"; PStr "s/a/b/";
                   PStr "/work/current/derived/fs/etc/hosts"] in
      let result := run_run argv ∅ (world (machine (Ex.fresh []))) in
      Sed.__call__ [PStr "s/a/b/"; PStr "/etc/hosts"] ∅ (Ex.fresh [])
      = (match fst result with Done _ => Done tt | Raised e => Raised e end,
         put_world (snd result) (record (EvRun argv ∅) (Ex.fresh [])))
      /\ trace (snd (Sed.__call__ [PStr "s/a/b/"; PStr "/etc/hosts"] ∅ (Ex.fresh [])))
         = (trace (Ex.fresh []) ++ [EvRun argv ∅])%list
      /\ (∅ : gmap string PyObj) !! "chroot" = None).
Proof.
  split; [vm_compute; reflexivity|].
  split; [vm_compute; reflexivity|].
  apply (SedFacts.sed_runs_outside_the_root (PStr "s/a/b/") (PStr "/etc/hosts")
           [] ∅ (Ex.fresh []) (Ex.context_of "derived")
           (PStr "/work/current/derived/fs/etc/hosts")).
  - vm_compute. reflexivity.
  - vm_compute. reflexivity.
Defined.

(** C10 at work. *)
Lemma file_name_shadowed_after_set_command_witness :
  @entries_keep_file_name Ex.World Ex.externals
  /\ set_command "sed" "base.def" 3 0 (Ex.fresh []) = (Done tt, Ex.command_set)
  /\ file_name (self_ (machine Ex.command_set)) = Some "base.def"
  /\ is_Some (file_name (self_ (machine (calls Ex.later_calls Ex.command_set))))
  /\ call_file_name (PStr "/etc/hosts") (calls Ex.later_calls Ex.command_set)
     = (Raised (TypeError "'str' object is not callable"),
        calls Ex.later_calls Ex.command_set)
  /\ (file_name (self_ (machine (Ex.fresh []))) = None ->
      call_file_name (PStr "/etc/hosts") (Ex.fresh [])
      = file_name_method (PStr "/etc/hosts") (Ex.fresh [])).
Proof.
  split; [exact kept_in_example|].
  split; [vm_compute; reflexivity|].
  apply (RunCtxFacts.file_name_shadowed_after_set_command "sed" "base.def" 3 0
           (Ex.fresh []) Ex.command_set Ex.later_calls (PStr "/etc/hosts")).
  - exact kept_in_example.
  - vm_compute. reflexivity.
Defined.

(** Before [set_command] the path is mapped; after it, and after the
    later calls, the call fails. *)
Example file_name_before_and_after :
  fst (call_file_name (PStr "/etc/hosts") (Ex.fresh []))
    = Done (PStr "/work/current/derived/fs/etc/hosts")
  /\ fst (call_file_name (PStr "etc/hosts") (Ex.fresh [])) = Done (PStr "etc/hosts")
  /\ fst (call_file_name (PStr "/etc/hosts") Ex.command_set)
     = Raised (TypeError "'str' object is not callable")
  /\ file_name (self_ (machine (calls Ex.later_calls Ex.command_set)))
     = Some "base.def".
Proof. vm_compute. repeat split. Qed.

(** C7 on the code: one positional argument, and no exception. *)
Example validate_no_arguments_with_argument :
  CommandBase._validate_no_arguments Ex.sed_command tt [PStr "x"] []
  = Done PNone
  /\ CommandBase.built_errors Ex.sed_command [PStr "x"] []
     = [ParseError "sed does not take arguments."].
Proof. vm_compute. repeat split. Qed.

End Checks.

(** ** More about [RunContext]: the substitutions *)

Module SubstitutionFacts.
Import RunCtx RunCtxCalls MonadFacts RunCtxFacts.
Section Facts.
Context {World : Type} `{!Externals World}.
Implicit Types (st : State World).

Lemma set_substitution_apply (key value : string) (local_ : bool) st :
  set_substitution key value local_ st
  = (Done tt,
     if local_
     then map_self (upd_local_substitutions
                      (<[key := value]> (local_substitutions (self_ (machine st))))) st
     else map_store (str_table_set (substitutions (self_ (machine st))) key value) st).
Proof. unfold set_substitution. rewrite bind_get_self. by destruct local_. Qed.

Lemma substitution_apply (key : string) st :
  substitution key st
  = (Done (match local_substitutions (self_ (machine st)) !! key with
           | Some v => Some v
           | None => str_table (store (machine st))
                       (substitutions (self_ (machine st))) !! key
           end), st).
Proof. reflexivity. Qed.

Lemma has_substitution_apply (key : string) st :
  has_substitution key st
  = (Done (bool_decide (is_Some (local_substitutions (self_ (machine st)) !! key))
           || bool_decide (is_Some (str_table (store (machine st))
                                      (substitutions (self_ (machine st))) !! key))),
     st).
Proof. reflexivity. Qed.

Lemma str_table_set_other (l : loc) (key value : string) (m : Store)
    (l' : loc) (key' : string) :
  key' <> key ->
  str_table (str_table_set l key value m) l' !! key' = str_table m l' !! key'.
Proof.
  intros Hne. unfold str_table at 1, str_table_set. proj.
  destruct (decide (l = l')) as [->|Hl].
  - rewrite lookup_insert_eq. cbn [default from_option id].
    by rewrite lookup_insert_ne.
  - by rewrite lookup_insert_ne.
Qed.

Lemma upd_local_substitutions_local (v : gmap string string) (self : RunContext) :
  local_substitutions (upd_local_substitutions v self) = v.
Proof. by destruct self. Qed.

Lemma upd_local_substitutions_global (v : gmap string string) (self : RunContext) :
  substitutions (upd_local_substitutions v self) = substitutions self.
Proof. by destruct self. Qed.

(** X1.  Looking a key up after setting it: a local value is what the
    lookup gives; a global value is what the lookup gives unless the
    context holds a local value for the key, which then still wins. *)
Theorem substitution_after_set (key value : string) (local_ : bool) st :
  fst (substitution key (snd (set_substitution key value local_ st)))
  = Done (Some (if local_ then value
                else default value
                       (local_substitutions (self_ (machine st)) !! key))).
Proof.
  rewrite set_substitution_apply, substitution_apply. cbn [fst snd].
  destruct local_.
  - cbn [map_self machine self_]. rewrite upd_local_substitutions_local.
    by rewrite lookup_insert_eq.
  - cbn [map_store machine self_ store].
    destruct (local_substitutions (self_ (machine st)) !! key); [done|].
    cbn [default from_option id]. by rewrite str_table_set_lookup.
Qed.

(** X2.  Setting one key, locally or globally, changes the value of no
    other key: [substitution] and [has_substitution] answer for every
    other key as before. *)
Theorem set_substitution_frame (key value : string) (local_ : bool)
    (other : string) st :
  other <> key ->
  fst (substitution other (snd (set_substitution key value local_ st)))
  = fst (substitution other st)
  /\ fst (has_substitution other (snd (set_substitution key value local_ st)))
     = fst (has_substitution other st).
Proof.
  intros Hne.
  rewrite set_substitution_apply, !substitution_apply, !has_substitution_apply.
  cbn [fst snd]. destruct local_.
  - cbn [map_self machine self_ store].
    rewrite upd_local_substitutions_local, upd_local_substitutions_global.
    by rewrite lookup_insert_ne.
  - cbn [map_store machine self_ store].
    by rewrite str_table_set_other.
Qed.

(** X3.  The three views of the substitutions agree: for every key,
    [substitution] returns what the mapping that [substitute] expands a
    template with holds for it, and [has_substitution] says whether
    that mapping has the key. *)
Theorem substitution_views_agree `{!StringTemplate} (key text : string) st :
  let mapping := all_substitutions (self_ (machine st)) (store (machine st)) in
  fst (substitution key st) = Done (mapping !! key)
  /\ fst (has_substitution key st) = Done (bool_decide (is_Some (mapping !! key)))
  /\ substitute text st = (template_substitute text mapping, st).
Proof.
  cbv zeta. rewrite substitution_apply, has_substitution_apply. cbn [fst].
  unfold all_substitutions. rewrite lookup_union.
  split_and!; [| |reflexivity].
  - destruct (local_substitutions _ !! key) as [v|];
      destruct (str_table _ _ !! key) as [v'|]; reflexivity.
  - destruct (local_substitutions _ !! key) as [v|];
      destruct (str_table _ _ !! key) as [v'|]; cbn [union_with option_union_with];
      f_equal; repeat case_bool_decide; try done.
    all: try (exfalso; by eauto).
    all: match goal with H : ¬ is_Some _ |- _ => exfalso; apply H; eauto end.
Qed.

(** X4.  After a base context is installed, the two tiers behave as
    tiers: a local value set on the context is not seen through the
    base context, for any key; a global value set on the context is
    written to the table the base context holds too, and is what the
    base context finds for the key unless it has a local value of its
    own. *)
Theorem substitution_tiers_after_install (base : RunContext) st st1
    (key value other : string) :
  _install_base_context base st = (Done tt, st1) ->
  fst (substitution other
         (seen_from base (snd (set_substitution key value true st1))))
  = fst (substitution other (seen_from base st1))
  /\ fst (substitution key
            (seen_from base (snd (set_substitution key value false st1))))
     = Done (Some (default value (local_substitutions base !! key))).
Proof.
  intros Hi. destruct (install_Done_inv _ _ _ Hi) as [c Hc].
  rewrite (install_result _ _ c Hc) in Hi. injection Hi as <-.
  rewrite !set_substitution_apply, !substitution_apply. cbn [fst snd].
  split; [reflexivity|].
  unfold seen_from. cbn [map_self map_store machine self_ store].
  destruct (local_substitutions base !! key); [done|].
  cbn [default from_option id].
  rewrite upd_local_substitutions_global.
  cbn [upd_flags upd_substitutions substitutions].
  by rewrite str_table_set_lookup.
Qed.

End Facts.
End SubstitutionFacts.

(** ** More about [RunContext]: hooks *)

Module HookFacts.
Import RunCtx RunCtxCalls MonadFacts RunCtxFacts.
Section Facts.
Context {World : Type} `{!Externals World}.
Implicit Types (st : State World).

Lemma hook_entries_append_other (l : loc) (hook : string) (x : ExecObject)
    (m : Store) (d : loc) (h : string) :
  (d, h) <> (l, hook) ->
  hook_entries (hook_table_append l hook x m) d h = hook_entries m d h.
Proof.
  intros Hne. unfold hook_entries at 1, hook_table at 1, hook_table_append. proj.
  destruct (decide (l = d)) as [->|Hd].
  - rewrite lookup_insert_eq. cbn [default from_option id].
    rewrite lookup_insert_ne; [done|]. intros ->. by apply Hne.
  - by rewrite lookup_insert_ne.
Qed.

Lemma add_hook_raises (hook : string) (entry : ExecObject) st :
  ctx (self_ (machine st)) = None ->
  _add_hook hook entry st
  = (Raised (AttributeError "'NoneType' object has no attribute"), st).
Proof.
  intros Hc. unfold _add_hook. by rewrite bind_printer, Hc.
Qed.

(** X5.  [_add_hook] on a live context puts the entry at the end of the
    list of its hook and changes nothing else: every other list of hook
    entries, the run context, the world and the trace are as before.
    On a context without generator object it raises before it touches
    the hooks: the state is unchanged. *)
Theorem add_hook_appends (hook : string) (entry : ExecObject) st :
  match ctx (self_ (machine st)) with
  | Some _ =>
      exists st',
        _add_hook hook entry st = (Done tt, st')
        /\ hook_entries (store (machine st')) (hooks (self_ (machine st))) hook
           = (hook_entries (store (machine st)) (hooks (self_ (machine st))) hook
              ++ [entry])%list
        /\ (forall (d : loc) (h : string),
              (d, h) <> (hooks (self_ (machine st)), hook) ->
              hook_entries (store (machine st')) d h
              = hook_entries (store (machine st)) d h)
        /\ self_ (machine st') = self_ (machine st)
        /\ world (machine st') = world (machine st)
        /\ trace st' = trace st
  | None =>
      _add_hook hook entry st
      = (Raised (AttributeError "'NoneType' object has no attribute"), st)
  end.
Proof.
  destruct (ctx (self_ (machine st))) as [c|] eqn:Hc.
  - eexists. split; [apply (add_hook_result _ _ _ c Hc)|]. proj.
    split_and!; try done.
    + apply hook_entries_append_same.
    + intros d h Hne. by apply hook_entries_append_other.
  - by apply add_hook_raises.
Qed.

(** Registering a list of entries. *)
Lemma add_hooks_result (hook : string) (c : Context) (es : list ExecObject) :
  forall st,
    ctx (self_ (machine st)) = Some c ->
    exists st1,
      add_hooks hook es st = (Done tt, st1)
      /\ self_ (machine st1) = self_ (machine st)
      /\ trace st1 = trace st
      /\ hook_entries (store (machine st1)) (hooks (self_ (machine st))) hook
         = (hook_entries (store (machine st)) (hooks (self_ (machine st))) hook
            ++ es)%list.
Proof.
  induction es as [|e es IH]; intros st Hc; cbn [add_hooks].
  - exists st. by rewrite app_nil_r.
  - rewrite (bind_Done _ _ _ _ _ (add_hook_result hook e st c Hc)).
    match goal with
    | |- context [add_hooks hook es ?s] =>
        destruct (IH s) as (st1 & Hrun & Hself & Htr & Hent); [exact Hc|]
    end.
    exists st1. proj. rewrite Hrun, Hself, Htr. split_and!; try done.
    rewrite Hent, hook_entries_append_same. by rewrite <- app_assoc.
Qed.

(** The loop over entries that return and leave the hooks alone. *)
Lemma run_entries_quiet (Hquiet : entries_return_quietly) d hook c :
  forall n i st,
    ctx (self_ (machine st)) = Some c ->
    (length (hook_entries (store (machine st)) d hook) <= i + n)%nat ->
    exists st1,
      run_entries (S n) d hook i st = (Done tt, st1)
      /\ trace st1
         = (trace st ++ map (EvExecute hook)
              (drop i (hook_entries (store (machine st)) d hook)))%list.
Proof.
  destruct Hquiet as [Hchdir Hexec].
  induction n as [|n IH]; intros i st Hc Hlen; rewrite run_entries_S.
  - rewrite (proj2 (lookup_ge_None _ _)) by lia.
    exists st. split; [done|]. rewrite drop_ge by lia. by rewrite app_nil_r.
  - destruct (hook_entries _ _ _ !! i) as [cmd|] eqn:Hi.
    2: { exists st. split; [done|]. apply lookup_ge_None in Hi.
         rewrite drop_ge by done. by rewrite app_nil_r. }
    rewrite Hc. cbv zeta. rewrite Hchdir.
    match goal with
    | |- context [exec_object_execute cmd ?m] =>
        destruct (Hexec cmd m) as (Hr & Hctx & Hsame)
    end.
    rewrite Hr.
    edestruct (IH (S i)) as (st1 & Hrun & Htr); [| |exists st1; split; [exact Hrun|]].
    + proj. by rewrite Hctx.
    + proj. rewrite Hsame. proj. lia.
    + rewrite Htr. proj. rewrite Hsame. proj.
      rewrite <- app_assoc. f_equal.
      by rewrite (drop_S _ cmd i).
Qed.

(** X6.  Registration and running compose: on a live context whose
    hook entries return and leave the hooks alone, after entries are
    registered under a hook that has not run, one [run_hooks] returns
    and has executed what was registered before followed by the new
    entries, each once, in the order of registration. *)
Theorem registered_entries_run_in_order (budget : nat) (hook : string)
    (es : list ExecObject) st (c : Context) :
  entries_return_quietly ->
  ctx (self_ (machine st)) = Some c ->
  hook ∉ hooks_that_already_ran (self_ (machine st)) ->
  (length (hook_entries (store (machine st)) (hooks (self_ (machine st))) hook
           ++ es)%list < budget)%nat ->
  exists st1 st2,
    add_hooks hook es st = (Done tt, st1)
    /\ run_hooks budget hook st1 = (Done tt, st2)
    /\ trace st2
       = (trace st ++ map (EvExecute hook)
            (hook_entries (store (machine st)) (hooks (self_ (machine st))) hook
             ++ es))%list.
Proof.
  intros Hquiet Hc Hran Hlen.
  destruct (add_hooks_result hook c es st Hc) as (st1 & Hadd & Hself & Htr & Hent).
  exists st1. rewrite run_hooks_unfold, Hself.
  rewrite bool_decide_eq_false_2 by done. cbv zeta. rewrite Hc.
  proj. rewrite hook_entries_setdefault, Hent.
  destruct (negb (nonempty _)) eqn:Hne.
  - apply negb_true_iff, nonempty_false in Hne. rewrite Hne.
    eexists. split_and!; [done|done|]. proj. by rewrite Htr, app_nil_r.
  - destruct budget as [|n]; [lia|].
    destruct (run_entries_quiet Hquiet (hooks (self_ (machine st))) hook c n 0
                (map_store (hook_table_setdefault (hooks (self_ (machine st))) hook) st1))
      as (st_b & Hrun & Htrb).
    + proj. by rewrite Hself.
    + proj. rewrite hook_entries_setdefault, Hent. lia.
    + rewrite Hrun. eexists. split_and!; [done|done|].
      proj. rewrite Htrb. proj.
      by rewrite hook_entries_setdefault, Hent, drop_0, Htr.
Qed.

(** The loop itself marks nothing. *)
Lemma run_entries_marks (Hkeep : entries_keep_marks) budget d hook :
  forall i st r st1,
    run_entries budget d hook i st = (r, st1) ->
    hooks_that_already_ran (self_ (machine st1))
    = hooks_that_already_ran (self_ (machine st)).
Proof.
  induction budget as [|budget IH]; intros i st r st1.
  - rewrite run_entries_O. by intros [= <- <-].
  - rewrite run_entries_S.
    destruct (hook_entries _ _ _ !! i) as [cmd|]; [|by intros [= <- <-]].
    destruct (ctx _) as [c|]; [|by intros [= <- <-]].
    cbv zeta. destruct (fst (os_chdir _ _)); [|by intros [= <- <-]].
    destruct (fst (exec_object_execute _ _)).
    + intros H. apply IH in H. rewrite H. proj. by rewrite Hkeep.
    + intros [= <- <-]. proj. by rewrite Hkeep.
Qed.

(** X7.  What [run_hooks] does to [hooks_that_already_ran], however it
    ends (the hook entries themselves leaving that list alone): the
    hook is appended when it had not run, has at least one entry and
    every entry returned; in every other case the list is unchanged.
    So a hook whose run raised is not marked, a hook without entries
    is never marked, and no other hook is ever marked. *)
Theorem run_hooks_marks (budget : nat) (hook : string) st :
  entries_keep_marks ->
  let ran := hooks_that_already_ran (self_ (machine st)) in
  hooks_that_already_ran (self_ (machine (snd (run_hooks budget hook st))))
  = match fst (run_hooks budget hook st) with
    | Done _ =>
        if bool_decide (hook ∈ ran) then ran
        else if nonempty (hook_entries (store (machine st))
                            (hooks (self_ (machine st))) hook)
             then (ran ++ [hook])%list
             else ran
    | Raised _ => ran
    end.
Proof.
  intros Hkeep. cbv zeta. rewrite run_hooks_unfold.
  case_bool_decide as Hran.
  - rewrite printer_apply. by destruct (ctx _).
  - cbv zeta. destruct (ctx _); [|done].
    proj. rewrite hook_entries_setdefault.
    destruct (nonempty _); cbn [negb]; [|done].
    destruct (run_entries _ _ _ _ _) as [[[]|e] st_b] eqn:Hloop;
      apply (run_entries_marks Hkeep) in Hloop; proj; by rewrite Hloop.
Qed.

(** X8.  After [_install_base_context] the hooks dictionary is one
    object with two owners: an entry that [_add_hook] registers through
    the context is at the end of the list the base context holds for
    that hook; installing itself has changed no list. *)
Theorem hooks_shared_with_base (base : RunContext) st st1 st2
    (hook : string) (entry : ExecObject) :
  _install_base_context base st = (Done tt, st1) ->
  _add_hook hook entry st1 = (Done tt, st2) ->
  hooks (self_ (machine st2)) = hooks base
  /\ (forall (d : loc) (h : string),
        hook_entries (store (machine st1)) d h
        = hook_entries (store (machine st)) d h)
  /\ hook_entries (store (machine st2)) (hooks base) hook
     = (hook_entries (store (machine st)) (hooks base) hook ++ [entry])%list.
Proof.
  intros Hi Ha.
  destruct (add_hook_Done_inv _ _ _ _ Ha) as [c' Hc'].
  rewrite (add_hook_result _ _ _ c' Hc') in Ha. injection Ha as <-.
  destruct (install_Done_inv _ _ _ Hi) as [c Hc].
  rewrite (install_result _ _ c Hc) in Hi. injection Hi as <-.
  proj. split_and!; [done|done|].
  by rewrite hook_entries_append_same.
Qed.

End Facts.
End HookFacts.

(** ** More about [RunContext]: [run], [pickle] and the command at hand *)

Module ContextFacts.
Import RunCtx RunCtxCalls MonadFacts RunCtxFacts Persist PersistFacts HookFacts.
Section Facts.
Context {World : Type} `{!Externals World}.
Implicit Types (st : State World).

(** X9.  A context without generator object, as [pickle] writes it and
    as a loaded base context is, runs no process: [run] raises and
    leaves the state, the trace with it, as it was.  So does [run] on
    any context when it is given a [chroot] keyword argument. *)
Theorem run_refuses (args : list PyObj) (outside : bool)
    (kwargs : gmap string PyObj) (root : PyObj) st :
  run args outside (<["chroot" := root]> kwargs) st = (Raised AssertionError, st)
  /\ run args outside kwargs (map_self (upd_ctx None) st)
     = (Raised (match kwargs !! "chroot" with
                | Some _ => AssertionError
                | None => AttributeError "'NoneType' object has no attribute"
                end),
        map_self (upd_ctx None) st).
Proof.
  split.
  - unfold run. by rewrite lookup_insert_eq.
  - unfold run. destruct (kwargs !! "chroot"); [reflexivity|].
    destruct outside; cbn [negb].
    + rewrite bind_ret, bind_the_ctx. by proj.
    + unfold bind at 1. unfold bind at 1. unfold fs_directory.
      rewrite bind_the_ctx. by proj.
Qed.

(** X10.  [run] on a live context, given no [chroot].  When the caller
    gives a [trace_output] keyword, [run] raises a [TypeError], the
    keyword having two values in the call of [run.run], and starts no
    process: the state is unchanged.  Otherwise it starts exactly one
    process, with the positional arguments as given and every keyword
    argument of the caller unchanged; inside the staged root (the
    default) it adds [chroot], the filesystem directory of the
    context's own system, and outside it adds nothing.  The outcome is
    then that of the process; the run context and the store are
    untouched. *)
Theorem run_passes_arguments (args : list PyObj) (outside : bool)
    (kwargs : gmap string PyObj) st (c : Context) :
  kwargs !! "chroot" = None ->
  ctx (self_ (machine st)) = Some c ->
  match kwargs !! "trace_output" with
  | Some _ =>
      run args outside kwargs st
      = (Raised (TypeError
                   "run() got multiple values for keyword argument 'trace_output'"),
         st)
  | None =>
      exists kwargs' : gmap string PyObj,
        trace (snd (run args outside kwargs st))
        = (trace st ++ [EvRun args kwargs'])%list
        /\ (forall key : string, key <> "chroot" -> kwargs' !! key = kwargs !! key)
        /\ kwargs' !! "chroot"
           = (if outside then None else Some (PStr (Ctx.fs_directory c None)))
        /\ fst (run args outside kwargs st)
           = fst (run_run args kwargs' (world (machine st)))
        /\ self_ (machine (snd (run args outside kwargs st))) = self_ (machine st)
        /\ store (machine (snd (run args outside kwargs st))) = store (machine st)
  end.
Proof.
  intros Hk Hc. destruct (kwargs !! "trace_output") as [v|] eqn:Ht.
  { apply (run_second_trace_output _ _ _ _ c v Hk Ht Hc). }
  rewrite (run_apply _ _ _ _ c Hk Ht Hc). cbv zeta.
  eexists. split; [reflexivity|]. proj. split_and!; try done.
  - intros key Hne. destruct outside; cbn [negb]; [done|].
    by rewrite lookup_insert_ne.
  - destruct outside; cbn [negb]; [done|]. by rewrite lookup_insert_eq.
Qed.

(** *** [pickle] *)

Lemma pickled_artifact_detached (c : option Context) (ran : list string) st :
  pickled_artifact
    (map_self (fun self => upd_hooks_that_already_ran ran (upd_ctx c self)) st)
  = pickled_artifact st.
Proof.
  unfold pickled_artifact. destruct st as [[self m w] tr]. by destruct self.
Qed.

(** X11.  When the jar is written, [pickle] returns with the run
    context and the store as they were: the generator object and the
    list of hooks that ran are put back.  What it wrote holds neither:
    the artifact is the same whatever generator object the context has
    and whatever hooks have run. *)
Theorem pickle_restores_context st (c : Context) (c' : option Context)
    (ran' : list string) :
  ctx (self_ (machine st)) = Some c ->
  fst (write_jar (pickle_jar c None) (pickled_artifact st) (world (machine st)))
    = Done tt ->
  exists st1,
    pickle st = (Done tt, st1)
    /\ self_ (machine st1) = self_ (machine st)
    /\ store (machine st1) = store (machine st)
    /\ trace st1
       = (trace st ++ [EvDump (pickle_jar c None) (pickled_artifact st)])%list
    /\ pickled_artifact
         (map_self (fun self => upd_hooks_that_already_ran ran' (upd_ctx c' self)) st)
       = pickled_artifact st.
Proof.
  intros Hc Hw. rewrite (pickle_apply _ c Hc). cbv zeta. rewrite Hw.
  eexists. split; [reflexivity|]. proj.
  split_and!; [done|done|done|apply pickled_artifact_detached].
Qed.

Lemma upd_detached (self : RunContext) :
  ctx (upd_hooks_that_already_ran [] (upd_ctx None self)) = None
  /\ hooks_that_already_ran (upd_hooks_that_already_ran [] (upd_ctx None self)) = [].
Proof. by destruct self. Qed.

(** X12.  When writing the jar raises, [pickle] raises the same
    exception and does not put back what it took out: the run context
    is left without its generator object and with no hook marked as
    run.  Every later [run_hooks] on it raises an [AttributeError]. *)
Theorem pickle_failure_detaches st (c : Context) (e : Exn)
    (budget : nat) (hook : string) :
  ctx (self_ (machine st)) = Some c ->
  fst (write_jar (pickle_jar c None) (pickled_artifact st) (world (machine st)))
    = Raised e ->
  exists st1,
    pickle st = (Raised e, st1)
    /\ self_ (machine st1)
       = upd_hooks_that_already_ran [] (upd_ctx None (self_ (machine st)))
    /\ ctx (self_ (machine st1)) = None
    /\ hooks_that_already_ran (self_ (machine st1)) = []
    /\ fst (run_hooks budget hook st1)
       = Raised (AttributeError "'NoneType' object has no attribute").
Proof.
  intros Hc Hw. rewrite (pickle_apply _ c Hc). cbv zeta. rewrite Hw.
  eexists. split; [reflexivity|]. proj.
  destruct (upd_detached (self_ (machine st))) as [Hctx Hran].
  split_and!; [done|done|done|].
  rewrite run_hooks_unfold. proj.
  rewrite bool_decide_eq_false_2; [done|]. apply not_elem_of_nil.
Qed.

Lemma commands_as_object_hooks (m : Store) (self : RunContext) (hook : string)
    (entry : ExecObject) (cmd : Command) :
  entry ∈ hook_entries m (hooks self) hook ->
  cmd ∈ commands entry ->
  cmd ∈ commands (as_object m self).
Proof.
  intros He Hc. destruct self. proj. cbn [as_object commands].
  apply list_elem_of_In, in_flat_map.
  exists ("hooks", hooks_object (hook_table m hooks0)). split.
  { apply list_elem_of_In, elem_of_app. left.
    do 5 apply list_elem_of_further. apply list_elem_of_here. }
  cbn [snd]. unfold hooks_object. cbn [commands].
  unfold hook_entries in He.
  destruct (hook_table m hooks0 !! hook) as [l|] eqn:Hl;
    cbn [default from_option id] in He; [|by apply elem_of_nil in He].
  apply in_flat_map. exists (hook, PList l). split.
  { apply list_elem_of_In, list_elem_of_fmap.
    exists (hook, l). split; [done|]. by apply elem_of_map_to_list. }
  cbn [snd commands]. apply in_flat_map. exists entry.
  split; by apply list_elem_of_In.
Qed.

Lemma hooks_detached (self : RunContext) :
  hooks (upd_hooks_that_already_ran [] (upd_ctx None self)) = hooks self.
Proof. by destruct self. Qed.

(** X13.  What [pickle] writes holds no command by value, and every
    [Command] instance found in an entry of any hook of the context is
    in it as the token [('Command', name)]. *)
Theorem pickle_writes_hook_commands_by_name st (hook : string)
    (entry : ExecObject) (cmd : Command) :
  entry ∈ hook_entries (store (machine st)) (hooks (self_ (machine st))) hook ->
  cmd ∈ commands entry ->
  token_of cmd ∈ tokens (pickled_artifact st)
  /\ by_value (pickled_artifact st) = [].
Proof.
  intros He Hc. unfold pickled_artifact. split; [|apply dump_by_value].
  rewrite dump_tokens. apply list_elem_of_fmap. exists cmd. split; [done|].
  eapply commands_as_object_hooks; [|exact Hc].
  rewrite hooks_detached. exact He.
Qed.

(** *** The command at hand *)

(** X14.  [set_command] and [reset_command] in a cycle.  With no
    command at hand [set_command] returns; a second [set_command]
    before a [reset_command] fails its assertion and changes nothing;
    [reset_command] clears the command, and sets [_line_number] and
    [_line_offset] to -1, but leaves [file_name], [line_number] and
    [line_offset] as [set_command] wrote them; after it [set_command]
    returns again. *)
Theorem command_cycle (name1 file1 : string) (line1 offset1 : Z)
    (name2 file2 : string) (line2 offset2 : Z) st :
  _command (self_ (machine st)) = None ->
  let st1 := snd (set_command name1 file1 line1 offset1 st) in
  let st2 := snd (reset_command st1) in
  set_command name1 file1 line1 offset1 st = (Done tt, st1)
  /\ _command (self_ (machine st1)) = Some name1
  /\ set_command name2 file2 line2 offset2 st1 = (Raised AssertionError, st1)
  /\ reset_command st1 = (Done tt, st2)
  /\ _command (self_ (machine st2)) = None
  /\ _line_number (self_ (machine st2)) = -1
  /\ _line_offset (self_ (machine st2)) = -1
  /\ file_name (self_ (machine st2)) = Some file1
  /\ line_number (self_ (machine st2)) = Some line1
  /\ line_offset (self_ (machine st2)) = Some offset1
  /\ fst (set_command name2 file2 line2 offset2 st2) = Done tt.
Proof.
  intros Hcmd. destruct st as [[self m w] tr]. destruct self. proj. subst.
  cbv zeta. split_and!; reflexivity.
Qed.

Lemma reset_command_apply st :
  reset_command st
  = (Done tt,
     map_self (fun self =>
       upd__line_offset (-1) (upd__line_number (-1) (upd__command None self))) st).
Proof. reflexivity. Qed.

Lemma set_command_apply (name_ file_ : string) (line_ offset_ : Z) st :
  _command (self_ (machine st)) = None ->
  set_command name_ file_ line_ offset_ st
  = (Done tt,
     map_self (fun self =>
       upd_line_offset (Some offset_)
         (upd_line_number (Some line_)
            (upd_file_name (Some file_) (upd__command (Some name_) self)))) st).
Proof.
  intros Hcmd. unfold set_command. by rewrite bind_get_self, Hcmd.
Qed.

(** *** The constructor *)

Lemma str_table_set_elsewhere (l : loc) (key value : string) (m : Store)
    (l' : loc) :
  l' <> l -> str_table (str_table_set l key value m) l' = str_table m l'.
Proof.
  intros Hne. unfold str_table at 1, str_table_set. proj.
  by rewrite lookup_insert_ne.
Qed.

(** X15.  The constructor needs a generator object and a system name.
    Without the generator object it raises an [AttributeError], from
    the lookup of ROOT, before it reaches its assertions; with an empty
    system name it fails the assertion.  Otherwise it returns, and the
    new context finds TIMESTAMP, SYSTEM and ROOT as given by its
    arguments and its generator object, has no base, no hook marked as
    run and no command at hand. *)
Theorem init_needs_ctx_and_system (c : Context) (system_ timestamp_ : string) st :
  system_ <> "" ->
  fst (__init__ None system_ timestamp_ st)
  = Raised (AttributeError "'NoneType' object has no attribute")
  /\ fst (__init__ (Some c) "" timestamp_ st) = Raised AssertionError
  /\ fst (__init__ (Some c) system_ timestamp_ st) = Done tt
  /\ (let st1 := snd (__init__ (Some c) system_ timestamp_ st) in
      fst (substitution "TIMESTAMP" st1) = Done (Some timestamp_)
      /\ fst (substitution "SYSTEM" st1) = Done (Some system_)
      /\ fst (substitution "ROOT" st1) = Done (Some (Ctx.fs_directory c None))
      /\ base_context (self_ (machine st1)) = None
      /\ hooks_that_already_ran (self_ (machine st1)) = []
      /\ _command (self_ (machine st1)) = None).
Proof.
  intros Hne. split_and!.
  - apply init_raises_None.
  - apply init_raises_empty.
  - by rewrite (init_result c _ timestamp_ st Hne).
  - rewrite (init_result c _ timestamp_ st Hne). cbv zeta. cbn [snd].
    split_and!; [|apply substitution_local; proj..|reflexivity|reflexivity|reflexivity].
    + rewrite substitution_global; proj.
      * by rewrite str_table_set_lookup.
      * by rewrite !lookup_insert_ne.
    + rewrite !lookup_insert_ne by done. apply lookup_insert_eq.
    + rewrite lookup_insert_ne by done. apply lookup_insert_eq.
Qed.

(** X16.  Two contexts that were constructed one after the other share
    no dictionary: what [_add_hook] registers through the second is in
    no list of the first, and a global substitution set through the
    second changes no lookup through the first. *)
Theorem constructed_contexts_share_nothing
    (c1 c2 : option Context) (system1 timestamp1 system2 timestamp2 : string)
    (st0 st1 st2 : State World)
    (hook other : string) (entry : ExecObject) (key value lookup_ : string) :
  __init__ c1 system1 timestamp1 st0 = (Done tt, st1) ->
  __init__ c2 system2 timestamp2 st1 = (Done tt, st2) ->
  let first := self_ (machine st1) in
  hooks (self_ (machine st2)) <> hooks first
  /\ substitutions (self_ (machine st2)) <> substitutions first
  /\ hook_entries (store (machine (snd (_add_hook hook entry st2))))
       (hooks first) other
     = hook_entries (store (machine st1)) (hooks first) other
  /\ fst (substitution lookup_
            (seen_from first (snd (set_substitution key value false st2))))
     = fst (substitution lookup_ (seen_from first st1)).
Proof.
  intros H1 H2.
  destruct (init_Done_inv _ _ _ _ _ H1) as (c1' & -> & Hne1).
  destruct (init_Done_inv _ _ _ _ _ H2) as (c2' & -> & Hne2).
  rewrite (init_result c1' _ timestamp1 st0 Hne1) in H1. injection H1 as <-.
  rewrite (init_result c2' _ timestamp2 _ Hne2) in H2. injection H2 as <-.
  cbv zeta. proj.
  set (n := next (store (machine st0))).
  split_and!.
  - lia.
  - lia.
  - rewrite (add_hook_result _ _ _ c2') by reflexivity. proj.
    rewrite hook_entries_append_other by (intros [= ? _]; lia).
    unfold hook_entries, hook_table, str_table_set. proj.
    by rewrite lookup_insert_ne by lia.
  - rewrite SubstitutionFacts.set_substitution_apply.
    rewrite !SubstitutionFacts.substitution_apply.
    unfold seen_from. proj.
    rewrite !(str_table_set_elsewhere (S (S (S (S n))))) by lia.
    unfold str_table at 1, str_table at 2, str_table_set. proj.
    by rewrite (lookup_insert_ne _ (S (S (S (S n))))) by lia.
Qed.

(** *** [add_hook] *)

Section AddHook.
Context `{!ExecObjects}.

Lemma add_hook_apply (hook : string) (command_ : PyObj) (args : list PyObj)
    (message : PyObj) (kwargs : gmap string PyObj) st :
  add_hook hook command_ args message kwargs st
  = match line_number (self_ (machine st)) with
    | None => (Raised (AttributeError
                 "'RunContext' object has no attribute 'line_number'"), st)
    | Some l =>
        match line_offset (self_ (machine st)) with
        | None => (Raised (AttributeError
                     "'RunContext' object has no attribute 'line_offset'"), st)
        | Some o =>
            match create_execute_object
                    (file_name_attribute (self_ (machine st))) (PInt l) (PInt o)
                    command_ args message kwargs with
            | Raised e => (Raised e, st)
            | Done exec_object => _add_hook hook exec_object st
            end
        end
    end.
Proof.
  unfold add_hook. rewrite bind_get_self. cbv zeta.
  destruct (line_number (self_ (machine st))) as [l|]; [|reflexivity].
  cbn [instance_attribute]. rewrite bind_ret.
  destruct (line_offset (self_ (machine st))) as [o|]; [|reflexivity].
  cbn [instance_attribute]. rewrite bind_ret, bind_of_res.
  by destruct (create_execute_object _ _ _ _ _ _ _).
Qed.

(** X17.  On a context just constructed, before any [set_command],
    [add_hook] raises an [AttributeError]: the instance has no
    [line_number].  Nothing is registered; the state is unchanged. *)
Theorem add_hook_before_set_command (c : option Context)
    (system_ timestamp_ : string) (hook : string) (command_ : PyObj)
    (args : list PyObj) (message : PyObj) (kwargs : gmap string PyObj)
    (st0 st : State World) :
  __init__ c system_ timestamp_ st0 = (Done tt, st) ->
  add_hook hook command_ args message kwargs st
  = (Raised (AttributeError "'RunContext' object has no attribute 'line_number'"),
     st).
Proof.
  intros Hinit.
  destruct (init_Done_inv _ _ _ _ _ Hinit) as (c' & -> & Hne).
  rewrite (init_result c' _ timestamp_ st0 Hne) in Hinit.
  injection Hinit as <-. by rewrite add_hook_apply.
Qed.

(** X18.  After a [set_command], [add_hook] builds its entry with the
    file name, line number and line offset that [set_command] was
    given, and registers it at the end of the hook's list; it does so
    after [reset_command] too, which does not clear the three. *)
Theorem add_hook_uses_last_location (name_ file_ : string) (line_ offset_ : Z)
    (hook : string) (command_ : PyObj) (args : list PyObj) (message : PyObj)
    (kwargs : gmap string PyObj) (st st1 : State World) (c : Context)
    (entry : ExecObject) :
  set_command name_ file_ line_ offset_ st = (Done tt, st1) ->
  ctx (self_ (machine st)) = Some c ->
  create_execute_object (PStr file_) (PInt line_) (PInt offset_)
    command_ args message kwargs = Done entry ->
  let st2 := snd (reset_command st1) in
  let registered s :=
    hook_entries (store (machine s)) (hooks (self_ (machine st))) hook in
  (exists st', add_hook hook command_ args message kwargs st1 = (Done tt, st')
               /\ registered st' = (registered st ++ [entry])%list)
  /\ (exists st', add_hook hook command_ args message kwargs st2 = (Done tt, st')
                  /\ registered st' = (registered st ++ [entry])%list).
Proof.
  intros Hset Hc Hobj. cbv zeta.
  destruct (_command (self_ (machine st))) eqn:Hcmd.
  { unfold set_command in Hset. rewrite bind_get_self, Hcmd in Hset.
    discriminate. }
  rewrite (set_command_apply _ _ _ _ _ Hcmd) in Hset. injection Hset as <-.
  rewrite reset_command_apply. cbn [snd].
  destruct st as [[self m w] tr]. destruct self. proj. subst.
  split; eexists.
  - split; [rewrite add_hook_apply; proj; unfold file_name_attribute; proj;
            rewrite Hobj; apply (add_hook_result _ _ _ c); reflexivity|].
    proj. apply hook_entries_append_same.
  - split; [rewrite add_hook_apply; proj; unfold file_name_attribute; proj;
            rewrite Hobj; apply (add_hook_result _ _ _ c); reflexivity|].
    proj. apply hook_entries_append_same.
Qed.

End AddHook.

End Facts.
End ContextFacts.

(** ** More about persistence *)

Module RegistryFacts.
Import Persist PersistFacts Resolve.

Lemma slice_from_app (prefix rest : string) :
  slice_from (String.length prefix) (prefix +:+ rest) = rest.
Proof. induction prefix as [|a prefix IH]; [done|exact IH]. Qed.

(** X19.  The name of a command is its module name without the first
    19 characters, whatever these are: for the modules of the package
    [cleanroom.commands] it is the name of the module inside the
    package, and it is the same for a module of that name in any other
    package whose prefix is as long.  The token the context pickler
    writes holds nothing but this name. *)
Theorem name_strips_package (prefix module_ syntax_ help_ : string) (i : nat) :
  String.length prefix = 19%nat ->
  name (mkCommand i (prefix +:+ module_) syntax_ help_) = module_
  /\ token_of (mkCommand i (prefix +:+ module_) syntax_ help_)
     = PTuple [PStr "Command"; PStr module_].
Proof.
  intros Hlen. unfold token_of, name. cbn [__module__].
  by rewrite <- Hlen, slice_from_app.
Qed.

Lemma load_all_fmap {K V W} (f : K -> nat -> Res V * nat) (g : W -> K)
    (h : W -> V) (l : list W) :
  Forall (fun x => forall n, f (g x) n = (Done (h x), n)) l ->
  forall n, load_all f (map g l) n = (Done (map h l), n).
Proof.
  induction 1 as [|x l Hx _ IH]; intros n; simpl; [done|].
  by rewrite Hx, IH.
Qed.

Lemma load_vals_fmap {K V W} (f : K -> nat -> Res V * nat) (g : W -> K)
    (h : W -> V) (l : list (string * W)) :
  Forall (fun kv => forall n, f (g (snd kv)) n = (Done (h (snd kv)), n)) l ->
  forall n,
    load_vals f (map (fun kv => (fst kv, g (snd kv))) l) n
    = (Done (map (fun kv => (fst kv, h (snd kv))) l), n).
Proof.
  induction 1 as [|[key x] l Hx _ IH]; intros n; simpl in *; [done|].
  by rewrite Hx, IH.
Qed.

Lemma load_resolve `{Parser} (f : Command -> Command) (obj : PyObj) :
  Forall (fun c => command (PStr (name c)) = Done (f c)) (commands obj) ->
  forall next,
    load persistent_load (dump persistent_id obj) next
    = (Done (resolve f obj), next).
Proof.
  induction obj as [| | | |items IH|items IH|items IH|cls items IH|c]
    using PyObj_ind; intros Hreg next; simpl in *; try done.
  5: { apply Forall_cons_1 in Hreg as [Hc _].
       change (PTuple [PStr "Command"; PStr (name c)]) with (token_of c).
       rewrite persistent_load_token. by rewrite Hc. }
  all: apply Forall_flat_map_inv in Hreg.
  1,2: rewrite (load_all_fmap _ (dump persistent_id) (resolve f)); [done|].
  3,4: rewrite (load_vals_fmap _ (dump persistent_id) (resolve f)); [done|].
  all: eapply Forall_impl; [apply Forall_and; split; [exact IH|exact Hreg]|];
    intros x [Hx Hr] n; by apply Hx.
Qed.

Lemma commands_resolve (f : Command -> Command) (obj : PyObj) :
  commands (resolve f obj) = map f (commands obj).
Proof.
  induction obj as [| | | |items IH|items IH|items IH|cls items IH|c]
    using PyObj_ind; simpl; try done.
  all: induction IH as [|x l Hx _ IHl]; simpl; [done|];
    by rewrite map_app, <- Hx, <- IHl.
Qed.

(** X20.  Loading what the context pickler wrote gives the saved graph
    with every command replaced by the instance the registry holds for
    its name at loading time, whatever instance was saved: the commands
    of a context saved by one process come back as the commands of the
    process that loads it. *)
Theorem load_gives_registry_instances `{Parser} (f : Command -> Command)
    (obj : PyObj) (next : nat) :
  Forall (fun c => command (PStr (name c)) = Done (f c)) (commands obj) ->
  load persistent_load (dump persistent_id obj) next = (Done (resolve f obj), next)
  /\ commands (resolve f obj) = map f (commands obj).
Proof.
  intros Hreg. split; [by apply load_resolve|apply commands_resolve].
Qed.

End RegistryFacts.

(** ** More about the commands *)

Module CommandCallFacts.
Import RunCtx RunCtxCalls MonadFacts RunCtxFacts.
Section Facts.
Context {World : Type} `{!Externals World}.
Implicit Types (st : State World).

(** *** [sed] *)

(** X21.  [sed] with fewer than two arguments: [validate_arguments]
    raises the [ParseError], and a call made all the same raises an
    [IndexError] before it maps a file name or runs a process: the
    state is unchanged. *)
Theorem sed_needs_two_arguments (args : list PyObj)
    (kwargs : gmap string PyObj) st :
  (length args < 2)%nat ->
  Sed.validate_arguments args kwargs
  = Raised (ParseError "sed needs a pattern and a file.")
  /\ Sed.__call__ args kwargs st = (Raised IndexError, st).
Proof.
  intros Hlen. destruct args as [|a [|b args]]; cbn [length] in Hlen; try lia.
  all: split; reflexivity.
Qed.

(** *** What a call leaves in the trace *)








(** *** [execute] *)

Section Execute.
Context `{!Parser} `{!Dispatch World}.

(** X23.  [execute] validates before it calls: when the registry has
    the command and its [validate_arguments] raises, or returns
    anything but [None], [execute] raises (an [AssertionError] in the
    second case) and the state is the one the validation left: the
    command itself was not called. *)
Theorem execute_validates_first (command_ : PyObj) (cmd : Command)
    (args : list PyObj) (kwargs : gmap string PyObj) st :
  command command_ = Done cmd ->
  fst (validate_arguments_of cmd args kwargs st) <> Done PNone ->
  execute command_ args kwargs st
  = (Raised (match fst (validate_arguments_of cmd args kwargs st) with
             | Raised e => e
             | Done _ => AssertionError
             end),
     snd (validate_arguments_of cmd args kwargs st)).
Proof.
  intros Hcmd Hval. unfold execute. rewrite bind_of_res, Hcmd.
  unfold bind at 1.
  destruct (validate_arguments_of cmd args kwargs st) as [[dep|e] st1];
    cbn [fst snd] in *; [|reflexivity].
  destruct dep; try reflexivity. done.
Qed.

End Execute.

(** *** [unpickle_base_context] *)

Section Unpickle.
Context `{!Parser} `{!Jars World}.



End Unpickle.

End Facts.
End CommandCallFacts.

(** ** More about [set_timezone] *)

Module TimezoneFacts.
Import SetTimezone.
Section Facts.
Context {Location SystemContext : Type} `{!Generator Location SystemContext}.

(** X25.  When the zoneinfo path exists, [set_timezone] first removes
    [/etc/localtime]; only when that returned it makes the symlink
    [localtime] to the zoneinfo path, relative to [/etc], at the next
    line.  These are all its calls, and the outcome is that of the last
    one made. *)
Theorem set_timezone_removes_then_links (location : Location) (timezone : string)
    (rest : list PyObj) (kwargs : gmap string PyObj)
    (st : SysState Location SystemContext) :
  exists_ (system_context st) ("../usr/share/zoneinfo/" +:+ timezone) "/etc"
    = true ->
  let remove := mkCall location "remove" [PStr "/etc/localtime"] ∅ in
  let symlink := mkCall (next_line location) "symlink"
                   [PStr ("../usr/share/zoneinfo/" +:+ timezone); PStr "localtime"]
                   {["base_directory" := PStr "/etc"]} in
  let removed := execute remove (system_context st) in
  __call__ location (PStr timezone :: rest) kwargs st
  = match fst removed with
    | Raised e => (Raised e, mkSysState (snd removed) (calls st ++ [remove])%list)
    | Done _ =>
        (fst (execute symlink (snd removed)),
         mkSysState (snd (execute symlink (snd removed)))
           (calls st ++ [remove; symlink])%list)
    end.
Proof.
  intros Hex. cbv zeta. unfold __call__. cbn [index lookup list_lookup]. cbv zeta.
  rewrite Hex. cbn [negb]. unfold do_execute.
  change ("/etc" +:+ "/" +:+ "localtime") with "/etc/localtime".
  destruct (execute _ (system_context st)) as [[[]|e] sc1]; cbn [fst snd];
    [|reflexivity].
  cbn [system_context calls].
  destruct (execute _ sc1) as [r sc2]. cbn [fst snd].
  by rewrite <- app_assoc.
Qed.

End Facts.
End TimezoneFacts.

(** ** Facts about [ssh_allow_login] *)

Module SshAllowLoginFacts.
Import SshAllowLogin.
Section Facts.
Context {Location SystemContext : Type} `{!Helpers Location SystemContext}.
Implicit Types (st : SysState Location SystemContext).

Lemma and_then_ask {A B} (f : SystemContext -> Res A)
    (k : A -> SysState Location SystemContext
         -> Res B * SysState Location SystemContext) st :
  and_then (ask f) k st
  = match f (system_context st) with
    | Done a => k a st
    | Raised e => (Raised e, st)
    end.
Proof. unfold and_then, ask. by destruct (f (system_context st)). Qed.

Lemma and_then_effect {B} (ev : Effect Location)
    (f : SystemContext -> Res unit * SystemContext)
    (k : unit -> SysState Location SystemContext
         -> Res B * SysState Location SystemContext) st :
  and_then (effect ev f) k st
  = match fst (f (system_context st)) with
    | Done a => k a (mkSysState (snd (f (system_context st)))
                       (effects st ++ [ev])%list)
    | Raised e => (Raised e, mkSysState (snd (f (system_context st)))
                               (effects st ++ [ev])%list)
    end.
Proof. unfold and_then, effect. by destruct (fst (f (system_context st))). Qed.

(** What [_check_or_create_directory] does, case by case. *)
Lemma check_or_create_directory_apply (location : Location) (dir : string)
    (kwargs : gmap string PyObj) st :
  _check_or_create_directory location dir kwargs st
  = if exists_ (system_context st) dir
    then if isdir (system_context st) dir
         then (Done tt, st)
         else (Raised (GenerateError (not_a_directory_message dir)), st)
    else effect (Executed (mkdir_call location dir kwargs))
                (execute (mkdir_call location dir kwargs)) st.
Proof.
  unfold _check_or_create_directory. rewrite and_then_ask.
  destruct (exists_ (system_context st) dir); cbn [negb]; [|reflexivity].
  rewrite and_then_ask. by destruct (isdir (system_context st) dir).
Qed.

Lemma and_then_check {B} (location : Location) (dir : string)
    (kwargs : gmap string PyObj)
    (k : unit -> SysState Location SystemContext
         -> Res B * SysState Location SystemContext) st :
  exists_ (system_context st) dir = true ->
  and_then (_check_or_create_directory location dir kwargs) k st
  = if isdir (system_context st) dir then k tt st
    else (Raised (GenerateError (not_a_directory_message dir)), st).
Proof.
  intros Hex. unfold and_then at 1.
  rewrite check_or_create_directory_apply, Hex.
  by destruct (isdir (system_context st) dir).
Qed.

Lemma and_then_check_absent {B} (location : Location) (dir : string)
    (kwargs : gmap string PyObj)
    (k : unit -> SysState Location SystemContext
         -> Res B * SysState Location SystemContext) st :
  exists_ (system_context st) dir = false ->
  and_then (_check_or_create_directory location dir kwargs) k st
  = match fst (execute (mkdir_call location dir kwargs) (system_context st)) with
    | Done a =>
        k a (mkSysState
               (snd (execute (mkdir_call location dir kwargs) (system_context st)))
               (effects st ++ [Executed (mkdir_call location dir kwargs)])%list)
    | Raised e =>
        (Raised e,
         mkSysState
           (snd (execute (mkdir_call location dir kwargs) (system_context st)))
           (effects st ++ [Executed (mkdir_call location dir kwargs)])%list)
    end.
Proof.
  intros Hex. unfold and_then at 1.
  rewrite check_or_create_directory_apply, Hex. unfold effect.
  by destruct (fst (execute _ _)).
Qed.

Lemma grows_apply {A} (m : SysState Location SystemContext
                           -> Res A * SysState Location SystemContext) st :
  grows m -> effects st `prefix_of` effects (snd (m st)).
Proof. intros Hm. apply Hm. Qed.

Lemma grows_ask {A} (f : SystemContext -> Res A) :
  @grows Location SystemContext A (ask f).
Proof. by intros st. Qed.

Lemma grows_effect (ev : Effect Location)
    (f : SystemContext -> Res unit * SystemContext) : grows (effect ev f).
Proof. intros st. apply prefix_app_r. done. Qed.

Lemma grows_and_then {A B} (m : SysState Location SystemContext
                              -> Res A * SysState Location SystemContext)
    (k : A -> SysState Location SystemContext
         -> Res B * SysState Location SystemContext) :
  grows m -> (forall a, grows (k a)) -> grows (and_then m k).
Proof.
  intros Hm Hk st. unfold and_then. specialize (Hm st).
  destruct (m st) as [[a|e] st1]; [|done].
  etrans; [exact Hm|apply Hk].
Qed.

(** X26.  For a user that [user_data] does not know, [ssh_allow_login]
    raises the [GenerateError] that quotes the command and the user,
    before it looks at a directory or reads the key file: nothing is
    done to the system. *)
Theorem ssh_unknown_user (location : Location) (user keyfile : PyObj)
    (rest : list PyObj) (kwargs : gmap string PyObj) st :
  user_data (system_context st) user = Done None ->
  __call__ location (user :: keyfile :: rest) kwargs st
  = (Raised (GenerateError (no_user_message user)), st)
  /\ no_user_message user
     = dq +:+ "ssh_allow_login" +:+ dq +:+ " could not find user "
       +:+ dq +:+ formatted user +:+ dq +:+ ".".
Proof.
  intros Hu. split; [|reflexivity]. unfold __call__.
  rewrite !and_then_ask. cbn [index lookup list_lookup]. cbv beta.
  rewrite ?and_then_ask. cbv beta. by rewrite Hu.
Qed.

(** X27.  When the home directory of the user, or its [.ssh] below a
    home directory that is in place, exists and is not a directory,
    [ssh_allow_login] raises the [GenerateError] that names that path,
    and has done nothing to the system: no directory made, no key
    appended. *)
Theorem ssh_blocked_by_a_file (location : Location) (user keyfile : PyObj)
    (rest : list PyObj) (kwargs : gmap string PyObj) st
    (data : UserData) (blocked : string) :
  user_data (system_context st) user = Done (Some data) ->
  exists_ (system_context st) (home data) = true ->
  exists_ (system_context st) blocked = true ->
  isdir (system_context st) blocked = false ->
  blocked = home data
  \/ (isdir (system_context st) (home data) = true
      /\ blocked = path_join (home data) ".ssh") ->
  __call__ location (user :: keyfile :: rest) kwargs st
  = (Raised (GenerateError (not_a_directory_message blocked)), st).
Proof.
  intros Hu Hhome Hex Hnot Hcase. unfold __call__.
  rewrite !and_then_ask. cbn [index lookup list_lookup]. cbv beta.
  rewrite ?and_then_ask. cbv beta. rewrite Hu.
  rewrite and_then_check by done.
  destruct Hcase as [->|[Hdir ->]].
  - by rewrite Hnot.
  - rewrite Hdir. cbv zeta. rewrite and_then_check by done. by rewrite Hnot.
Qed.

(** A run on a system that is [ready]. *)
Lemma call_ready (location : Location) (user keyfile : PyObj)
    (rest : list PyObj) (kwargs : gmap string PyObj) st
    (data : UserData) (line : string) :
  ready location user keyfile kwargs data line (system_context st) ->
  let authorized_file :=
    path_join (path_join (home data) ".ssh") "authorized_keys" in
  let appended :=
    snd (execute (append_call location authorized_file line) (system_context st)) in
  let owned := snd (chown (uid data) (gid data) authorized_file appended) in
  __call__ location (user :: keyfile :: rest) kwargs st
  = (fst (chmod 384 authorized_file owned),
     mkSysState (snd (chmod 384 authorized_file owned))
       (effects st ++ key_effects location data line)%list).
Proof.
  intros (Hu & Hhome & Hhomedir & Hssh & Hsshdir & (key & Hkey & Hline) & Happ & Hown).
  cbv zeta in *. unfold __call__.
  rewrite !and_then_ask. cbn [index lookup list_lookup]. cbv beta.
  rewrite ?and_then_ask. cbv beta. rewrite Hu.
  rewrite and_then_check, Hhomedir by done.
  rewrite and_then_check, Hsshdir by done.
  rewrite and_then_ask. cbv beta. rewrite Hkey.
  rewrite and_then_ask. cbv beta. rewrite Hline.
  rewrite and_then_effect. cbn [system_context effects]. rewrite Happ.
  rewrite and_then_effect. cbn [system_context effects]. rewrite Hown.
  unfold effect, key_effects. cbn [system_context effects].
  by rewrite <- !app_assoc.
Qed.

(** X28.  On a system where the user, the home directory, its [.ssh]
    and the key file are in place and the [append] and the [chown]
    succeed, [ssh_allow_login] makes no directory: it appends the line
    to [.ssh/authorized_keys] under the home directory, gives the file
    to the user and sets its mode to 0o600, in this order, and its
    outcome is that of the [chmod]. *)
Theorem ssh_adds_the_key (location : Location) (user keyfile : PyObj)
    (rest : list PyObj) (kwargs : gmap string PyObj) st
    (data : UserData) (line : string) :
  ready location user keyfile kwargs data line (system_context st) ->
  let authorized_file :=
    path_join (path_join (home data) ".ssh") "authorized_keys" in
  let appended :=
    snd (execute (append_call location authorized_file line) (system_context st)) in
  let owned := snd (chown (uid data) (gid data) authorized_file appended) in
  __call__ location (user :: keyfile :: rest) kwargs st
  = (fst (chmod 384 authorized_file owned),
     mkSysState (snd (chmod 384 authorized_file owned))
       (effects st
        ++ [Executed (append_call location authorized_file line);
            Chowned (uid data) (gid data) authorized_file;
            Chmodded 384 authorized_file])%list).
Proof. apply call_ready. Qed.

(** X29.  [ssh_allow_login] is not idempotent for the key: run a second
    time on the system the first run left, still [ready], it appends
    the same line again.  After the two runs the effects are the three
    of a run twice over, with no directory made. *)
Theorem ssh_twice_appends_twice (location : Location) (user keyfile : PyObj)
    (rest : list PyObj) (kwargs : gmap string PyObj) st
    (data : UserData) (line : string) :
  let once := snd (__call__ location (user :: keyfile :: rest) kwargs st) in
  let twice := snd (__call__ location (user :: keyfile :: rest) kwargs once) in
  ready location user keyfile kwargs data line (system_context st) ->
  ready location user keyfile kwargs data line (system_context once) ->
  effects twice
  = (effects st ++ key_effects location data line
     ++ key_effects location data line)%list.
Proof.
  cbv zeta. intros H1 H2.
  rewrite (call_ready _ _ _ _ _ _ _ _ H2). cbv zeta. cbn [snd effects].
  rewrite (call_ready _ _ _ _ _ _ _ _ H1). cbv zeta. cbn [snd effects].
  by rewrite <- app_assoc.
Qed.

(** X30.  For a user whose home directory does not exist,
    [ssh_allow_login] first makes it, with mode 0o750 and the user as
    owner and group; when that succeeded and [.ssh] does not exist
    either, it makes that next, with mode 0o700.  Both calls are made
    at the line after the command's. *)
Theorem ssh_makes_the_directories (location : Location) (user keyfile : PyObj)
    (rest : list PyObj) (kwargs : gmap string PyObj) st (data : UserData) :
  let ssh_directory := path_join (home data) ".ssh" in
  let mkdir_home :=
    SetTimezone.mkCall (next_line location) "mkdir" [PStr (home data)]
      {["mode" := PInt 488; "user" := PInt (uid data); "group" := PInt (gid data)]} in
  let mkdir_ssh :=
    SetTimezone.mkCall (next_line location) "mkdir" [PStr ssh_directory]
      {["mode" := PInt 448; "user" := PInt (uid data); "group" := PInt (gid data)]} in
  user_data (system_context st) user = Done (Some data) ->
  exists_ (system_context st) (home data) = false ->
  fst (execute mkdir_home (system_context st)) = Done tt ->
  exists_ (snd (execute mkdir_home (system_context st))) ssh_directory = false ->
  (effects st ++ [Executed mkdir_home; Executed mkdir_ssh])%list
  `prefix_of`
  effects (snd (__call__ location (user :: keyfile :: rest) kwargs st)).
Proof.
  cbv zeta. intros Hu Hhome Hmk Hssh. unfold __call__.
  rewrite !and_then_ask. cbn [index lookup list_lookup]. cbv beta.
  rewrite ?and_then_ask. cbv beta. rewrite Hu.
  rewrite and_then_check_absent by done.
  unfold mkdir_call, directory_kwargs. rewrite Hmk.
  rewrite and_then_check_absent by (cbn [system_context]; exact Hssh).
  unfold mkdir_call, directory_kwargs.
  cbn [system_context effects]. rewrite <- app_assoc. cbn [app].
  destruct (fst (execute _ (snd (execute _ _)))) as [[]|e]; [|done].
  match goal with
  | |- _ `prefix_of` effects (snd (?m ?s)) => apply (grows_apply m s)
  end.
  repeat first
    [ apply grows_ask | apply grows_effect
    | apply grows_and_then; [|intros ?] ].
Qed.

End Facts.
End SshAllowLoginFacts.

(** ** The further theorems at work on the concrete build *)

Module MoreChecks.
Import RunCtx RunCtxCalls Persist Ex ExMore.

Lemma quiet_in_example : @entries_return_quietly Ex.World Ex.externals.
Proof. split; [done|]. intros entry m. split_and!; done. Qed.

Lemma marks_kept_in_example : @entries_keep_marks Ex.World Ex.externals.
Proof. intros entry m. reflexivity. Qed.

(** X2 at work: setting ROOT leaves SYSTEM alone. *)
Lemma set_substitution_frame_witness :
  "SYSTEM" <> "ROOT"
  /\ fst (substitution "SYSTEM"
            (snd (set_substitution "ROOT" "/elsewhere" true (Ex.fresh []))))
     = fst (substitution "SYSTEM" (Ex.fresh []))
  /\ fst (has_substitution "SYSTEM"
            (snd (set_substitution "ROOT" "/elsewhere" true (Ex.fresh []))))
     = fst (has_substitution "SYSTEM" (Ex.fresh [])).
Proof.
  split; [discriminate|].
  apply (SubstitutionFacts.set_substitution_frame "ROOT" "/elsewhere" true
           "SYSTEM" (Ex.fresh [])).
  discriminate.
Defined.

(** X4 at work: [derived] over [base]. *)
Lemma substitution_tiers_after_install_witness :
  _install_base_context (Ex.base_loaded []) (Ex.derived_fresh [])
  = (Done tt, Ex.derived_installed [])
  /\ fst (substitution "SYSTEM"
            (seen_from (Ex.base_loaded [])
               (snd (set_substitution "EXTRA" "v" true (Ex.derived_installed [])))))
     = fst (substitution "SYSTEM"
              (seen_from (Ex.base_loaded []) (Ex.derived_installed [])))
  /\ fst (substitution "EXTRA"
            (seen_from (Ex.base_loaded [])
               (snd (set_substitution "EXTRA" "v" false (Ex.derived_installed [])))))
     = Done (Some (default "v" (local_substitutions (Ex.base_loaded []) !! "EXTRA"))).
Proof.
  split; [vm_compute; reflexivity|].
  apply (SubstitutionFacts.substitution_tiers_after_install (Ex.base_loaded [])
           (Ex.derived_fresh []) (Ex.derived_installed []) "EXTRA" "v" "SYSTEM").
  vm_compute. reflexivity.
Defined.

(** The base context finds the global value, and not the local one. *)
Example tiers_in_example :
  fst (substitution "EXTRA"
         (seen_from (Ex.base_loaded [])
            (snd (set_substitution "EXTRA" "v" false (Ex.derived_installed [])))))
  = Done (Some "v")
  /\ fst (substitution "EXTRA"
            (seen_from (Ex.base_loaded [])
               (snd (set_substitution "EXTRA" "v" true (Ex.derived_installed [])))))
     = Done None.
Proof. vm_compute. repeat split. Qed.

(** X6 at work: two entries registered on a fresh context, then run. *)
Lemma registered_entries_run_in_order_witness :
  exists st1 st2 : State Ex.World,
    add_hooks "testing" [Ex.h1; Ex.h2] (Ex.fresh []) = (Done tt, st1)
    /\ run_hooks 5 "testing" st1 = (Done tt, st2)
    /\ trace st2
       = (trace (Ex.fresh []) ++ map (EvExecute "testing")
            (hook_entries (store (machine (Ex.fresh [])))
               (hooks (self_ (machine (Ex.fresh [])))) "testing"
             ++ [Ex.h1; Ex.h2]))%list.
Proof.
  apply (HookFacts.registered_entries_run_in_order 5 "testing" [Ex.h1; Ex.h2]
           (Ex.fresh []) (Ex.context_of "derived")).
  - exact quiet_in_example.
  - vm_compute. reflexivity.
  - apply (bool_decide_unpack _). vm_compute. exact I.
  - vm_compute. lia.
Defined.

(** X7 at work: the run of the two [testing] hooks marks [testing]. *)
Lemma run_hooks_marks_witness :
  hooks_that_already_ran
    (self_ (machine (snd (run_hooks 5 "testing" Ex.hooks_start))))
  = match fst (run_hooks 5 "testing" Ex.hooks_start) with
    | Done _ =>
        if bool_decide ("testing" ∈ hooks_that_already_ran
                                      (self_ (machine Ex.hooks_start)))
        then hooks_that_already_ran (self_ (machine Ex.hooks_start))
        else if nonempty (hook_entries (store (machine Ex.hooks_start))
                            (hooks (self_ (machine Ex.hooks_start))) "testing")
             then (hooks_that_already_ran (self_ (machine Ex.hooks_start))
                   ++ ["testing"])%list
             else hooks_that_already_ran (self_ (machine Ex.hooks_start))
    | Raised _ => hooks_that_already_ran (self_ (machine Ex.hooks_start))
    end.
Proof.
  apply (HookFacts.run_hooks_marks 5 "testing" Ex.hooks_start).
  exact marks_kept_in_example.
Defined.

(** X8 at work: an entry added through [derived] over [base]. *)
Lemma hooks_shared_with_base_witness :
  hooks (self_ (machine (snd (_add_hook "testing" Ex.h2 (Ex.derived_installed [])))))
  = hooks (Ex.base_loaded [])
  /\ (forall (d : loc) (h : string),
        hook_entries (store (machine (Ex.derived_installed []))) d h
        = hook_entries (store (machine (Ex.derived_fresh []))) d h)
  /\ hook_entries
       (store (machine (snd (_add_hook "testing" Ex.h2 (Ex.derived_installed [])))))
       (hooks (Ex.base_loaded [])) "testing"
     = (hook_entries (store (machine (Ex.derived_fresh [])))
          (hooks (Ex.base_loaded [])) "testing" ++ [Ex.h2])%list.
Proof.
  apply (HookFacts.hooks_shared_with_base (Ex.base_loaded []) (Ex.derived_fresh [])
           (Ex.derived_installed [])
           (snd (_add_hook "testing" Ex.h2 (Ex.derived_installed [])))
           "testing" Ex.h2).
  - vm_compute. reflexivity.
  - vm_compute. reflexivity.
Defined.

(** X15 at work: the constructor of [derived]. *)
Lemma init_needs_ctx_and_system_witness :
  "derived" <> ""
  /\ fst (__init__ None "derived" "20180101-000000" (Ex.initial []))
     = Raised (AttributeError "'NoneType' object has no attribute")
  /\ fst (__init__ (Some (Ex.context_of "derived")) "" "20180101-000000"
            (Ex.initial []))
     = Raised AssertionError
  /\ fst (__init__ (Some (Ex.context_of "derived")) "derived" "20180101-000000"
            (Ex.initial []))
     = Done tt
  /\ (let st1 := snd (__init__ (Some (Ex.context_of "derived")) "derived"
                        "20180101-000000" (Ex.initial [])) in
      fst (substitution "TIMESTAMP" st1) = Done (Some "20180101-000000")
      /\ fst (substitution "SYSTEM" st1) = Done (Some "derived")
      /\ fst (substitution "ROOT" st1)
         = Done (Some (Ctx.fs_directory (Ex.context_of "derived") None))
      /\ base_context (self_ (machine st1)) = None
      /\ hooks_that_already_ran (self_ (machine st1)) = []
      /\ _command (self_ (machine st1)) = None).
Proof.
  split; [discriminate|].
  apply (ContextFacts.init_needs_ctx_and_system (Ex.context_of "derived")
           "derived" "20180101-000000" (Ex.initial [])).
  discriminate.
Defined.

(** X16 at work: [base] and [derived] constructed in one store. *)
Lemma constructed_contexts_share_nothing_witness :
  let st1 := snd (__init__ (Some (Ex.context_of "base")) "base" "20171231-235959"
                    (Ex.initial [])) in
  let st2 := snd (__init__ (Some (Ex.context_of "derived")) "derived"
                    "20180101-000000" st1) in
  hooks (self_ (machine st2)) <> hooks (self_ (machine st1))
  /\ substitutions (self_ (machine st2)) <> substitutions (self_ (machine st1))
  /\ hook_entries (store (machine (snd (_add_hook "testing" Ex.h1 st2))))
       (hooks (self_ (machine st1))) "testing"
     = hook_entries (store (machine st1)) (hooks (self_ (machine st1))) "testing"
  /\ fst (substitution "TIMESTAMP"
            (seen_from (self_ (machine st1))
               (snd (set_substitution "TIMESTAMP" "later" false st2))))
     = fst (substitution "TIMESTAMP" (seen_from (self_ (machine st1)) st1)).
Proof.
  cbv zeta.
  apply (ContextFacts.constructed_contexts_share_nothing
           (Some (Ex.context_of "base")) (Some (Ex.context_of "derived"))
           "base" "20171231-235959" "derived" "20180101-000000"
           (Ex.initial [])
           (snd (__init__ (Some (Ex.context_of "base")) "base" "20171231-235959"
                   (Ex.initial [])))
           (snd (__init__ (Some (Ex.context_of "derived")) "derived"
                   "20180101-000000"
                   (snd (__init__ (Some (Ex.context_of "base")) "base"
                           "20171231-235959" (Ex.initial [])))))
           "testing" "testing" Ex.h1 "TIMESTAMP" "later" "TIMESTAMP").
  - vm_compute. reflexivity.
  - vm_compute. reflexivity.
Defined.

(** X10 at work: a process run inside the staged root of [derived]. *)
Lemma run_passes_arguments_witness :
  match ({["timeout" := PInt 5]} : gmap string PyObj) !! "trace_output" with
  | Some _ =>
      run [PStr "/usr/bin/true"] false {["timeout" := PInt 5]} (Ex.fresh [])
      = (Raised (TypeError
                   "run() got multiple values for keyword argument 'trace_output'"),
         Ex.fresh [])
  | None =>
      exists kwargs' : gmap string PyObj,
        trace (snd (run [PStr "/usr/bin/true"] false {["timeout" := PInt 5]}
                      (Ex.fresh [])))
        = (trace (Ex.fresh []) ++ [EvRun [PStr "/usr/bin/true"] kwargs'])%list
        /\ (forall key : string,
              key <> "chroot" ->
              kwargs' !! key = ({["timeout" := PInt 5]} : gmap string PyObj) !! key)
        /\ kwargs' !! "chroot"
           = (if false then None
              else Some (PStr (Ctx.fs_directory (Ex.context_of "derived") None)))
        /\ fst (run [PStr "/usr/bin/true"] false {["timeout" := PInt 5]}
                  (Ex.fresh []))
           = fst (run_run [PStr "/usr/bin/true"] kwargs'
                    (world (machine (Ex.fresh []))))
        /\ self_ (machine (snd (run [PStr "/usr/bin/true"] false
                                  {["timeout" := PInt 5]} (Ex.fresh []))))
           = self_ (machine (Ex.fresh []))
        /\ store (machine (snd (run [PStr "/usr/bin/true"] false
                                  {["timeout" := PInt 5]} (Ex.fresh []))))
           = store (machine (Ex.fresh []))
  end.
Proof.
  apply (ContextFacts.run_passes_arguments [PStr "/usr/bin/true"] false
           {["timeout" := PInt 5]} (Ex.fresh []) (Ex.context_of "derived")).
  - vm_compute. reflexivity.
  - vm_compute. reflexivity.
Defined.

(** A caller that gives [trace_output] itself: no process is started. *)
Example run_with_a_trace_output :
  run [PStr "/usr/bin/true"] true {["trace_output" := PNone]} (Ex.fresh [])
  = (Raised (TypeError
               "run() got multiple values for keyword argument 'trace_output'"),
     Ex.fresh []).
Proof. vm_compute. reflexivity. Qed.

(** X11 at work: pickling the context with its two [testing] hooks. *)
Lemma pickle_restores_context_witness :
  exists st1 : State Ex.World,
    pickle Ex.hooks_once = (Done tt, st1)
    /\ self_ (machine st1) = self_ (machine Ex.hooks_once)
    /\ store (machine st1) = store (machine Ex.hooks_once)
    /\ trace st1
       = (trace Ex.hooks_once
          ++ [EvDump (pickle_jar (Ex.context_of "derived") None)
                (pickled_artifact Ex.hooks_once)])%list
    /\ pickled_artifact
         (map_self (fun self => upd_hooks_that_already_ran [] (upd_ctx None self))
            Ex.hooks_once)
       = pickled_artifact Ex.hooks_once.
Proof.
  apply (ContextFacts.pickle_restores_context Ex.hooks_once
           (Ex.context_of "derived") None []).
  - vm_compute. reflexivity.
  - vm_compute. reflexivity.
Defined.

(** X12 at work: the same with a jar that cannot be written. *)
Lemma pickle_failure_detaches_witness :
  exists st1 : State Ex.World,
    @pickle Ex.World ExMore.full_disk Ex.hooks_once
    = (Raised (External "OSError"), st1)
    /\ self_ (machine st1)
       = upd_hooks_that_already_ran [] (upd_ctx None (self_ (machine Ex.hooks_once)))
    /\ ctx (self_ (machine st1)) = None
    /\ hooks_that_already_ran (self_ (machine st1)) = []
    /\ fst (@run_hooks Ex.World ExMore.full_disk 5 "testing" st1)
       = Raised (AttributeError "'NoneType' object has no attribute").
Proof.
  apply (@ContextFacts.pickle_failure_detaches Ex.World ExMore.full_disk
           Ex.hooks_once (Ex.context_of "derived") (External "OSError") 5 "testing").
  - vm_compute. reflexivity.
  - vm_compute. reflexivity.
Defined.

(** X13 at work: the [sed] command of the hook entry [h1]. *)
Lemma pickle_writes_hook_commands_by_name_witness :
  token_of Ex.sed_command ∈ tokens (pickled_artifact Ex.hooks_start)
  /\ by_value (pickled_artifact Ex.hooks_start) = [].
Proof.
  apply (ContextFacts.pickle_writes_hook_commands_by_name Ex.hooks_start
           "testing" Ex.h1 Ex.sed_command).
  - vm_compute. repeat constructor.
  - vm_compute. repeat constructor.
Defined.

(** X14 at work: [sed] at line 3, then [remove] at line 4. *)
Lemma command_cycle_witness :
  _command (self_ (machine (Ex.fresh []))) = None
  /\ set_command "remove" "base.def" 4 0 Ex.command_set
     = (Raised AssertionError, Ex.command_set)
  /\ file_name (self_ (machine (snd (reset_command Ex.command_set))))
     = Some "base.def"
  /\ line_number (self_ (machine (snd (reset_command Ex.command_set)))) = Some 3
  /\ fst (set_command "remove" "base.def" 4 0 (snd (reset_command Ex.command_set)))
     = Done tt.
Proof.
  assert (Hnone : _command (self_ (machine (Ex.fresh []))) = None)
    by (vm_compute; reflexivity).
  split; [exact Hnone|].
  destruct (ContextFacts.command_cycle "sed" "base.def" 3 0 "remove" "base.def" 4 0
              (Ex.fresh []) Hnone)
    as (_ & _ & Hagain & _ & _ & _ & _ & Hfile & Hline & _ & Hthen).
  split; [exact Hagain|]. split; [exact Hfile|]. split; [exact Hline|exact Hthen].
Defined.

(** X17 at work: [add_hook] on the fresh context. *)
Lemma add_hook_before_set_command_witness :
  __init__ (Some (Ex.context_of "derived")) "derived" "20180101-000000"
    (Ex.initial []) = (Done tt, Ex.fresh [])
  /\ add_hook "testing" (PStr "sed") [PStr "s/a/b/"; PStr "/etc/hosts"]
       (PStr "<unknown hook>") ∅ (Ex.fresh [])
     = (Raised (AttributeError "'RunContext' object has no attribute 'line_number'"),
        Ex.fresh []).
Proof.
  split; [vm_compute; reflexivity|].
  apply (ContextFacts.add_hook_before_set_command (Some (Ex.context_of "derived"))
           "derived" "20180101-000000" "testing" (PStr "sed")
           [PStr "s/a/b/"; PStr "/etc/hosts"] (PStr "<unknown hook>") ∅
           (Ex.initial []) (Ex.fresh [])).
  vm_compute. reflexivity.
Defined.

(** X18 at work: [add_hook] in [base.def], line 3. *)
Lemma add_hook_uses_last_location_witness :
  (exists st' : State Ex.World,
      add_hook "testing" (PStr "sed") [PStr "s/a/b/"; PStr "/etc/hosts"]
        (PStr "<unknown hook>") ∅ Ex.command_set = (Done tt, st')
      /\ hook_entries (store (machine st')) (hooks (self_ (machine (Ex.fresh []))))
           "testing"
         = (hook_entries (store (machine (Ex.fresh [])))
              (hooks (self_ (machine (Ex.fresh [])))) "testing"
            ++ [ExMore.hooked_sed])%list)
  /\ (exists st' : State Ex.World,
         add_hook "testing" (PStr "sed") [PStr "s/a/b/"; PStr "/etc/hosts"]
           (PStr "<unknown hook>") ∅ (snd (reset_command Ex.command_set))
         = (Done tt, st')
         /\ hook_entries (store (machine st')) (hooks (self_ (machine (Ex.fresh []))))
              "testing"
            = (hook_entries (store (machine (Ex.fresh [])))
                 (hooks (self_ (machine (Ex.fresh [])))) "testing"
               ++ [ExMore.hooked_sed])%list).
Proof.
  apply (ContextFacts.add_hook_uses_last_location "sed" "base.def" 3 0 "testing"
           (PStr "sed") [PStr "s/a/b/"; PStr "/etc/hosts"] (PStr "<unknown hook>") ∅
           (Ex.fresh []) Ex.command_set (Ex.context_of "derived") ExMore.hooked_sed).
  - vm_compute. reflexivity.
  - vm_compute. reflexivity.
  - vm_compute. reflexivity.
Defined.

(** X19 at work: the module of [sed]. *)
Lemma name_strips_package_witness :
  String.length "cleanroom.commands." = 19%nat
  /\ name (mkCommand 7 ("cleanroom.commands." +:+ "sed") "" "") = "sed"
  /\ token_of (mkCommand 7 ("cleanroom.commands." +:+ "sed") "" "")
     = PTuple [PStr "Command"; PStr "sed"].
Proof.
  split; [reflexivity|].
  apply (RegistryFacts.name_strips_package "cleanroom.commands." "sed" "" "" 7).
  reflexivity.
Defined.

(** X20 at work: a hook entry saved with another [sed] object. *)
Lemma load_gives_registry_instances_witness :
  load persistent_load
    (dump persistent_id (PList [PCmd ExMore.saved_sed_command; PStr "x"])) 100
  = (Done (Resolve.resolve (fun _ => Ex.sed_command)
             (PList [PCmd ExMore.saved_sed_command; PStr "x"])), 100%nat)
  /\ commands (Resolve.resolve (fun _ => Ex.sed_command)
                 (PList [PCmd ExMore.saved_sed_command; PStr "x"]))
     = map (fun _ => Ex.sed_command)
         (commands (PList [PCmd ExMore.saved_sed_command; PStr "x"])).
Proof.
  apply (RegistryFacts.load_gives_registry_instances (fun _ => Ex.sed_command)
           (PList [PCmd ExMore.saved_sed_command; PStr "x"]) 100).
  vm_compute. repeat constructor.
Defined.

(** The object that comes back is the registry's, not the saved one. *)
Example saved_sed_comes_back_as_the_registry_s :
  load persistent_load (dump persistent_id (PCmd ExMore.saved_sed_command)) 100
  = (Done (PCmd Ex.sed_command), 100%nat)
  /\ obj_id ExMore.saved_sed_command = 3%nat
  /\ obj_id Ex.sed_command = 7%nat.
Proof. vm_compute. repeat split. Qed.

(** X21 at work: [sed] with a pattern and no file. *)
Lemma sed_needs_two_arguments_witness :
  (length [PStr "s/a/b/"] < 2)%nat
  /\ Sed.validate_arguments [PStr "s/a/b/"] ∅
     = Raised (ParseError "sed needs a pattern and a file.")
  /\ Sed.__call__ [PStr "s/a/b/"] ∅ (Ex.fresh []) = (Raised IndexError, Ex.fresh []).
Proof.
  split; [vm_compute; lia|].
  apply (CommandCallFacts.sed_needs_two_arguments [PStr "s/a/b/"] ∅ (Ex.fresh [])).
  vm_compute. lia.
Defined.

(** X23 at work: [execute('sed', 's/a/b/')]. *)
Lemma execute_validates_first_witness :
  execute (PStr "sed") [PStr "s/a/b/"] ∅ (Ex.fresh [])
  = (Raised (match fst (validate_arguments_of Ex.sed_command [PStr "s/a/b/"] ∅
                          (Ex.fresh [])) with
             | Raised e => e
             | Done _ => AssertionError
             end),
     snd (validate_arguments_of Ex.sed_command [PStr "s/a/b/"] ∅ (Ex.fresh []))).
Proof.
  apply (CommandCallFacts.execute_validates_first (PStr "sed") Ex.sed_command
           [PStr "s/a/b/"] ∅ (Ex.fresh [])).
  - vm_compute. reflexivity.
  - vm_compute. discriminate.
Defined.

(** ... which is the [ParseError] of [sed], with nothing run. *)
Example execute_sed_with_one_argument :
  execute (PStr "sed") [PStr "s/a/b/"] ∅ (Ex.fresh [])
  = (Raised (ParseError "sed needs a pattern and a file."), Ex.fresh [])
  /\ trace (snd (execute (PStr "sed") [PStr "s/a/b/"; PStr "/etc/hosts"] ∅
                   (Ex.fresh [])))
     = [EvRun [PStr "/usr/bin/sed"; PStr "-i"; PStr "-e"; PStr "s/a/b/";
               PStr "/work/current/derived/fs/etc/hosts"] ∅].
Proof. vm_compute. repeat split. Qed.

(** [unpickle_base_context] of the system that has a jar, and of one
    that has none. *)
Example unpickle_in_example :
  fst (unpickle_base_context "base" (Ex.fresh [])) = Done tt
  /\ timestamp (self_ (machine (snd (unpickle_base_context "base" (Ex.fresh [])))))
     = "20171231-235959"
  /\ fst (unpickle_base_context "missing" (Ex.fresh []))
     = Raised (External "FileNotFoundError")
  /\ self_ (machine (snd (unpickle_base_context "missing" (Ex.fresh []))))
     = self_ (machine (Ex.fresh [])).
Proof. vm_compute. repeat split. Qed.

(** X25 at work: [set_timezone('Europe/Berlin')]. *)
Lemma set_timezone_removes_then_links_witness :
  SetTimezone.calls
    (snd (SetTimezone.__call__ 7%nat [PStr "Europe/Berlin"] ∅
            (SetTimezone.mkSysState ["../usr/share/zoneinfo/Europe/Berlin"] [])))
  = [SetTimezone.mkCall 7%nat "remove" [PStr "/etc/localtime"] ∅;
     SetTimezone.mkCall 8%nat "symlink"
       [PStr "../usr/share/zoneinfo/Europe/Berlin"; PStr "localtime"]
       {["base_directory" := PStr "/etc"]}].
Proof.
  rewrite (TimezoneFacts.set_timezone_removes_then_links 7%nat "Europe/Berlin" [] ∅
             (SetTimezone.mkSysState ["../usr/share/zoneinfo/Europe/Berlin"] [])).
  - vm_compute. reflexivity.
  - vm_compute. reflexivity.
Defined.

(** X26 at work: a user nobody knows. *)
Lemma ssh_unknown_user_witness :
  SshAllowLogin.__call__ 7%nat [PStr "mallory"; PStr "id_rsa.pub"] ∅ ExMore.prepared
  = (Raised (GenerateError (SshAllowLogin.no_user_message (PStr "mallory"))),
     ExMore.prepared)
  /\ SshAllowLogin.no_user_message (Location := nat) (PStr "mallory")
     = dq +:+ "ssh_allow_login" +:+ dq +:+ " could not find user "
       +:+ dq +:+ SshAllowLogin.formatted (Location := nat) (PStr "mallory")
       +:+ dq +:+ ".".
Proof.
  apply (SshAllowLoginFacts.ssh_unknown_user 7%nat (PStr "mallory")
           (PStr "id_rsa.pub") [] ∅ ExMore.prepared).
  vm_compute. reflexivity.
Defined.

(** X27 at work: a file where [.ssh] should be. *)
Lemma ssh_blocked_by_a_file_witness :
  SshAllowLogin.__call__ 7%nat [PStr "alice"; PStr "id_rsa.pub"] ∅ ExMore.blocked
  = (Raised (GenerateError
               (SshAllowLogin.not_a_directory_message "/home/alice/.ssh")),
     ExMore.blocked).
Proof.
  apply (SshAllowLoginFacts.ssh_blocked_by_a_file 7%nat (PStr "alice")
           (PStr "id_rsa.pub") [] ∅ ExMore.blocked ExMore.alice "/home/alice/.ssh").
  - vm_compute. reflexivity.
  - vm_compute. reflexivity.
  - vm_compute. reflexivity.
  - vm_compute. reflexivity.
  - right. split; vm_compute; reflexivity.
Defined.

Lemma prepared_is_ready :
  SshAllowLogin.ready 7%nat (PStr "alice") (PStr "id_rsa.pub") ∅ ExMore.alice
    ExMore.alice_line (SshAllowLogin.system_context ExMore.prepared).
Proof.
  split_and!; try (vm_compute; reflexivity).
  exists ExMore.alice_key. split; vm_compute; reflexivity.
Defined.

Lemma prepared_stays_ready :
  SshAllowLogin.ready 7%nat (PStr "alice") (PStr "id_rsa.pub") ∅ ExMore.alice
    ExMore.alice_line
    (SshAllowLogin.system_context
       (snd (SshAllowLogin.__call__ 7%nat [PStr "alice"; PStr "id_rsa.pub"] ∅
               ExMore.prepared))).
Proof.
  split_and!; try (vm_compute; reflexivity).
  exists ExMore.alice_key. split; vm_compute; reflexivity.
Defined.

(** X28 at work: the key of [alice]. *)
Lemma ssh_adds_the_key_witness :
  SshAllowLogin.effects
    (snd (SshAllowLogin.__call__ 7%nat [PStr "alice"; PStr "id_rsa.pub"] ∅
            ExMore.prepared))
  = [SshAllowLogin.Executed
       (SetTimezone.mkCall 8%nat "append"
          [PStr "/home/alice/.ssh/authorized_keys"; PStr ExMore.alice_line]
          {["force" := PBool true]});
     SshAllowLogin.Chowned 1000 1000 "/home/alice/.ssh/authorized_keys";
     SshAllowLogin.Chmodded 384 "/home/alice/.ssh/authorized_keys"].
Proof.
  rewrite (SshAllowLoginFacts.ssh_adds_the_key 7%nat (PStr "alice")
             (PStr "id_rsa.pub") [] ∅ ExMore.prepared ExMore.alice
             ExMore.alice_line prepared_is_ready).
  vm_compute. reflexivity.
Defined.

(** X29 at work: the key of [alice], twice. *)
Lemma ssh_twice_appends_twice_witness :
  SshAllowLogin.effects
    (snd (SshAllowLogin.__call__ 7%nat [PStr "alice"; PStr "id_rsa.pub"] ∅
            (snd (SshAllowLogin.__call__ 7%nat [PStr "alice"; PStr "id_rsa.pub"] ∅
                    ExMore.prepared))))
  = (SshAllowLogin.effects ExMore.prepared
     ++ SshAllowLogin.key_effects 7%nat ExMore.alice ExMore.alice_line
     ++ SshAllowLogin.key_effects 7%nat ExMore.alice ExMore.alice_line)%list.
Proof.
  exact (SshAllowLoginFacts.ssh_twice_appends_twice 7%nat (PStr "alice")
           (PStr "id_rsa.pub") [] ∅ ExMore.prepared ExMore.alice
           ExMore.alice_line prepared_is_ready prepared_stays_ready).
Defined.

(** X30 at work: [alice] on a system without her directories. *)
Lemma ssh_makes_the_directories_witness :
  (SshAllowLogin.effects ExMore.bare
   ++ [SshAllowLogin.Executed
         (SetTimezone.mkCall (SshAllowLogin.next_line 7%nat) "mkdir"
            [PStr (SshAllowLogin.home ExMore.alice)]
            {["mode" := PInt 488;
              "user" := PInt (SshAllowLogin.uid ExMore.alice);
              "group" := PInt (SshAllowLogin.gid ExMore.alice)]});
       SshAllowLogin.Executed
         (SetTimezone.mkCall (SshAllowLogin.next_line 7%nat) "mkdir"
            [PStr (SshAllowLogin.path_join (SshAllowLogin.home ExMore.alice) ".ssh")]
            {["mode" := PInt 448;
              "user" := PInt (SshAllowLogin.uid ExMore.alice);
              "group" := PInt (SshAllowLogin.gid ExMore.alice)]})])%list
  `prefix_of`
  SshAllowLogin.effects
    (snd (SshAllowLogin.__call__ 7%nat [PStr "alice"; PStr "id_rsa.pub"] ∅
            ExMore.bare)).
Proof.
  apply (SshAllowLoginFacts.ssh_makes_the_directories 7%nat (PStr "alice")
           (PStr "id_rsa.pub") [] ∅ ExMore.bare ExMore.alice).
  - vm_compute. reflexivity.
  - vm_compute. reflexivity.
  - vm_compute. reflexivity.
  - vm_compute. reflexivity.
Defined.

(** The whole of that run: two directories, then the key. *)
Example ssh_on_a_bare_system :
  map (fun ev => match ev with
                 | SshAllowLogin.Executed c => SetTimezone.call_command _ c
                 | SshAllowLogin.Chowned _ _ _ => "chown"
                 | SshAllowLogin.Chmodded _ _ => "chmod"
                 end)
    (SshAllowLogin.effects
       (snd (SshAllowLogin.__call__ 7%nat [PStr "alice"; PStr "id_rsa.pub"] ∅
               ExMore.bare)))
  = ["mkdir"; "mkdir"; "append"; "chown"; "chmod"].
Proof. vm_compute. reflexivity. Qed.

End MoreChecks.
